(** * Carbon offset quality screener: scoring and red-flag engine

    A shallow embedding of [src/scorer.py] (class [CarbonQualityScorer]) and
    [src/red_flags.py] (class [RedFlagDetector]), followed by the proofs of
    the properties C1 to C10 of the specification.

    Conventions of the embedding:
    - a Python float is an exact rational or NaN ([float := option Q]);
      arithmetic propagates NaN and every comparison with NaN is false;
      infinities are not represented, and binary rounding error is
      represented where a property is about the digits of a result: in the
      percentage of [get_flag_summary], computed in binary64;
    - a date cell is a count of nanoseconds since the epoch, or NaT;
    - a string is a [string] of 8-bit characters; case and white space are
      those of the characters below 128;
    - a DataFrame is its column index together with its list of rows; every
      row carries a cell for every known column, and a cell is observable
      only when its column name is in the index; cells are typed as the
      cleaning step delivers them, and [None] is a missing value; the
      project_type column also carries its dtype, which pandas infers from
      the cells it reads and on which [Series.str] depends;
    - code that can raise runs in the error monad [result]: [KeyError] for
      an absent column or key, [ZeroDivisionError] for [/] by zero,
      [AttributeError] for [Series.str] on a column that is not text;
    - the pandas and standard-library operations that the two classes call
      ([df.apply], [pd.cut], [Series.str.contains], [round], [Counter],
      [max]) are written out as the functions they compute on these data;
      the clock and [pd.DateOffset] are parameters. *)

From Stdlib Require Import ZArith QArith Qabs Qpower Qround Lqa Lia.
From Stdlib Require Import List String Ascii Bool Permutation Sorted.
Import ListNotations.

Open Scope Q_scope.

(* ------------------------------------------------------------------ *)
(** * Exceptions                                                        *)
(* ------------------------------------------------------------------ *)

Inductive exn : Type :=
| KeyError (key : string)
| ZeroDivisionError
| AttributeError.

Inductive result (A : Type) : Type :=
| Ok (a : A)
| Raise (e : exn).

Arguments Ok {A} a.
Arguments Raise {A} e.

Definition bind {A B : Type} (c : result A) (k : A -> result B) : result B :=
  match c with
  | Ok a => k a
  | Raise e => Raise e
  end.

Notation "x <- c ;; k" := (bind c (fun x => k))
  (at level 61, c at next level, right associativity).

Fixpoint mapM {A B : Type} (f : A -> result B) (l : list A) : result (list B) :=
  match l with
  | [] => Ok []
  | x :: t => y <- f x ;; ys <- mapM f t ;; Ok (y :: ys)
  end.

Fixpoint map2 {A B C : Type} (f : A -> B -> C) (l1 : list A) (l2 : list B) : list C :=
  match l1, l2 with
  | x :: t1, y :: t2 => f x y :: map2 f t1 t2
  | _, _ => []
  end.

(* ------------------------------------------------------------------ *)
(** * Floats                                                            *)
(* ------------------------------------------------------------------ *)

Definition float : Type := option Q.
Definition NaN : float := None.
Definition fl (q : Q) : float := Some q.

Definition f_lift2 (op : Q -> Q -> Q) (a b : float) : float :=
  match a, b with
  | Some x, Some y => Some (op x y)
  | _, _ => None
  end.

Definition f_cmp (test : Q -> Q -> bool) (a b : float) : bool :=
  match a, b with
  | Some x, Some y => test x y
  | _, _ => false
  end.

Definition Qlt_bool (x y : Q) : bool := negb (Qle_bool y x).

Definition f_add : float -> float -> float := f_lift2 Qplus.
Definition f_sub : float -> float -> float := f_lift2 Qminus.
Definition f_mul : float -> float -> float := f_lift2 Qmult.
Definition f_le : float -> float -> bool := f_cmp Qle_bool.
Definition f_lt : float -> float -> bool := f_cmp Qlt_bool.
Definition f_ge (a b : float) : bool := f_le b a.
Definition f_gt (a b : float) : bool := f_lt b a.
Definition f_eq : float -> float -> bool := f_cmp Qeq_bool.
Definition f_ne (a b : float) : bool := negb (f_eq a b).

(** Python's [a / b] on scalars: a zero divisor raises. *)
Definition py_div (a b : float) : result float :=
  match b with
  | Some y => if Qeq_bool y 0 then Raise ZeroDivisionError else Ok (f_lift2 Qdiv a b)
  | None => Ok NaN
  end.

(** Element-wise [/] on Series never raises.  numpy yields an infinity or
    NaN on a zero divisor; the one use below replaces zeros by NaN first. *)
Definition np_div (a b : float) : float :=
  match b with
  | Some y => if Qeq_bool y 0 then NaN else f_lift2 Qdiv a b
  | None => NaN
  end.

(** Python's builtin [max(a, b)]: [b] replaces [a] only when [b > a]. *)
Definition py_max (a b : float) : float := if f_gt b a then b else a.

(** Round half to even to the nearest integer. *)
Definition rint (x : Q) : Z :=
  let f := Qfloor x in
  match Qcompare (x - inject_Z f) (1 # 2) with
  | Lt => f
  | Gt => (f + 1)%Z
  | Eq => if Z.even f then f else (f + 1)%Z
  end.

Definition Qround_digits (x : Q) (ndigits : Z) : Q :=
  let scale := Qpower 10 ndigits in
  inject_Z (rint (x * scale)) / scale.

(** [round(x, ndigits)] and [Series.round(ndigits)]. *)
Definition f_round (x : float) (ndigits : Z) : float :=
  option_map (fun q => Qround_digits q ndigits) x.

(** ** Binary64

    The doubles are the rationals [m * 2^e] with [|m| < 2^53] and
    [e >= -1074].  Magnitudes beyond the largest double do not arise below:
    the operands are counts of list entries. *)

(** The greatest [k] with [2^k <= q], for [q > 0]. *)
Definition Qlog2_floor (q : Q) : Z :=
  let k := (Z.log2 (Qnum q) - Z.log2 (Zpos (Qden q)))%Z in
  if Qle_bool (Qpower 2 k) q then k else (k - 1)%Z.

(** The exponent of the unit in the last place of the doubles of the
    magnitude of [q]: 53 significant bits, and no exponent below that of the
    subnormal numbers. *)
Definition ulp_exponent (q : Q) : Z :=
  Z.max (Qlog2_floor (Qabs q) - 52) (-1074).

(** The double nearest to [q], ties to the even significand. *)
Definition b64 (q : Q) : Q :=
  if Qeq_bool q 0 then 0
  else let ulp := Qpower 2 (ulp_exponent q) in
       inject_Z (rint (q / ulp)) * ulp.

(** Python's [a / b] on integers: the double nearest to the quotient. *)
Definition py_int_div (a b : Z) : result float :=
  if (b =? 0)%Z then Raise ZeroDivisionError
  else Ok (fl (b64 (inject_Z a / inject_Z b))).

(** [a * b] on doubles. *)
Definition b64_mul (a b : float) : float := option_map b64 (f_mul a b).

(** [round(x, ndigits)] on a double: the decimal of [ndigits] digits nearest
    to the exact value of [x], ties to even, read back as a double; the
    result is represented by that decimal. *)
Definition py_round (x : float) (ndigits : Z) : float := f_round x ndigits.

Declare Scope float_scope.
Delimit Scope float_scope with fl.
Infix "+" := f_add : float_scope.
Infix "-" := f_sub : float_scope.
Infix "*" := f_mul : float_scope.
Infix "<=?" := f_le (at level 70, no associativity) : float_scope.
Infix "<?" := f_lt (at level 70, no associativity) : float_scope.
Infix ">=?" := f_ge (at level 70, no associativity) : float_scope.
Infix ">?" := f_gt (at level 70, no associativity) : float_scope.
Infix "==?" := f_eq (at level 70, no associativity) : float_scope.
Infix "!=?" := f_ne (at level 70, no associativity) : float_scope.

(** Two floats denote the same number. *)
Definition f_same (a b : float) : Prop :=
  match a, b with
  | Some x, Some y => x == y
  | None, None => True
  | _, _ => False
  end.

(** A float is a number within [lo, hi]. *)
Definition f_within (lo hi : Q) (a : float) : Prop :=
  match a with
  | Some x => lo <= x <= hi
  | None => False
  end.

(* ------------------------------------------------------------------ *)
(** * Timestamps                                                        *)
(* ------------------------------------------------------------------ *)

Definition Timestamp : Type := Z.
Definition ns_per_day : Z := 86400000000000.

(** [(a - b).days]: whole days of a Timedelta, rounded towards minus
    infinity. *)
Definition timedelta_days (a b : Timestamp) : Z := ((a - b) / ns_per_day)%Z.

(* ------------------------------------------------------------------ *)
(** * Strings                                                           *)
(* ------------------------------------------------------------------ *)

Definition is_upper (c : ascii) : bool :=
  let n := nat_of_ascii c in (65 <=? n)%nat && (n <=? 90)%nat.

Definition lower_char (c : ascii) : ascii :=
  if is_upper c then ascii_of_nat (nat_of_ascii c + 32) else c.

(** [s.lower()] *)
Fixpoint lower (s : string) : string :=
  match s with
  | EmptyString => EmptyString
  | String c t => String (lower_char c) (lower t)
  end.

(** [c.isspace()] on the characters below 128. *)
Definition is_space (c : ascii) : bool :=
  let n := nat_of_ascii c in
  ((9 <=? n)%nat && (n <=? 13)%nat) || ((28 <=? n)%nat && (n <=? 32)%nat).

Fixpoint lstrip (s : string) : string :=
  match s with
  | EmptyString => EmptyString
  | String c t => if is_space c then lstrip t else s
  end.

Fixpoint rstrip (s : string) : string :=
  match s with
  | EmptyString => EmptyString
  | String c t =>
      match rstrip t with
      | EmptyString => if is_space c then EmptyString else String c EmptyString
      | t' => String c t'
      end
  end.

(** [s.strip()] *)
Definition strip (s : string) : string := rstrip (lstrip s).

(** [needle in hay] *)
Fixpoint contains (needle hay : string) : bool :=
  prefix needle hay ||
  match hay with
  | EmptyString => false
  | String _ t => contains needle t
  end.

(** [Series.str.contains(pat, case=False, na=False)] on one cell, for a
    pattern without regular-expression metacharacters. *)
Definition str_contains_nocase (pat : string) (cell : option string) : bool :=
  match cell with
  | Some s => contains (lower pat) (lower s)
  | None => false
  end.

(* ------------------------------------------------------------------ *)
(** * Data model                                                        *)
(* ------------------------------------------------------------------ *)

(** The cells of a cleaned project record.  [None] is a missing value
    (None, NaN or NaT). *)
Record Project : Type := {
  country : option string;
  project_type : option string;
  registration_date : option Timestamp;
  crediting_period_start : option Timestamp;
  crediting_period_end : option Timestamp;
  total_issued : float;
  total_retired : float;
  total_buffer_pool : float;
  estimated_annual_reductions : float;
  proponent : option string;
  region : option string
}.

Inductive Tier : Type := Very_Low | Low | Medium | High | Very_High.

(** The cells appended by [score_all]. *)
Record Scores : Type := {
  vintage_score : float;
  retirement_ratio_score : float;
  project_type_score : float;
  transparency_score : float;
  additionality_score : float;
  governance_score : float;
  cqi : float;
  quality_tier : option Tier
}.

(** The cells appended by [detect]. *)
Record Flagging : Type := {
  flags : list string;
  flag_count : Z;
  max_severity : string
}.

Record Row : Type := {
  project : Project;
  scores : Scores;
  flagging : Flagging
}.

(** The dtype of a column of text cells: [object] when it holds text,
    [float64] when pandas has read it with every cell missing. *)
Inductive dtype : Type := dtype_object | dtype_float64.

Record DataFrame : Type := {
  columns : list string;
  rows : list Row;
  project_type_dtype : dtype
}.

Definition with_scores (f : Scores -> Scores) (r : Row) : Row :=
  {| project := project r; scores := f (scores r); flagging := flagging r |}.

Definition with_flagging (f : Flagging -> Flagging) (r : Row) : Row :=
  {| project := project r; scores := scores r; flagging := f (flagging r) |}.

Definition set_vintage_score (v : float) : Row -> Row :=
  with_scores (fun s =>
    {| vintage_score := v;
       retirement_ratio_score := retirement_ratio_score s;
       project_type_score := project_type_score s;
       transparency_score := transparency_score s;
       additionality_score := additionality_score s;
       governance_score := governance_score s;
       cqi := cqi s; quality_tier := quality_tier s |}).

Definition set_retirement_ratio_score (v : float) : Row -> Row :=
  with_scores (fun s =>
    {| vintage_score := vintage_score s;
       retirement_ratio_score := v;
       project_type_score := project_type_score s;
       transparency_score := transparency_score s;
       additionality_score := additionality_score s;
       governance_score := governance_score s;
       cqi := cqi s; quality_tier := quality_tier s |}).

Definition set_project_type_score (v : float) : Row -> Row :=
  with_scores (fun s =>
    {| vintage_score := vintage_score s;
       retirement_ratio_score := retirement_ratio_score s;
       project_type_score := v;
       transparency_score := transparency_score s;
       additionality_score := additionality_score s;
       governance_score := governance_score s;
       cqi := cqi s; quality_tier := quality_tier s |}).

Definition set_transparency_score (v : float) : Row -> Row :=
  with_scores (fun s =>
    {| vintage_score := vintage_score s;
       retirement_ratio_score := retirement_ratio_score s;
       project_type_score := project_type_score s;
       transparency_score := v;
       additionality_score := additionality_score s;
       governance_score := governance_score s;
       cqi := cqi s; quality_tier := quality_tier s |}).

Definition set_additionality_score (v : float) : Row -> Row :=
  with_scores (fun s =>
    {| vintage_score := vintage_score s;
       retirement_ratio_score := retirement_ratio_score s;
       project_type_score := project_type_score s;
       transparency_score := transparency_score s;
       additionality_score := v;
       governance_score := governance_score s;
       cqi := cqi s; quality_tier := quality_tier s |}).

Definition set_governance_score (v : float) : Row -> Row :=
  with_scores (fun s =>
    {| vintage_score := vintage_score s;
       retirement_ratio_score := retirement_ratio_score s;
       project_type_score := project_type_score s;
       transparency_score := transparency_score s;
       additionality_score := additionality_score s;
       governance_score := v;
       cqi := cqi s; quality_tier := quality_tier s |}).

Definition set_cqi (v : float) : Row -> Row :=
  with_scores (fun s =>
    {| vintage_score := vintage_score s;
       retirement_ratio_score := retirement_ratio_score s;
       project_type_score := project_type_score s;
       transparency_score := transparency_score s;
       additionality_score := additionality_score s;
       governance_score := governance_score s;
       cqi := v; quality_tier := quality_tier s |}).

Definition set_quality_tier (v : option Tier) : Row -> Row :=
  with_scores (fun s =>
    {| vintage_score := vintage_score s;
       retirement_ratio_score := retirement_ratio_score s;
       project_type_score := project_type_score s;
       transparency_score := transparency_score s;
       additionality_score := additionality_score s;
       governance_score := governance_score s;
       cqi := cqi s; quality_tier := v |}).

Definition set_flags (v : list string) : Row -> Row :=
  with_flagging (fun g =>
    {| flags := v; flag_count := flag_count g; max_severity := max_severity g |}).

Definition set_flag_count (v : Z) : Row -> Row :=
  with_flagging (fun g =>
    {| flags := flags g; flag_count := v; max_severity := max_severity g |}).

Definition set_max_severity (v : string) : Row -> Row :=
  with_flagging (fun g =>
    {| flags := flags g; flag_count := flag_count g; max_severity := v |}).

(** ** Column access *)

(** [c in df.columns], [c in row] *)
Definition has_column (cols : list string) (c : string) : bool :=
  existsb (String.eqb c) cols.

(** [row.get(c)]: the cell, or None when the row has no such label. *)
Definition row_get {A : Type} (cols : list string) (c : string) (cell : option A)
  : option A :=
  if has_column cols c then cell else None.

(** [row.get(c, 0)] *)
Definition row_get_or_0 (cols : list string) (c : string) (cell : float) : float :=
  if has_column cols c then cell else fl 0.

(** [df[c]] as a right-hand side. *)
Definition getitem {A : Type} (df : DataFrame) (c : string) (cell : Row -> A)
  : result (list A) :=
  if has_column (columns df) c then Ok (map cell (rows df)) else Raise (KeyError c).

Definition add_column (c : string) (cols : list string) : list string :=
  if has_column cols c then cols else (cols ++ [c])%list.

(** [df[c] = values] *)
Definition setitem {A : Type} (df : DataFrame) (c : string)
  (set : A -> Row -> Row) (values : list A) : DataFrame :=
  {| columns := add_column c (columns df);
     rows := map2 set values (rows df);
     project_type_dtype := project_type_dtype df |}.

(** [s.str] on the project_type column: the accessor exists on a column of
    text only. *)
Definition str_accessor (df : DataFrame) (c : list (option string))
  : result (list (option string)) :=
  match project_type_dtype df with
  | dtype_object => Ok c
  | dtype_float64 => Raise AttributeError
  end.

(** [df.apply(f, axis=1)] *)
Definition apply_rows {A : Type} (df : DataFrame)
  (f : list string -> Row -> result A) : result (list A) :=
  mapM (f (columns df)) (rows df).

(* ------------------------------------------------------------------ *)
(** * scorer.py                                                         *)
(* ------------------------------------------------------------------ *)

Definition HIGH_RISK_TYPES : list string :=
  [ "REDD+";
    "Avoided Deforestation";
    "Avoided Unplanned Deforestation and Degradation" ]%string.

Definition MEDIUM_RISK_TYPES : list string :=
  [ "Improved Forest Management";
    "Agriculture Forestry and Other Land Use";
    "Afforestation/Reforestation" ]%string.

Definition COUNTRY_GOVERNANCE_SCORE : list (string * Q) :=
  [ ("Brazil", 0.55); ("Indonesia", 0.50); ("Peru", 0.60); ("Colombia", 0.55);
    ("Mexico", 0.60); ("Kenya", 0.50); ("Tanzania", 0.45); ("Cambodia", 0.40);
    ("India", 0.55); ("China", 0.50); ("Vietnam", 0.45); ("Madagascar", 0.35);
    ("Democratic Republic of the Congo", 0.25); ("Uganda", 0.40);
    ("Chile", 0.75); ("Costa Rica", 0.75); ("Uruguay", 0.75);
    ("Ghana", 0.55); ("Senegal", 0.55); ("Rwanda", 0.60);
    ("United States", 0.85); ("Canada", 0.85); ("Australia", 0.85);
    ("Germany", 0.90); ("Sweden", 0.90) ]%string.

Definition DEFAULT_GOVERNANCE_SCORE : Q := 0.50.

(** [d.get(key, default)] on a dict kept as an association list. *)
Fixpoint dict_get {V : Type} (d : list (string * V)) (key : string) (default : V) : V :=
  match d with
  | [] => default
  | (k, v) :: t => if String.eqb key k then v else dict_get t key default
  end.

Definition WEIGHTS : list (string * Q) :=
  [ ("vintage_score", 0.20);
    ("retirement_ratio_score", 0.20);
    ("project_type_score", 0.20);
    ("transparency_score", 0.15);
    ("additionality_score", 0.15);
    ("governance_score", 0.10) ]%string.

(** ** Dimension scoring methods *)

Definition _vintage_score (cols : list string) (row : Row)
  (reference_date : Timestamp) : result float :=
  match row_get cols "registration_date" (registration_date (project row)) with
  | None => Ok (fl 50)
  | Some reg_date =>
      age_years <-
        py_div (fl (inject_Z (timedelta_days reference_date reg_date))) (fl 365.25) ;;
      if (age_years <=? fl 3)%fl then Ok (fl 100)
      else if (age_years <=? fl 8)%fl then
        Ok (fl 100 - (age_years - fl 3) * fl 6)%fl
      else if (age_years <=? fl 12)%fl then
        Ok (fl 70 - (age_years - fl 8) * fl 10)%fl
      else
        Ok (py_max (fl 10) (fl 30 - (age_years - fl 12) * fl 5)%fl)
  end.

Definition _retirement_ratio_score (cols : list string) (row : Row) : result float :=
  let issued := row_get_or_0 cols "total_issued" (total_issued (project row)) in
  let retired := row_get_or_0 cols "total_retired" (total_retired (project row)) in
  if (issued <=? fl 0)%fl then Ok (fl 50)
  else
    ratio <- py_div retired issued ;;
    if (ratio >=? fl 0.80)%fl then Ok (fl 100)
    else if (ratio >=? fl 0.50)%fl then
      Ok (fl 60 + (ratio - fl 0.50) * fl 200)%fl
    else if (ratio >=? fl 0.20)%fl then
      Ok (fl 30 + (ratio - fl 0.20) * fl 100)%fl
    else if (ratio >=? fl 0.05)%fl then
      Ok (fl 10 + (ratio - fl 0.05) * fl 133)%fl
    else
      Ok (py_max (fl 0) (ratio * fl 200)%fl).

Definition _project_type_score (project_type : option string) : float :=
  match project_type with
  | None => fl 50
  | Some s =>
      let pt := strip s in
      if existsb (fun ht => contains (lower ht) (lower pt)) HIGH_RISK_TYPES then fl 30
      else if existsb (fun mt => contains (lower mt) (lower pt)) MEDIUM_RISK_TYPES
      then fl 60
      else fl 85
  end.

(** [f in row and not pd.isna(row.get(f)) and row.get(f) != 0] for a text or
    date cell, which never equals 0. *)
Definition populated_cell {A : Type} (cols : list string) (f : string)
  (cell : option A) : bool :=
  has_column cols f &&
  match row_get cols f cell with Some _ => true | None => false end.

(** The same test for a numeric cell. *)
Definition populated_number (cols : list string) (f : string) (cell : float) : bool :=
  has_column cols f &&
  match row_get cols f cell with Some _ => true | None => false end &&
  (row_get cols f cell !=? fl 0)%fl.

Definition count_true (l : list bool) : Z :=
  fold_right (fun (b : bool) (n : Z) => if b then (n + 1)%Z else n) 0%Z l.

Definition _transparency_score (cols : list string) (row : Row) : result float :=
  let p := project row in
  let scored_fields :=
    [ populated_cell cols "proponent" (proponent p);
      populated_cell cols "region" (region p);
      populated_cell cols "crediting_period_start" (crediting_period_start p);
      populated_cell cols "crediting_period_end" (crediting_period_end p);
      populated_number cols "estimated_annual_reductions"
        (estimated_annual_reductions p);
      populated_number cols "total_buffer_pool" (total_buffer_pool p) ] in
  let populated := count_true scored_fields in
  frac <- py_div (fl (inject_Z populated))
                 (fl (inject_Z (Z.of_nat (List.length scored_fields)))) ;;
  Ok (f_round (frac * fl 100)%fl 1).

Definition _additionality_score (cols : list string) (row : Row)
  (reference_date : Timestamp) : result float :=
  match row_get cols "registration_date" (registration_date (project row)),
        row_get cols "crediting_period_start" (crediting_period_start (project row))
  with
  | Some reg_date, Some cp_start =>
      lag_years <-
        py_div (fl (inject_Z (timedelta_days reg_date cp_start))) (fl 365.25) ;;
      if (lag_years <=? fl 1)%fl then Ok (fl 90)
      else if (lag_years <=? fl 3)%fl then Ok (fl 75)
      else if (lag_years <=? fl 6)%fl then Ok (fl 55)
      else if (lag_years <=? fl 10)%fl then Ok (fl 35)
      else Ok (fl 15)
  | _, _ => Ok (fl 50)
  end.

Definition _governance_score (country : option string) : float :=
  match country with
  | None => (fl DEFAULT_GOVERNANCE_SCORE * fl 100)%fl
  | Some c =>
      let score := dict_get COUNTRY_GOVERNANCE_SCORE (strip c) DEFAULT_GOVERNANCE_SCORE in
      f_round (fl score * fl 100)%fl 1
  end.

(** ** Composite and tier *)

(** The cell of the score column named [dim]. *)
Definition score_cell (dim : string) (r : Row) : float :=
  let s := scores r in
  if String.eqb dim "vintage_score" then vintage_score s
  else if String.eqb dim "retirement_ratio_score" then retirement_ratio_score s
  else if String.eqb dim "project_type_score" then project_type_score s
  else if String.eqb dim "transparency_score" then transparency_score s
  else if String.eqb dim "additionality_score" then additionality_score s
  else if String.eqb dim "governance_score" then governance_score s
  else NaN.

(** [sum(df[dim] * weight for dim, weight in weights)], continued from the
    running total [acc]. *)
Fixpoint weighted_sum (df : DataFrame) (weights : list (string * Q))
  (acc : list float) : result (list float) :=
  match weights with
  | [] => Ok acc
  | (dim, weight) :: rest =>
      col <- getitem df dim (score_cell dim) ;;
      weighted_sum df rest
        (map2 f_add acc (map (fun x => (x * fl weight)%fl) col))
  end.

(** [bins.searchsorted(x, side="left")] on ascending bins. *)
Fixpoint searchsorted_left (bins : list Q) (x : Q) : nat :=
  match bins with
  | [] => O
  | b :: t => if Qlt_bool b x then S (searchsorted_left t x) else O
  end.

(** [pd.cut(x, bins, labels, include_lowest)] on one cell, with the default
    [right=True]: bin [i] is [(bins[i-1], bins[i]]]; a value outside every
    bin, or NaN, has no category. *)
Definition cut {A : Type} (x : float) (bins : list Q) (labels : list A)
  (include_lowest : bool) : option A :=
  match x with
  | None => None
  | Some q =>
      let ids := searchsorted_left bins q in
      let ids :=
        if include_lowest &&
           match bins with b0 :: _ => Qeq_bool q b0 | [] => false end
        then 1%nat else ids in
      if (ids =? 0)%nat || (ids =? List.length bins)%nat then None
      else nth_error labels (ids - 1)
  end.

Definition tier_bins : list Q := [0; 40; 55; 70; 85; 100].
Definition tier_labels : list Tier := [Very_Low; Low; Medium; High; Very_High].

(** [score_all(df, reference_date)]; [today] is the reading of the clock taken
    when no reference date is given. *)
Definition score_all (today : Timestamp) (df : DataFrame)
  (reference_date : option Timestamp) : result DataFrame :=
  let reference_date :=
    match reference_date with Some d => d | None => today end in
  v <- apply_rows df (fun cols r => _vintage_score cols r reference_date) ;;
  let df := setitem df "vintage_score" set_vintage_score v in
  v <- apply_rows df _retirement_ratio_score ;;
  let df := setitem df "retirement_ratio_score" set_retirement_ratio_score v in
  c <- getitem df "project_type" (fun r => project_type (project r)) ;;
  let df := setitem df "project_type_score" set_project_type_score
              (map _project_type_score c) in
  v <- apply_rows df _transparency_score ;;
  let df := setitem df "transparency_score" set_transparency_score v in
  v <- apply_rows df (fun cols r => _additionality_score cols r reference_date) ;;
  let df := setitem df "additionality_score" set_additionality_score v in
  c <- getitem df "country" (fun r => country (project r)) ;;
  let df := setitem df "governance_score" set_governance_score
              (map _governance_score c) in
  total <- weighted_sum df WEIGHTS (map (fun _ => fl 0) (rows df)) ;;
  let df := setitem df "cqi" set_cqi (map (fun x => f_round x 2) total) in
  c <- getitem df "cqi" (fun r => cqi (scores r)) ;;
  let df := setitem df "quality_tier" set_quality_tier
              (map (fun x => cut x tier_bins tier_labels true) c) in
  Ok df.

(* ------------------------------------------------------------------ *)
(** * red_flags.py                                                      *)
(* ------------------------------------------------------------------ *)

Record RedFlag : Type := {
  code : string;
  label : string;
  description : string;
  severity : string
}.

Definition FLAG_CATALOGUE : list (string * RedFlag) :=
  [ ("HIGH_VINTAGE",
     {| code := "HIGH_VINTAGE";
        label := "High Vintage Age";
        description := "Project registered more than 10 years ago. Credits may face market discount.";
        severity := "medium" |});
    ("ZERO_RETIREMENTS",
     {| code := "ZERO_RETIREMENTS";
        label := "No Retirements Recorded";
        description := "Project has issued credits but shows zero retirements — potential demand signal.";
        severity := "high" |});
    ("LOW_RETIREMENT_RATIO",
     {| code := "LOW_RETIREMENT_RATIO";
        label := "Low Retirement Rate (<10%)";
        description := "Less than 10% of issued credits have been retired.";
        severity := "medium" |});
    ("REDD_CONTROVERSY",
     {| code := "REDD_CONTROVERSY";
        label := "REDD+ Controversy Risk";
        description := "REDD+ projects face scrutiny over permanence and additionality (CarbonPlan, Berkeley CPT).";
        severity := "high" |});
    ("MASSIVE_ISSUANCE",
     {| code := "MASSIVE_ISSUANCE";
        label := "Unusually High Issuance Volume";
        description := "Total issuance exceeds 50M tCO2e — may indicate inflated baselines.";
        severity := "medium" |});
    ("REGISTRATION_LAG",
     {| code := "REGISTRATION_LAG";
        label := "Long Registration Lag (>5 years)";
        description := "Significant delay between crediting period start and registration date.";
        severity := "medium" |});
    ("WEAK_GOVERNANCE",
     {| code := "WEAK_GOVERNANCE";
        label := "Weak Host Country Governance";
        description := "Project located in a jurisdiction with low governance quality score (<0.45).";
        severity := "medium" |});
    ("EXPIRED_CREDITING",
     {| code := "EXPIRED_CREDITING";
        label := "Expired or Expiring Crediting Period";
        description := "Crediting period has ended or ends within 12 months.";
        severity := "low" |});
    ("INCOMPLETE_DATA",
     {| code := "INCOMPLETE_DATA";
        label := "Incomplete Public Documentation";
        description := "Transparency score below 40 — key project fields missing from registry.";
        severity := "low" |}) ]%string.

(** [d.get(key)] *)
Fixpoint dict_find {V : Type} (d : list (string * V)) (key : string) : option V :=
  match d with
  | [] => None
  | (k, v) :: t => if String.eqb key k then Some v else dict_find t key
  end.

(** [key in d] *)
Definition dict_mem {V : Type} (d : list (string * V)) (key : string) : bool :=
  match dict_find d key with Some _ => true | None => false end.

(** [d[key]] *)
Definition dict_item {V : Type} (d : list (string * V)) (key : string) : result V :=
  match dict_find d key with
  | Some v => Ok v
  | None => Raise (KeyError key)
  end.

(** [x in l] on a list of strings. *)
Definition list_mem (x : string) (l : list string) : bool :=
  existsb (String.eqb x) l.

Definition GOVERNANCE_THRESHOLD : Q := 45.0.

Definition severity_order : list (string * Z) :=
  [ ("high", 3%Z); ("medium", 2%Z); ("low", 1%Z); ("none", 0%Z) ]%string.

(** [max(first :: rest, key=key)]: the first element of greatest key. *)
Fixpoint max_by_key {A : Type} (key : A -> Z) (best : A) (rest : list A) : A :=
  match rest with
  | [] => best
  | x :: t => if (key x >? key best)%Z then max_by_key key x t
              else max_by_key key best t
  end.

Definition _max_severity (flags : list string) : result string :=
  match flags with
  | [] => Ok "none"%string
  | _ =>
      severities <-
        mapM (fun f => cat <- dict_item FLAG_CATALOGUE f ;; Ok (severity cat))
             (filter (dict_mem FLAG_CATALOGUE) flags) ;;
      match severities with
      | [] => Ok "unknown"%string
      | s :: rest => Ok (max_by_key (fun s => dict_get severity_order s 0%Z) s rest)
      end
  end.

Definition _add_flag (df : DataFrame) (mask : list bool) (code : string)
  : result DataFrame :=
  _ <- getitem df "flags" (fun r => flags (flagging r)) ;;
  Ok {| columns := columns df;
        rows :=
          map2 (fun (m : bool) (r : Row) =>
                  if m then
                    let x := flags (flagging r) in
                    set_flags (if negb (list_mem code x) then (x ++ [code])%list else x) r
                  else r)
               mask (rows df);
        project_type_dtype := project_type_dtype df |}.

(** [s.replace(0, np.nan)] on one cell. *)
Definition replace_0_nan (x : float) : float :=
  if (x ==? fl 0)%fl then NaN else x.

Definition notna {A : Type} (cell : option A) : bool :=
  match cell with Some _ => true | None => false end.

(** [cell <= threshold] on a date cell; NaT compares false. *)
Definition date_le (cell : option Timestamp) (threshold : Timestamp) : bool :=
  match cell with Some d => (d <=? threshold)%Z | None => false end.

Section Detector.

(** The reading of [pd.Timestamp.today()]. *)
Variable now : Timestamp.
(** [t + pd.DateOffset(months=n)], pandas calendar arithmetic. *)
Variable date_offset_months : Z -> Timestamp -> Timestamp.

Definition _flag_high_vintage (df : DataFrame) : result DataFrame :=
  if has_column (columns df) "vintage_score" then
    c <- getitem df "vintage_score" (fun r => vintage_score (scores r)) ;;
    _add_flag df (map (fun x => (x <? fl 30)%fl) c) "HIGH_VINTAGE"
  else Ok df.

Definition _flag_zero_retirements (df : DataFrame) : result DataFrame :=
  if has_column (columns df) "total_retired" && has_column (columns df) "total_issued"
  then
    issued <- getitem df "total_issued" (fun r => total_issued (project r)) ;;
    retired <- getitem df "total_retired" (fun r => total_retired (project r)) ;;
    let mask :=
      map2 andb (map (fun x => (x >? fl 0)%fl) issued)
                (map (fun x => (x ==? fl 0)%fl) retired) in
    _add_flag df mask "ZERO_RETIREMENTS"
  else Ok df.

Definition _flag_low_retirement_ratio (df : DataFrame) : result DataFrame :=
  if has_column (columns df) "total_retired" && has_column (columns df) "total_issued"
  then
    retired <- getitem df "total_retired" (fun r => total_retired (project r)) ;;
    issued <- getitem df "total_issued" (fun r => total_issued (project r)) ;;
    let ratio := map2 np_div retired (map replace_0_nan issued) in
    let mask :=
      map2 andb
        (map2 andb (map (fun x => (x <? fl 0.10)%fl) ratio)
                   (map (fun x => (x >? fl 0)%fl) issued))
        (map (fun x => (x >? fl 0)%fl) retired) in
    _add_flag df mask "LOW_RETIREMENT_RATIO"
  else Ok df.

Definition _flag_redd_controversy (df : DataFrame) : result DataFrame :=
  if has_column (columns df) "project_type" then
    c <- getitem df "project_type" (fun r => project_type (project r)) ;;
    s <- str_accessor df c ;;
    _add_flag df (map (str_contains_nocase "REDD") s) "REDD_CONTROVERSY"
  else Ok df.

Definition _flag_massive_issuance (df : DataFrame) : result DataFrame :=
  if has_column (columns df) "total_issued" then
    c <- getitem df "total_issued" (fun r => total_issued (project r)) ;;
    _add_flag df (map (fun x => (x >? fl 50000000)%fl) c) "MASSIVE_ISSUANCE"
  else Ok df.

Definition _flag_registration_lag (df : DataFrame) : result DataFrame :=
  if has_column (columns df) "additionality_score" then
    c <- getitem df "additionality_score" (fun r => additionality_score (scores r)) ;;
    _add_flag df (map (fun x => (x <? fl 40)%fl) c) "REGISTRATION_LAG"
  else Ok df.

Definition _flag_weak_governance (df : DataFrame) : result DataFrame :=
  if has_column (columns df) "governance_score" then
    c <- getitem df "governance_score" (fun r => governance_score (scores r)) ;;
    _add_flag df (map (fun x => (x <? fl GOVERNANCE_THRESHOLD)%fl) c) "WEAK_GOVERNANCE"
  else Ok df.

Definition _flag_expired_crediting (df : DataFrame) : result DataFrame :=
  if has_column (columns df) "crediting_period_end" then
    let threshold := date_offset_months 12%Z now in
    c <- getitem df "crediting_period_end"
           (fun r => crediting_period_end (project r)) ;;
    let mask := map2 andb (map notna c) (map (fun d => date_le d threshold) c) in
    _add_flag df mask "EXPIRED_CREDITING"
  else Ok df.

Definition _flag_incomplete_data (df : DataFrame) : result DataFrame :=
  if has_column (columns df) "transparency_score" then
    c <- getitem df "transparency_score" (fun r => transparency_score (scores r)) ;;
    _add_flag df (map (fun x => (x <? fl 40)%fl) c) "INCOMPLETE_DATA"
  else Ok df.

Definition detect (df : DataFrame) : result DataFrame :=
  let df := setitem df "flags" set_flags (map (fun _ => @nil string) (rows df)) in
  df <- _flag_high_vintage df ;;
  df <- _flag_zero_retirements df ;;
  df <- _flag_low_retirement_ratio df ;;
  df <- _flag_redd_controversy df ;;
  df <- _flag_massive_issuance df ;;
  df <- _flag_registration_lag df ;;
  df <- _flag_weak_governance df ;;
  df <- _flag_expired_crediting df ;;
  df <- _flag_incomplete_data df ;;
  c <- getitem df "flags" (fun r => flags (flagging r)) ;;
  let df := setitem df "flag_count" set_flag_count
              (map (fun x => Z.of_nat (List.length x)) c) in
  c <- getitem df "flags" (fun r => flags (flagging r)) ;;
  v <- mapM _max_severity c ;;
  let df := setitem df "max_severity" set_max_severity v in
  Ok df.

End Detector.

(** ** Flag summary *)

Module Summary.
Record row : Type := {
  flag_code : string;
  label : string;
  severity : string;
  project_count : Z;
  pct_of_portfolio : float
}.
End Summary.

(** One step of [Counter(iterable)]: a new key goes last with count 1. *)
Fixpoint counter_incr (c : list (string * Z)) (k : string) : list (string * Z) :=
  match c with
  | [] => [(k, 1%Z)]
  | (k', n) :: t =>
      if String.eqb k k' then (k', (n + 1)%Z) :: t else (k', n) :: counter_incr t k
  end.

Definition Counter (l : list string) : list (string * Z) :=
  fold_left counter_incr l [].

(** Insertion into a list sorted by descending count, before the first
    entry that does not exceed the new one. *)
Fixpoint insert_desc (x : string * Z) (l : list (string * Z)) : list (string * Z) :=
  match l with
  | [] => [x]
  | y :: t => if (snd y >? snd x)%Z then y :: insert_desc x t else x :: y :: t
  end.

(** [c.most_common()]: a stable sort by descending count. *)
Definition most_common (c : list (string * Z)) : list (string * Z) :=
  fold_right insert_desc [] c.

Definition get_flag_summary (df : DataFrame) : result (list Summary.row) :=
  c <- getitem df "flags" (fun r => flags (flagging r)) ;;
  let all_flags := List.concat c in
  let counts := Counter all_flags in
  mapM (fun '(code, count) =>
          let cat := dict_find FLAG_CATALOGUE code in
          frac <- py_int_div count (Z.of_nat (List.length (rows df))) ;;
          Ok {| Summary.flag_code := code;
                Summary.label := match cat with Some k => label k | None => code end;
                Summary.severity :=
                  match cat with Some k => severity k | None => "unknown"%string end;
                Summary.project_count := count;
                Summary.pct_of_portfolio := py_round (b64_mul frac (fl 100)) 1 |})
       (most_common counts).

(* ------------------------------------------------------------------ *)
(** * Derived notions used in the statements                            *)
(* ------------------------------------------------------------------ *)

(** The value of a computation that did not raise. *)
Definition value_of {A : Type} (default : A) (c : result A) : A :=
  match c with Ok a => a | Raise _ => default end.

(** [age_years] of [_vintage_score] for a present registration date. *)
Definition age_years (reference_date reg_date : Timestamp) : Q :=
  inject_Z (timedelta_days reference_date reg_date) / 365.25.

(** The weighted total of the six score cells of one row. *)
Definition weighted_total (r : Row) : float :=
  fold_left (fun acc dw => (acc + score_cell (fst dw) r * fl (snd dw))%fl)
            WEIGHTS (fl 0).

(** The column index after [score_all]. *)
Definition scored_columns (cols : list string) : list string :=
  fold_left (fun cs c => add_column c cs)
    [ "vintage_score"; "retirement_ratio_score"; "project_type_score";
      "transparency_score"; "additionality_score"; "governance_score";
      "cqi"; "quality_tier" ]%string
    cols.

(** Row [r'] is row [r] with the cells that [score_all] computes from [r]
    under the column index [cols] and the reference date [ref]. *)
Definition scored_row (cols : list string) (ref : Timestamp) (r r' : Row) : Prop :=
  project r' = project r /\
  flagging r' = flagging r /\
  _vintage_score cols r ref = Ok (vintage_score (scores r')) /\
  _retirement_ratio_score cols r = Ok (retirement_ratio_score (scores r')) /\
  project_type_score (scores r') = _project_type_score (project_type (project r)) /\
  _transparency_score cols r = Ok (transparency_score (scores r')) /\
  _additionality_score cols r ref = Ok (additionality_score (scores r')) /\
  governance_score (scores r') = _governance_score (country (project r)) /\
  cqi (scores r') = f_round (weighted_total r') 2 /\
  quality_tier (scores r') = cut (cqi (scores r')) tier_bins tier_labels true.

(** [needle] occurs in [hay] when case is ignored. *)
Definition contains_nocase (needle hay : string) : bool :=
  contains (lower needle) (lower hay).

(** The first, respectively last, character of a string is not white space. *)
Definition starts_nonspace (s : string) : bool :=
  match s with
  | EmptyString => false
  | String c _ => negb (is_space c)
  end.

Fixpoint ends_nonspace (s : string) : bool :=
  match s with
  | EmptyString => false
  | String c EmptyString => negb (is_space c)
  | String _ t => ends_nonspace t
  end.

(** ** The detector, one row at a time *)

(** What [_add_flag] does to a row selected by the mask computed by [test]. *)
Definition flag_rule (code : string) (test : Row -> bool) (r : Row) : Row :=
  if test r then
    let x := flags (flagging r) in
    set_flags (if negb (list_mem code x) then (x ++ [code])%list else x) r
  else r.

(** The nine rules in the order in which [detect] runs them: the flag code
    and the test made on a row, including the guard on the column index. *)
Definition flag_rules (cols : list string) (threshold : Timestamp)
  : list (string * (Row -> bool)) :=
  [ ("HIGH_VINTAGE",
     fun r => has_column cols "vintage_score" &&
              (vintage_score (scores r) <? fl 30)%fl);
    ("ZERO_RETIREMENTS",
     fun r => has_column cols "total_retired" && has_column cols "total_issued" &&
              ((total_issued (project r) >? fl 0)%fl &&
               (total_retired (project r) ==? fl 0)%fl));
    ("LOW_RETIREMENT_RATIO",
     fun r => has_column cols "total_retired" && has_column cols "total_issued" &&
              (((np_div (total_retired (project r))
                        (replace_0_nan (total_issued (project r))) <? fl 0.10)%fl &&
                (total_issued (project r) >? fl 0)%fl) &&
               (total_retired (project r) >? fl 0)%fl));
    ("REDD_CONTROVERSY",
     fun r => has_column cols "project_type" &&
              str_contains_nocase "REDD" (project_type (project r)));
    ("MASSIVE_ISSUANCE",
     fun r => has_column cols "total_issued" &&
              (total_issued (project r) >? fl 50000000)%fl);
    ("REGISTRATION_LAG",
     fun r => has_column cols "additionality_score" &&
              (additionality_score (scores r) <? fl 40)%fl);
    ("WEAK_GOVERNANCE",
     fun r => has_column cols "governance_score" &&
              (governance_score (scores r) <? fl GOVERNANCE_THRESHOLD)%fl);
    ("EXPIRED_CREDITING",
     fun r => has_column cols "crediting_period_end" &&
              (notna (crediting_period_end (project r)) &&
               date_le (crediting_period_end (project r)) threshold));
    ("INCOMPLETE_DATA",
     fun r => has_column cols "transparency_score" &&
              (transparency_score (scores r) <? fl 40)%fl) ]%string.

Definition run_rules (rules : list (string * (Row -> bool))) (r : Row) : Row :=
  fold_left (fun acc rule => flag_rule (fst rule) (snd rule) acc) rules r.

(** The row that [detect] produces from [r]. *)
Definition flagged_row (cols : list string) (threshold : Timestamp) (r : Row) : Row :=
  let r := run_rules (flag_rules cols threshold) (set_flags [] r) in
  let r := set_flag_count (Z.of_nat (List.length (flags (flagging r)))) r in
  set_max_severity (value_of ""%string (_max_severity (flags (flagging r)))) r.

(** [Series.str] can be used by the detector: the batch has no
    project_type column, or that column holds text. *)
Definition text_typed (df : DataFrame) : bool :=
  negb (has_column (columns df) "project_type") ||
  match project_type_dtype df with
  | dtype_object => true
  | dtype_float64 => false
  end.

(** The rank of a severity in [severity_order]. *)
Definition severity_rank (s : string) : Z := dict_get severity_order s 0%Z.

(** A test that reads only the project and score cells of a row. *)
Definition reads_inputs (test : Row -> bool) : Prop :=
  forall r r', project r = project r' -> scores r = scores r' -> test r = test r'.

(** The catalogue severity of a flag code. *)
Definition flag_severity (f : string) : option string :=
  option_map severity (dict_find FLAG_CATALOGUE f).

(** ** The summary, one entry at a time *)

(** The summary row that [get_flag_summary] builds from a counter entry for
    a batch of [n] records. *)
Definition summary_row (n : nat) (entry : string * Z) : Summary.row :=
  let '(code, count) := entry in
  let cat := dict_find FLAG_CATALOGUE code in
  {| Summary.flag_code := code;
     Summary.label := match cat with Some k => label k | None => code end;
     Summary.severity :=
       match cat with Some k => severity k | None => "unknown"%string end;
     Summary.project_count := count;
     Summary.pct_of_portfolio :=
       py_round (b64_mul (fl (b64 (inject_Z count / inject_Z (Z.of_nat n))))
                         (fl 100)) 1 |}.

(** The number of records whose flags contain [c]. *)
Definition records_with (c : string) (rs : list Row) : Z :=
  Z.of_nat (List.length (filter (fun r => list_mem c (flags (flagging r))) rs)).

(** Descending order of counter entries and of summary rows. *)
Definition count_ge (a b : string * Z) : Prop := (snd b <= snd a)%Z.
Definition project_count_ge (a b : Summary.row) : Prop :=
  (Summary.project_count b <= Summary.project_count a)%Z.

(** The columns that each rule of the detector requires in the index. *)
Definition rule_columns : list (string * string) :=
  [ ("HIGH_VINTAGE", "vintage_score");
    ("ZERO_RETIREMENTS", "total_retired");
    ("ZERO_RETIREMENTS", "total_issued");
    ("LOW_RETIREMENT_RATIO", "total_retired");
    ("LOW_RETIREMENT_RATIO", "total_issued");
    ("REDD_CONTROVERSY", "project_type");
    ("MASSIVE_ISSUANCE", "total_issued");
    ("REGISTRATION_LAG", "additionality_score");
    ("WEAK_GOVERNANCE", "governance_score");
    ("EXPIRED_CREDITING", "crediting_period_end");
    ("INCOMPLETE_DATA", "transparency_score") ]%string.

(* ------------------------------------------------------------------ *)
(** * Sample batches                                                    *)
(* ------------------------------------------------------------------ *)

(** Midnight of the day [n] days after the epoch. *)
Definition day (n : Z) : Timestamp := (n * ns_per_day)%Z.

Definition date_2022_01_01 : Timestamp := day 18993.
Definition date_2024_01_01 : Timestamp := day 19723.
Definition date_2041_01_01 : Timestamp := day 25933.

Definition no_scores : Scores :=
  {| vintage_score := NaN; retirement_ratio_score := NaN;
     project_type_score := NaN; transparency_score := NaN;
     additionality_score := NaN; governance_score := NaN;
     cqi := NaN; quality_tier := None |}.

Definition no_flagging : Flagging :=
  {| flags := []; flag_count := 0%Z; max_severity := ""%string |}.

(** A row as the cleaning step hands it over. *)
Definition raw_row (p : Project) : Row :=
  {| project := p; scores := no_scores; flagging := no_flagging |}.

Definition cleaned_columns : list string :=
  [ "project_id"; "name"; "proponent"; "country"; "region"; "project_type";
    "status"; "registration_date"; "crediting_period_start";
    "crediting_period_end"; "total_issued"; "total_retired"; "total_cancelled";
    "total_buffer_pool"; "estimated_annual_reductions" ]%string.

(** A renewable-energy project of [issued] credits, [retired] of them
    retired. *)
Definition solar_project (issued retired : Q) : Project :=
  {| country := Some "India"%string;
     project_type := Some "Renewable Energy"%string;
     registration_date := Some date_2022_01_01;
     crediting_period_start := Some (day 18628);
     crediting_period_end := Some date_2041_01_01;
     total_issued := fl issued;
     total_retired := fl retired;
     total_buffer_pool := fl 200000;
     estimated_annual_reductions := fl 200000;
     proponent := Some "Org B"%string;
     region := Some "Asia Pacific"%string |}.

(** A project of the given type with an otherwise complete record. *)
Definition forest_project (type : string) : Project :=
  {| country := Some "Indonesia"%string;
     project_type := Some type;
     registration_date := Some date_2022_01_01;
     crediting_period_start := Some (day 18628);
     crediting_period_end := Some date_2041_01_01;
     total_issued := fl 8000000;
     total_retired := fl 2000000;
     total_buffer_pool := fl 800000;
     estimated_annual_reductions := fl 800000;
     proponent := Some "Org C"%string;
     region := Some "Asia Pacific"%string |}.

(** A sparsely documented project whose scores are 100, 0, 50, 0, 50 and 25
    on 2024-01-01. *)
Definition sparse_project : Project :=
  {| country := Some "Democratic Republic of the Congo"%string;
     project_type := None;
     registration_date := Some date_2022_01_01;
     crediting_period_start := None;
     crediting_period_end := None;
     total_issued := fl 100000;
     total_retired := fl 0;
     total_buffer_pool := fl 0;
     estimated_annual_reductions := NaN;
     proponent := None;
     region := None |}.

(** A project registered almost eleven years after the start of its
    crediting period. *)
Definition late_registered_project : Project :=
  {| country := Some "Indonesia"%string;
     project_type := Some "REDD+"%string;
     registration_date := Some date_2022_01_01;
     crediting_period_start := Some (day 15000);
     crediting_period_end := Some date_2041_01_01;
     total_issued := fl 8000000;
     total_retired := fl 2000000;
     total_buffer_pool := fl 800000;
     estimated_annual_reductions := fl 800000;
     proponent := Some "Org C"%string;
     region := Some "Asia Pacific"%string |}.

(** A project whose issuance is not known. *)
Definition unknown_issuance_project : Project :=
  {| country := Some "India"%string;
     project_type := Some "Renewable Energy"%string;
     registration_date := Some date_2022_01_01;
     crediting_period_start := Some (day 18628);
     crediting_period_end := Some date_2041_01_01;
     total_issued := NaN;
     total_retired := fl 3000000;
     total_buffer_pool := fl 200000;
     estimated_annual_reductions := fl 200000;
     proponent := Some "Org B"%string;
     region := Some "Asia Pacific"%string |}.

(** A record of which nothing is known, with no issuance. *)
Definition blank_project : Project :=
  {| country := None;
     project_type := None;
     registration_date := None;
     crediting_period_start := None;
     crediting_period_end := None;
     total_issued := fl 0;
     total_retired := fl 0;
     total_buffer_pool := fl 0;
     estimated_annual_reductions := NaN;
     proponent := None;
     region := None |}.

(** The dtype that pandas infers for a column of text cells that it
    reads: float64 when there are cells and every one is missing. *)
Definition inferred_dtype (cells : list (option string)) : dtype :=
  match cells with
  | [] => dtype_object
  | _ :: _ => if existsb notna cells then dtype_object else dtype_float64
  end.

(** The batch of the given projects as pandas reads it. *)
Definition batch_of (ps : list Project) : DataFrame :=
  {| columns := cleaned_columns;
     rows := map raw_row ps;
     project_type_dtype := inferred_dtype (map project_type ps) |}.

(** A sparsely documented record and a REDD+ project. *)
Definition mixed_batch : DataFrame :=
  batch_of [sparse_project; forest_project "REDD+"].

(** [df.drop(columns=[c])] *)
Definition drop_column (c : string) (df : DataFrame) : DataFrame :=
  {| columns := filter (fun x => negb (String.eqb x c)) (columns df);
     rows := rows df;
     project_type_dtype := project_type_dtype df |}.

(** Eighty records, twenty-three of them REDD+ projects. *)
Definition redd_23_of_80 : DataFrame :=
  batch_of (repeat (forest_project "REDD+") 23 ++
            repeat (solar_project 4000000 3000000) 57).

(** A stand-in for [t + pd.DateOffset(months=n)] that counts every month as
    thirty days. *)
Definition thirty_day_months (n : Z) (t : Timestamp) : Timestamp :=
  (t + day (30 * n))%Z.

(* ------------------------------------------------------------------ *)
(** * cleaner.py: project type canonicalisation                         *)
(* ------------------------------------------------------------------ *)

Definition TYPE_CANONICALIZATION : list (string * string) :=
  [ ("redd", "REDD+");
    ("redd+", "REDD+");
    ("improved forest management", "IFM");
    ("afforestation", "ARR");
    ("reforestation", "ARR");
    ("revegetation", "ARR");
    ("arr", "ARR");
    ("agricultural land management", "ALM");
    ("alm", "ALM");
    ("wetland", "WRC");
    ("wrc", "WRC");
    ("renewable energy", "Renewable Energy");
    ("wind", "Renewable Energy");
    ("solar", "Renewable Energy");
    ("hydro", "Renewable Energy");
    ("methane", "Methane Capture");
    ("landfill", "Methane Capture");
    ("energy efficiency", "Energy Efficiency");
    ("industrial", "Industrial");
    ("ozone", "Industrial") ]%string.

(** The loop [for key, canonical in d.items(): if key in s: return canonical]:
    the value of the first key, in insertion order, that occurs in [s]. *)
Fixpoint first_key_in (d : list (string * string)) (s : string) : option string :=
  match d with
  | [] => None
  | (key, canonical) :: rest =>
      if contains key s then Some canonical else first_key_in rest s
  end.

Definition _canonicalize_type (raw_type : option string) : string :=
  match raw_type with
  | None => "Unknown"%string
  | Some s =>
      let lower := strip (lower s) in
      match first_key_in TYPE_CANONICALIZATION lower with
      | Some canonical => canonical
      | None => "Unknown"%string
      end
  end.

(* ------------------------------------------------------------------ *)
(** * Derived notions used in the further properties                    *)
(* ------------------------------------------------------------------ *)

(** [populated] of [_transparency_score]: how many of the six scored
    fields of a row are present, not missing and not 0. *)
Definition populated_fields (cols : list string) (row : Row) : Z :=
  let p := project row in
  count_true
    [ populated_cell cols "proponent" (proponent p);
      populated_cell cols "region" (region p);
      populated_cell cols "crediting_period_start" (crediting_period_start p);
      populated_cell cols "crediting_period_end" (crediting_period_end p);
      populated_number cols "estimated_annual_reductions"
        (estimated_annual_reductions p);
      populated_number cols "total_buffer_pool" (total_buffer_pool p) ].

(** [lag_years] of [_additionality_score] for two present dates. *)
Definition lag_years (reg_date cp_start : Timestamp) : Q :=
  inject_Z (timedelta_days reg_date cp_start) / 365.25.

(** [l1] is [l2] with some elements left out, the order kept. *)
Fixpoint subsequence (l1 l2 : list string) : bool :=
  match l1, l2 with
  | [], _ => true
  | _ :: _, [] => false
  | x :: t1, y :: t2 =>
      if String.eqb x y then subsequence t1 t2 else subsequence l1 t2
  end.

(** The sum of a list of integers. *)
Definition Zsum (l : list Z) : Z := fold_right Z.add 0%Z l.

(** The values that [_canonicalize_type] can return. *)
Definition canonical_types : list string :=
  [ "REDD+"; "IFM"; "ARR"; "ALM"; "WRC"; "Renewable Energy"; "Methane Capture";
    "Energy Efficiency"; "Industrial"; "Unknown" ]%string.
(* ================================================================== *)
(** * Verification                                                      *)
(* ================================================================== *)

(** ** Lists and the error monad *)

Lemma map2_map_same {A B C : Type} (f : B -> A -> C) (g : A -> B) (l : list A) :
  map2 f (map g l) l = map (fun x => f (g x) x) l.
Proof.
  induction l as [|x t IH]; simpl; [reflexivity | now rewrite IH].
Qed.

Lemma map2_map_map {A B C D : Type} (f : B -> C -> D) (g : A -> B) (h : A -> C)
  (l : list A) :
  map2 f (map g l) (map h l) = map (fun x => f (g x) (h x)) l.
Proof.
  induction l as [|x t IH]; simpl; [reflexivity | now rewrite IH].
Qed.

Lemma mapM_total {A B : Type} (f : A -> result B) (d : B) (l : list A) :
  (forall x, In x l -> exists y, f x = Ok y) ->
  mapM f l = Ok (map (fun x => value_of d (f x)) l).
Proof.
  induction l as [|x t IH]; intros H; simpl; [reflexivity|].
  destruct (H x (or_introl eq_refl)) as [y Hy].
  rewrite Hy; simpl.
  rewrite IH by (intros z Hz; apply H; now right).
  reflexivity.
Qed.

Lemma mapM_ext_ok {A B : Type} (f : A -> result B) (g : A -> B) (l : list A) :
  (forall x, In x l -> f x = Ok (g x)) -> mapM f l = Ok (map g l).
Proof.
  induction l as [|x t IH]; intros H; simpl; [reflexivity|].
  rewrite (H x (or_introl eq_refl)); simpl.
  rewrite IH by (intros z Hz; apply H; now right).
  reflexivity.
Qed.

Lemma Forall2_map_r {A B : Type} (P : A -> B -> Prop) (g : A -> B) (l : list A) :
  (forall x, In x l -> P x (g x)) -> Forall2 P l (map g l).
Proof.
  induction l as [|x t IH]; intros H; simpl; constructor.
  - apply H; now left.
  - apply IH; intros z Hz; apply H; now right.
Qed.

(** ** Columns *)

Lemma has_column_add_column (c x : string) (cols : list string) :
  has_column (add_column c cols) x = has_column cols x || String.eqb x c.
Proof.
  unfold add_column.
  destruct (has_column cols c) eqn:Hc.
  - destruct (String.eqb_spec x c) as [->|_].
    + now rewrite Hc.
    + now rewrite orb_false_r.
  - unfold has_column. rewrite existsb_app. simpl. now rewrite orb_false_r.
Qed.

Lemma has_column_add_column_same (c : string) (cols : list string) :
  has_column (add_column c cols) c = true.
Proof.
  rewrite has_column_add_column, String.eqb_refl. apply orb_true_r.
Qed.

Lemma getitem_ok {A : Type} (df : DataFrame) (c : string) (cell : Row -> A) :
  has_column (columns df) c = true -> getitem df c cell = Ok (map cell (rows df)).
Proof.
  intros H. unfold getitem. now rewrite H.
Qed.

Lemma setitem_map {A : Type} (df : DataFrame) (c : string) (set : A -> Row -> Row)
  (g : Row -> A) :
  setitem df c set (map g (rows df)) =
  {| columns := add_column c (columns df);
     rows := map (fun r => set (g r) r) (rows df);
     project_type_dtype := project_type_dtype df |}.
Proof.
  unfold setitem. now rewrite map2_map_same.
Qed.

(** ** Rational comparisons *)

Lemma Qlt_bool_iff (x y : Q) : Qlt_bool x y = true <-> x < y.
Proof.
  unfold Qlt_bool. rewrite negb_true_iff.
  destruct (Qle_bool y x) eqn:E.
  - apply Qle_bool_iff in E. split; [discriminate | intros H; lra].
  - split; [intros _ | reflexivity].
    destruct (Qlt_le_dec x y) as [H|H]; [assumption|].
    apply Qle_bool_iff in H. congruence.
Qed.

Lemma Qle_bool_false_iff (x y : Q) : Qle_bool x y = false <-> y < x.
Proof.
  rewrite <- Qlt_bool_iff. unfold Qlt_bool.
  destruct (Qle_bool x y); simpl; intuition congruence.
Qed.

Lemma Qlt_bool_false_iff (x y : Q) : Qlt_bool x y = false <-> y <= x.
Proof.
  unfold Qlt_bool. rewrite negb_false_iff. apply Qle_bool_iff.
Qed.

Lemma Qeq_bool_false_iff (x y : Q) : Qeq_bool x y = false <-> ~ x == y.
Proof.
  split.
  - intros H E. apply Qeq_bool_iff in E. congruence.
  - intros H. destruct (Qeq_bool x y) eqn:E; [|reflexivity].
    apply Qeq_bool_iff in E. contradiction.
Qed.

(** Turn every boolean comparison of the context into a proposition. *)
Ltac bool_to_Q :=
  repeat match goal with
  | H : Qle_bool _ _ = true |- _ => apply Qle_bool_iff in H
  | H : Qle_bool _ _ = false |- _ => apply Qle_bool_false_iff in H
  | H : Qlt_bool _ _ = true |- _ => apply Qlt_bool_iff in H
  | H : Qlt_bool _ _ = false |- _ => apply Qlt_bool_false_iff in H
  | H : Qeq_bool _ _ = true |- _ => apply Qeq_bool_iff in H
  | H : Qeq_bool _ _ = false |- _ => apply Qeq_bool_false_iff in H
  end.

(** Split on the comparisons that guard the goal. *)
Ltac split_tests :=
  repeat match goal with
  | |- context [if Qle_bool ?a ?b then _ else _] =>
      let E := fresh "E" in destruct (Qle_bool a b) eqn:E
  | |- context [if Qlt_bool ?a ?b then _ else _] =>
      let E := fresh "E" in destruct (Qlt_bool a b) eqn:E
  | |- context [if negb (Qle_bool ?a ?b) then _ else _] =>
      let E := fresh "E" in destruct (Qle_bool a b) eqn:E; simpl negb
  | |- context [if Qeq_bool ?a ?b then _ else _] =>
      let E := fresh "E" in destruct (Qeq_bool a b) eqn:E
  end.

Ltac unfold_float :=
  unfold py_max, f_ge, f_gt, f_le, f_lt, f_eq, f_ne, f_add, f_sub, f_mul,
         f_cmp, f_lift2, fl, NaN in *.

Lemma py_div_nonzero (a : float) (y : Q) :
  ~ y == 0 -> py_div a (fl y) = Ok (f_lift2 Qdiv a (fl y)).
Proof.
  intros H. unfold py_div, fl. apply Qeq_bool_false_iff in H. now rewrite H.
Qed.

(** ** Rounding *)

Lemma rint_bounds (x : Q) (a b : Z) :
  inject_Z a <= x <= inject_Z b -> (a <= rint x <= b)%Z.
Proof.
  intros [Ha Hb].
  assert (Hfa : (a <= Qfloor x)%Z).
  { rewrite <- (Qfloor_Z a). now apply Qfloor_resp_le. }
  assert (Hfb : (Qfloor x <= b)%Z).
  { rewrite <- (Qfloor_Z b). now apply Qfloor_resp_le. }
  assert (Hup : inject_Z (Qfloor x) < x -> (Qfloor x + 1 <= b)%Z).
  { intros H. assert (inject_Z (Qfloor x) < inject_Z b) as H' by lra.
    rewrite <- Zlt_Qlt in H'. lia. }
  unfold rint.
  destruct (Qcompare (x - inject_Z (Qfloor x)) (1 # 2)) eqn:E.
  - apply Qeq_alt in E.
    destruct (Z.even (Qfloor x)); [lia|].
    split; [lia|]. apply Hup. lra.
  - lia.
  - apply Qgt_alt in E. split; [lia|]. apply Hup. lra.
Qed.

Lemma Qround_digits_bounds (x : Q) (nd : Z) (s : Q) (a b : Z) :
  Qpower 10 nd = s -> 0 < s ->
  inject_Z a <= x * s <= inject_Z b ->
  inject_Z a <= Qround_digits x nd * s <= inject_Z b.
Proof.
  intros Hs Hpos H. unfold Qround_digits. rewrite Hs.
  destruct (rint_bounds _ _ _ H) as [H1 H2].
  rewrite Zle_Qle in H1, H2.
  setoid_replace (inject_Z (rint (x * s)) / s * s) with (inject_Z (rint (x * s)))
    by (field; lra).
  now split.
Qed.

Lemma Qround_digits_percent (x : Q) (nd : Z) :
  nd = 1%Z \/ nd = 2%Z -> 0 <= x <= 100 -> 0 <= Qround_digits x nd <= 100.
Proof.
  intros [-> | ->] Hx.
  - pose proof (Qround_digits_bounds x 1 10 0 1000 eq_refl) as H.
    change (inject_Z 0) with 0 in H. change (inject_Z 1000) with 1000 in H.
    lra.
  - pose proof (Qround_digits_bounds x 2 100 0 10000 eq_refl) as H.
    change (inject_Z 0) with 0 in H. change (inject_Z 10000) with 10000 in H.
    lra.
Qed.

(** ** Binary64 rounding *)

(** Rounding to the nearest integer moves a number by at most one half. *)
Lemma rint_error (x : Q) : Qabs (inject_Z (rint x) - x) <= 1 # 2.
Proof.
  apply Qabs_Qle_condition.
  pose proof (Qfloor_le x) as Hlo. pose proof (Qlt_floor x) as Hhi.
  rewrite inject_Z_plus in Hhi. change (inject_Z 1) with 1 in Hhi.
  unfold rint.
  destruct (Qcompare (x - inject_Z (Qfloor x)) (1 # 2)) eqn:E.
  - apply Qeq_alt in E. destruct (Z.even (Qfloor x)).
    + lra.
    + rewrite inject_Z_plus. change (inject_Z 1) with 1. lra.
  - apply Qlt_alt in E. lra.
  - apply Qgt_alt in E. rewrite inject_Z_plus. change (inject_Z 1) with 1. lra.
Qed.

Lemma Qlog2_floor_le (q : Q) : 0 < q -> 2 ^ Qlog2_floor q <= q.
Proof.
  intros Hq. unfold Qlog2_floor.
  destruct (Qle_bool (2 ^ (Z.log2 (Qnum q) - Z.log2 (Z.pos (Qden q)))) q) eqn:E.
  - now apply Qle_bool_iff.
  - clear E. destruct q as [a b]. cbn [Qnum Qden].
    assert (Ha : (0 < a)%Z) by (unfold Qlt in Hq; cbn in Hq; lia).
    destruct (Z.log2_spec a Ha) as [Ha1 _].
    destruct (Z.log2_spec (Z.pos b) eq_refl) as [_ Hb2].
    pose proof (Z.log2_nonneg a) as Hla.
    pose proof (Z.log2_nonneg (Z.pos b)) as Hlb.
    replace (Z.log2 a - Z.log2 (Z.pos b) - 1)%Z
      with (Z.log2 a - Z.succ (Z.log2 (Z.pos b)))%Z by lia.
    rewrite Qpower_minus by (intros H; discriminate H).
    change 2 with (inject_Z 2).
    rewrite <- !Zpower_Qpower by lia.
    set (X := (2 ^ Z.log2 a)%Z) in *.
    set (Y := (2 ^ Z.succ (Z.log2 (Z.pos b)))%Z) in *.
    apply Qle_shift_div_r.
    + rewrite <- (Zlt_Qlt 0). lia.
    + unfold Qle, Qmult, inject_Z. cbn [Qnum Qden]. nia.
Qed.

(** Rounding to the nearest double: a relative error of at most [2^-53],
    and an absolute error below [2^-100] among the subnormal numbers. *)
Lemma b64_error (q : Q) :
  0 <= q ->
  Qabs (b64 q - q) <=
  q * (1 # 9007199254740992) + (1 # 1267650600228229401496703205376).
Proof.
  intros Hq. unfold b64.
  destruct (Qeq_bool q 0) eqn:E0.
  - apply Qeq_bool_iff in E0. apply Qabs_Qle_condition. lra.
  - apply Qeq_bool_false_iff in E0.
    assert (Hpos : 0 < q) by lra.
    cbv zeta. unfold ulp_exponent.
    replace (Qabs q) with q
      by (destruct q as [a b]; unfold Qabs, Qle in *; cbn in *;
          now rewrite Z.abs_eq by lia).
    set (k := Qlog2_floor q).
    pose proof (Qlog2_floor_le q Hpos) as Hk. fold k in Hk.
    set (u := 2 ^ Z.max (k - 52) (-1074)).
    assert (Hu : 0 < u) by (apply Qpower_0_lt; reflexivity).
    assert (Hub : u <= q * (1 # 4503599627370496)
                       + (1 # 633825300114114700748351602688)).
    { unfold u. destruct (Z.max_spec (k - 52) (-1074)) as [[_ ->] | [_ ->]].
      - assert (H : 2 ^ (-1074) <= 1 # 633825300114114700748351602688).
        { apply Qle_bool_iff. vm_compute. reflexivity. }
        lra.
      - unfold Z.sub. rewrite Qpower_plus by (intros H; discriminate H).
        assert (H : 2 ^ (-52) == 1 # 4503599627370496) by reflexivity.
        rewrite H. nra. }
    pose proof (rint_error (q / u)) as Hr. apply Qabs_Qle_condition in Hr.
    assert (Hy : q == q / u * u) by (field; lra).
    set (y := q / u) in *. set (m := inject_Z (rint y)) in *.
    apply Qabs_Qle_condition.
    assert (H1 : (m - y) * u <= (1 # 2) * u) by nra.
    assert (H2 : - ((1 # 2) * u) <= (m - y) * u) by nra.
    split; nra.
Qed.

Lemma b64_nonneg (q : Q) : 0 <= q -> 0 <= b64 q.
Proof.
  intros Hq. unfold b64. destruct (Qeq_bool q 0); [lra|]. cbv zeta.
  set (u := 2 ^ ulp_exponent q).
  assert (Hu : 0 < u) by (apply Qpower_0_lt; reflexivity).
  assert (Hy : 0 <= q / u) by (apply Qle_shift_div_l; lra).
  pose proof (rint_error (q / u)) as Hr. apply Qabs_Qle_condition in Hr.
  assert (Hm : (0 <= rint (q / u))%Z).
  { assert (H : inject_Z (-1) < inject_Z (rint (q / u))).
    { change (inject_Z (-1)) with (-1). lra. }
    rewrite <- Zlt_Qlt in H. lia. }
  rewrite Zle_Qle in Hm. change (inject_Z 0) with 0 in Hm. nra.
Qed.

(** The percentage that [get_flag_summary] computes is within half a unit
    of its last digit of the exact percentage. *)
Lemma pct_of_portfolio_error (c n : Z) :
  (0 <= c < 2 ^ 40)%Z -> (0 < n < 2 ^ 40)%Z ->
  Qabs (Qround_digits (b64 (b64 (inject_Z c / inject_Z n) * 100)) 1
        - inject_Z c / inject_Z n * 100) <= 0.05.
Proof.
  intros Hc Hn.
  assert (HC : 0 <= inject_Z c < 1099511627776).
  { change 0 with (inject_Z 0). change 1099511627776 with (inject_Z (2 ^ 40)).
    rewrite <- Zle_Qle, <- Zlt_Qlt. exact Hc. }
  assert (HN : 0 < inject_Z n < 1099511627776).
  { change 0 with (inject_Z 0). change 1099511627776 with (inject_Z (2 ^ 40)).
    rewrite <- !Zlt_Qlt. exact Hn. }
  set (C := inject_Z c) in *. set (N := inject_Z n) in *.
  set (x := C / N).
  assert (Hx : x * N == C) by (unfold x; field; lra).
  assert (Hx0 : 0 <= x) by (unfold x; apply Qle_shift_div_l; lra).
  pose proof (b64_error x Hx0) as E1. apply Qabs_Qle_condition in E1.
  pose proof (b64_nonneg x Hx0) as Hx1.
  set (x1 := b64 x) in *.
  assert (Hx1' : 0 <= x1 * 100) by lra.
  pose proof (b64_error (x1 * 100) Hx1') as E2. apply Qabs_Qle_condition in E2.
  set (x2 := b64 (x1 * 100)) in *.
  unfold Qround_digits. change (10 ^ 1) with 10.
  pose proof (rint_error (x2 * 10)) as E3. apply Qabs_Qle_condition in E3.
  set (k := rint (x2 * 10)) in *.
  set (K := inject_Z k) in *.
  assert (S1 : N * x1 <= C + C * (1 # 9007199254740992)
                         + N * (1 # 1267650600228229401496703205376)) by nra.
  assert (S1' : C - C * (1 # 9007199254740992)
                - N * (1 # 1267650600228229401496703205376) <= N * x1) by nra.
  assert (S2 : N * x2 <= 100 * (N * x1) + 100 * (N * x1) * (1 # 9007199254740992)
                         + N * (1 # 1267650600228229401496703205376)) by nra.
  assert (S2' : 100 * (N * x1) - 100 * (N * x1) * (1 # 9007199254740992)
                - N * (1 # 1267650600228229401496703205376) <= N * x2) by nra.
  assert (S3 : K * N <= 10 * (N * x2) + (1 # 2) * N) by nra.
  assert (S3' : 10 * (N * x2) - (1 # 2) * N <= K * N) by nra.
  assert (Hint : (- n <= 2 * (k * n - 1000 * c) <= n)%Z).
  { assert (Hhi : inject_Z (2 * (k * n - 1000 * c)) < inject_Z (n + 1)).
    { unfold Z.sub.
      repeat (rewrite inject_Z_plus || rewrite inject_Z_mult || rewrite inject_Z_opp).
      fold K N C. change (inject_Z 2) with 2. change (inject_Z 1000) with 1000.
      change (inject_Z 1) with 1. lra. }
    assert (Hlo : inject_Z (- n - 1) < inject_Z (2 * (k * n - 1000 * c))).
    { unfold Z.sub.
      repeat (rewrite inject_Z_plus || rewrite inject_Z_mult || rewrite inject_Z_opp).
      fold K N C. change (inject_Z 2) with 2. change (inject_Z 1000) with 1000.
      change (inject_Z 1) with 1. lra. }
    rewrite <- Zlt_Qlt in Hhi, Hlo. lia. }
  destruct Hint as [H1 H2].
  rewrite Zle_Qle in H1, H2.
  unfold Z.sub in H1, H2.
  repeat (rewrite inject_Z_plus in H1 || rewrite inject_Z_mult in H1
          || rewrite inject_Z_opp in H1).
  repeat (rewrite inject_Z_plus in H2 || rewrite inject_Z_mult in H2
          || rewrite inject_Z_opp in H2).
  fold K N C in H1, H2.
  change (inject_Z 2) with 2 in H1, H2. change (inject_Z 1000) with 1000 in H1, H2.
  apply Qabs_Qle_condition.
  assert (G : K / 10 - x * 100 == (K * N - 1000 * C) / (10 * N)).
  { unfold x. field. lra. }
  rewrite G. split.
  - apply Qle_shift_div_l; lra.
  - apply Qle_shift_div_r; lra.
Qed.

(** ** Every dimension score is a number in a fixed range *)

Lemma days_per_year_nonzero : ~ 365.25 == 0.
Proof. intros H. discriminate H. Qed.

Lemma vintage_score_range cols r ref :
  exists q, _vintage_score cols r ref = Ok (fl q) /\ 10 <= q <= 100.
Proof.
  unfold _vintage_score.
  destruct (row_get cols "registration_date" _) as [d|].
  2: { exists 50. split; [reflexivity | lra]. }
  rewrite py_div_nonzero by apply days_per_year_nonzero.
  simpl bind. fold (age_years ref d).
  generalize (age_years ref d); intros a.
  unfold_float. split_tests; bool_to_Q; eexists; (split; [reflexivity | lra]).
Qed.

Lemma retirement_ratio_score_range cols r :
  exists q, _retirement_ratio_score cols r = Ok (fl q) /\ 0 <= q < 120.
Proof.
  unfold _retirement_ratio_score.
  generalize (row_get_or_0 cols "total_issued" (total_issued (project r))).
  generalize (row_get_or_0 cols "total_retired" (total_retired (project r))).
  intros [t|] [i|]; unfold_float; simpl.
  - unfold py_div. split_tests; simpl; bool_to_Q;
      try (exfalso; lra); try (eexists; split; [reflexivity | lra]).
    unfold_float. generalize (t / i); intros ratio.
    split_tests; bool_to_Q; eexists; (split; [reflexivity | lra]).
  - exists 0. split; [reflexivity | lra].
  - unfold py_div. split_tests; simpl; bool_to_Q;
      try (exfalso; lra); eexists; (split; [reflexivity | lra]).
  - exists 0. split; [reflexivity | lra].
Qed.

Lemma transparency_score_range cols r :
  exists q, _transparency_score cols r = Ok (fl q) /\ 0 <= q <= 100.
Proof.
  unfold _transparency_score.
  cbv zeta.
  generalize (populated_cell cols "proponent" (proponent (project r))).
  generalize (populated_cell cols "region" (region (project r))).
  generalize (populated_cell cols "crediting_period_start"
                (crediting_period_start (project r))).
  generalize (populated_cell cols "crediting_period_end"
                (crediting_period_end (project r))).
  generalize (populated_number cols "estimated_annual_reductions"
                (estimated_annual_reductions (project r))).
  generalize (populated_number cols "total_buffer_pool" (total_buffer_pool (project r))).
  intros b1 b2 b3 b4 b5 b6.
  destruct b1, b2, b3, b4, b5, b6;
    (eexists; split; [reflexivity | vm_compute; split; discriminate]).
Qed.

Lemma additionality_score_range cols r ref :
  exists q, _additionality_score cols r ref = Ok (fl q) /\ 15 <= q <= 90.
Proof.
  unfold _additionality_score.
  destruct (row_get cols "registration_date" _) as [d|];
    [destruct (row_get cols "crediting_period_start" _) as [c|] |].
  2, 3: exists 50; split; [reflexivity | lra].
  rewrite py_div_nonzero by apply days_per_year_nonzero.
  simpl bind. unfold_float.
  split_tests; eexists; (split; [reflexivity | lra]).
Qed.

Lemma project_type_score_range pt :
  exists q, _project_type_score pt = fl q /\ 30 <= q <= 85.
Proof.
  unfold _project_type_score.
  destruct pt as [s|]; [|exists 50; split; [reflexivity | lra]].
  cbv zeta.
  destruct (existsb _ HIGH_RISK_TYPES); [exists 30; split; [reflexivity | lra]|].
  destruct (existsb _ MEDIUM_RISK_TYPES); eexists; (split; [reflexivity | lra]).
Qed.

Lemma dict_get_cases {V : Type} (d : list (string * V)) (key : string) (default : V) :
  dict_get d key default = default \/ In (dict_get d key default) (map snd d).
Proof.
  induction d as [|[k v] t IH]; simpl; [now left|].
  destruct (String.eqb key k); [right; now left|].
  destruct IH as [IH|IH]; [now left | right; now right].
Qed.

Lemma governance_score_range c :
  exists q, _governance_score c = fl q /\ 25 <= q <= 90.
Proof.
  unfold _governance_score.
  destruct c as [c|].
  2: { eexists; split; [reflexivity | vm_compute; split; discriminate]. }
  cbv zeta.
  destruct (dict_get_cases COUNTRY_GOVERNANCE_SCORE (strip c) DEFAULT_GOVERNANCE_SCORE)
    as [H|H].
  - rewrite H. eexists; split; [reflexivity | vm_compute; split; discriminate].
  - revert H. generalize (dict_get COUNTRY_GOVERNANCE_SCORE (strip c) DEFAULT_GOVERNANCE_SCORE).
    intros v Hv. simpl in Hv.
    repeat (destruct Hv as [<- | Hv];
            [eexists; split; [reflexivity | vm_compute; split; discriminate]|]).
    contradiction.
Qed.

(** ** [score_all] row by row *)

Lemma bind_ok {A B : Type} (a : A) (k : A -> result B) : bind (Ok a) k = k a.
Proof. reflexivity. Qed.


Lemma mapM_map {A B C : Type} (f : B -> result C) (g : A -> B) (l : list A) :
  mapM f (map g l) = mapM (fun x => f (g x)) l.
Proof.
  induction l as [|x t IH]; simpl; [reflexivity | now rewrite IH].
Qed.

Section Raw_columns.

Variables (cols cols' : list string) (r r' : Row).
Hypothesis same_project : project r' = project r.

Lemma _vintage_score_ext ref :
  has_column cols' "registration_date" = has_column cols "registration_date" ->
  _vintage_score cols' r' ref = _vintage_score cols r ref.
Proof.
  intros H. unfold _vintage_score, row_get. now rewrite same_project, H.
Qed.

Lemma _retirement_ratio_score_ext :
  has_column cols' "total_issued" = has_column cols "total_issued" ->
  has_column cols' "total_retired" = has_column cols "total_retired" ->
  _retirement_ratio_score cols' r' = _retirement_ratio_score cols r.
Proof.
  intros H1 H2. unfold _retirement_ratio_score, row_get_or_0.
  now rewrite same_project, H1, H2.
Qed.

Lemma _transparency_score_ext :
  (forall c, In c ["proponent"; "region"; "crediting_period_start";
                   "crediting_period_end"; "estimated_annual_reductions";
                   "total_buffer_pool"]%string ->
             has_column cols' c = has_column cols c) ->
  _transparency_score cols' r' = _transparency_score cols r.
Proof.
  intros H. unfold _transparency_score, populated_cell, populated_number, row_get.
  rewrite same_project.
  rewrite !(H "proponent"%string), !(H "region"%string),
          !(H "crediting_period_start"%string), !(H "crediting_period_end"%string),
          !(H "estimated_annual_reductions"%string), !(H "total_buffer_pool"%string)
    by (simpl; tauto).
  reflexivity.
Qed.

Lemma _additionality_score_ext ref :
  has_column cols' "registration_date" = has_column cols "registration_date" ->
  has_column cols' "crediting_period_start" = has_column cols "crediting_period_start" ->
  _additionality_score cols' r' ref = _additionality_score cols r ref.
Proof.
  intros H1 H2. unfold _additionality_score, row_get.
  now rewrite same_project, H1, H2.
Qed.

End Raw_columns.

Lemma weighted_sum_rows (cols : list string) (F : Row -> Row) (rs : list Row)
  (dt : dtype) (ws : list (string * Q)) (g : Row -> float) :
  (forall dw, In dw ws -> has_column cols (fst dw) = true) ->
  weighted_sum {| columns := cols; rows := map F rs; project_type_dtype := dt |}
               ws (map g rs) =
  Ok (map (fun r =>
             fold_left
               (fun acc dw => (acc + score_cell (fst dw) (F r) * fl (snd dw))%fl)
               ws (g r))
          rs).
Proof.
  revert g. induction ws as [|[dim w] t IH]; intros g H; simpl.
  - reflexivity.
  - rewrite getitem_ok by (apply (H (dim, w)); now left).
    rewrite bind_ok. simpl rows. rewrite !map_map, map2_map_map.
    rewrite IH by (intros dw Hdw; apply H; now right).
    reflexivity.
Qed.

Ltac column_eq :=
  repeat rewrite has_column_add_column; simpl; repeat rewrite orb_false_r;
  try reflexivity.

Lemma setitem_rows {A : Type} (cols : list string) (c : string)
  (set : A -> Row -> Row) (G : Row -> A) (F : Row -> Row) (rs : list Row)
  (dt : dtype) :
  setitem {| columns := cols; rows := map F rs; project_type_dtype := dt |}
          c set (map G rs) =
  {| columns := add_column c cols;
     rows := map (fun r => set (G r) (F r)) rs;
     project_type_dtype := dt |}.
Proof.
  unfold setitem. simpl. now rewrite map2_map_map.
Qed.

Lemma setitem_rows_id {A : Type} (cols : list string) (c : string)
  (set : A -> Row -> Row) (G : Row -> A) (rs : list Row) (dt : dtype) :
  setitem {| columns := cols; rows := rs; project_type_dtype := dt |}
          c set (map G rs) =
  {| columns := add_column c cols;
     rows := map (fun r => set (G r) r) rs;
     project_type_dtype := dt |}.
Proof.
  unfold setitem. simpl. now rewrite map2_map_same.
Qed.

Ltac step_total :=
  unfold apply_rows at 1; cbn [rows columns]; rewrite ?mapM_map;
  rewrite (mapM_total _ NaN);
  [ rewrite bind_ok; first [rewrite setitem_rows | rewrite setitem_rows_id]
  | intros ? _;
    match goal with
    | |- exists y, _vintage_score ?c ?r ?d = _ =>
        destruct (vintage_score_range c r d) as [? [-> _]]; eauto
    | |- exists y, _retirement_ratio_score ?c ?r = _ =>
        destruct (retirement_ratio_score_range c r) as [? [-> _]]; eauto
    | |- exists y, _transparency_score ?c ?r = _ =>
        destruct (transparency_score_range c r) as [? [-> _]]; eauto
    | |- exists y, _additionality_score ?c ?r ?d = _ =>
        destruct (additionality_score_range c r d) as [? [-> _]]; eauto
    end ].

Lemma score_all_frame (today : Timestamp) (df : DataFrame)
  (reference_date : option Timestamp) :
  has_column (columns df) "project_type" = true ->
  has_column (columns df) "country" = true ->
  exists df',
    score_all today df reference_date = Ok df' /\
    columns df' = scored_columns (columns df) /\
    project_type_dtype df' = project_type_dtype df /\
    Forall2 (scored_row (columns df)
               match reference_date with Some d => d | None => today end)
            (rows df) (rows df').
Proof.
  intros Hpt Hco. unfold score_all.
  set (ref := match reference_date with Some d => d | None => today end).
  destruct df as [cols rs dt]. simpl in Hpt, Hco.
  cbn [rows columns project_type_dtype].
  step_total.
  step_total.
  rewrite getitem_ok by (cbn [rows columns]; column_eq; now rewrite Hpt).
  rewrite bind_ok. cbn [rows columns]. rewrite !map_map, setitem_rows.
  step_total.
  step_total.
  rewrite getitem_ok by (cbn [rows columns]; column_eq; now rewrite Hco).
  rewrite bind_ok. cbn [rows columns]. rewrite !map_map, setitem_rows.
  cbn [rows columns]. rewrite ?map_map.
  rewrite weighted_sum_rows.
  2: { intros dw Hdw. simpl in Hdw.
       repeat (destruct Hdw as [<- | Hdw]; [column_eq; apply orb_true_r|]).
       contradiction. }
  rewrite bind_ok, map_map, setitem_rows.
  rewrite getitem_ok by (cbn [rows columns]; apply has_column_add_column_same).
  rewrite bind_ok. cbn [rows columns]. rewrite !map_map, setitem_rows.
  eexists. split; [reflexivity|]. split; [reflexivity|]. split; [reflexivity|].
  cbn [rows columns]. apply Forall2_map_r. intros r _.
  set (r1 := set_vintage_score _ r).
  set (r2 := set_retirement_ratio_score _ r1).
  set (r3 := set_project_type_score _ r2).
  set (r4 := set_transparency_score _ r3).
  set (r5 := set_additionality_score _ r4).
  set (r6 := set_governance_score _ r5).
  set (r7 := set_cqi _ r6).
  set (r8 := set_quality_tier _ r7).
  unfold scored_row. repeat split; try reflexivity.
  - destruct (vintage_score_range cols r ref) as [q [Hq _]].
    cbn. rewrite Hq. reflexivity.
  - cbn [r8 r7 r6 r5 r4 r3 r2 set_quality_tier set_cqi set_governance_score
         set_additionality_score set_transparency_score set_project_type_score
         set_retirement_ratio_score with_scores scores retirement_ratio_score].
    rewrite (_retirement_ratio_score_ext cols _ r r1 eq_refl) by column_eq.
    destruct (retirement_ratio_score_range cols r) as [q [Hq _]].
    rewrite Hq. reflexivity.
  - cbn [r8 r7 r6 r5 r4 r3 r2 set_quality_tier set_cqi set_governance_score
         set_additionality_score set_transparency_score set_project_type_score
         set_retirement_ratio_score with_scores scores transparency_score].
    rewrite (_transparency_score_ext cols _ r r3 eq_refl)
      by (intros c Hc; simpl in Hc;
          repeat (destruct Hc as [<- | Hc]; [column_eq|]); contradiction).
    destruct (transparency_score_range cols r) as [q [Hq _]].
    rewrite Hq. reflexivity.
  - cbn [r8 r7 r6 r5 r4 r3 r2 set_quality_tier set_cqi set_governance_score
         set_additionality_score set_transparency_score set_project_type_score
         set_retirement_ratio_score with_scores scores additionality_score].
    rewrite (_additionality_score_ext cols _ r r4 eq_refl) by column_eq.
    destruct (additionality_score_range cols r ref) as [q [Hq _]].
    rewrite Hq. reflexivity.
Qed.

Lemma score_all_rows (today : Timestamp) (df : DataFrame)
  (reference_date : option Timestamp) :
  has_column (columns df) "project_type" = true ->
  has_column (columns df) "country" = true ->
  exists df',
    score_all today df reference_date = Ok df' /\
    columns df' = scored_columns (columns df) /\
    Forall2 (scored_row (columns df)
               match reference_date with Some d => d | None => today end)
            (rows df) (rows df').
Proof.
  intros Hpt Hco.
  destruct (score_all_frame today df reference_date Hpt Hco)
    as [df' [E [Hc [_ H]]]].
  exists df'. now repeat split.
Qed.

(** Scoring leaves the project_type column and its dtype as they are. *)
Lemma text_typed_scored (df df' : DataFrame) :
  columns df' = scored_columns (columns df) ->
  project_type_dtype df' = project_type_dtype df ->
  text_typed df' = text_typed df.
Proof.
  intros Hc Hd. unfold text_typed. rewrite Hc, Hd.
  unfold scored_columns. cbn [fold_left]. rewrite !has_column_add_column.
  cbn. now rewrite !orb_false_r.
Qed.

(** ** [detect] row by row *)

Lemma add_flag_rows (cols : list string) (F : Row -> Row) (rs : list Row)
  (dt : dtype) (m : Row -> bool) (code : string) :
  has_column cols "flags" = true ->
  _add_flag {| columns := cols; rows := map F rs; project_type_dtype := dt |}
            (map m rs) code =
  Ok {| columns := cols;
        rows := map (fun r => flag_rule code (fun _ => m r) (F r)) rs;
        project_type_dtype := dt |}.
Proof.
  intros H. unfold _add_flag.
  rewrite getitem_ok by exact H. rewrite bind_ok.
  cbn [rows columns]. now rewrite map2_map_map.
Qed.

Lemma _max_severity_total (flags : list string) :
  exists s, _max_severity flags = Ok s.
Proof.
  unfold _max_severity. destruct flags as [|f t]; [eauto|].
  rewrite (mapM_ext_ok _
             (fun f => match dict_find FLAG_CATALOGUE f with
                       | Some k => severity k
                       | None => EmptyString
                       end)).
  - rewrite bind_ok. destruct (map _ _); eauto.
  - intros x Hx. apply filter_In in Hx. destruct Hx as [_ Hx].
    unfold dict_mem, dict_item in *.
    destruct (dict_find FLAG_CATALOGUE x); [reflexivity | discriminate].
Qed.

Section Detector_rows.

Variable now : Timestamp.
Variable date_offset_months : Z -> Timestamp -> Timestamp.

Variables (cols : list string) (F : Row -> Row) (rs : list Row) (dt : dtype).
Hypothesis has_flags : has_column cols "flags" = true.

Let df := {| columns := cols; rows := map F rs; project_type_dtype := dt |}.
Let after (n : nat) :=
  Ok {| columns := cols;
        rows := map (fun r =>
                       match nth_error (flag_rules cols (date_offset_months 12%Z now)) n with
                       | Some rule => flag_rule (fst rule) (snd rule) (F r)
                       | None => F r
                       end) rs;
        project_type_dtype := dt |}.

Ltac rule_rows :=
  subst df; unfold flag_rules; cbn [columns nth_error fst snd];
  repeat match goal with
  | |- context [has_column cols ?c] =>
      lazymatch c with
      | "flags"%string => fail
      | _ => let E := fresh "E" in destruct (has_column cols c) eqn:E
      end
  end; cbn [andb]; cbv beta iota;
  try reflexivity;
  rewrite !getitem_ok by (cbn [columns]; assumption);
  rewrite !bind_ok; cbn [rows];
  rewrite ?map_map, ?map2_map_map, ?map_map, ?map2_map_map;
  rewrite add_flag_rows by exact has_flags;
  reflexivity.

Lemma _flag_high_vintage_rows : _flag_high_vintage df = after 0.
Proof. unfold _flag_high_vintage, after. rule_rows. Qed.

Lemma _flag_zero_retirements_rows : _flag_zero_retirements df = after 1.
Proof. unfold _flag_zero_retirements, after. rule_rows. Qed.

Lemma _flag_low_retirement_ratio_rows : _flag_low_retirement_ratio df = after 2.
Proof. unfold _flag_low_retirement_ratio, after. rule_rows. Qed.

Lemma _flag_redd_controversy_rows :
  text_typed df = true -> _flag_redd_controversy df = after 3.
Proof.
  unfold text_typed, _flag_redd_controversy, str_accessor, after.
  subst df. cbn [columns project_type_dtype]. intros Htext.
  unfold flag_rules. cbn [nth_error fst snd].
  destruct (has_column cols "project_type") eqn:E; cbn [andb]; cbv beta iota.
  - destruct dt; [|discriminate Htext].
    rewrite getitem_ok by (cbn [columns]; assumption).
    rewrite bind_ok. cbv beta iota. rewrite bind_ok. cbn [rows]. rewrite !map_map.
    rewrite add_flag_rows by exact has_flags. reflexivity.
  - reflexivity.
Qed.

Lemma _flag_redd_controversy_raises :
  text_typed df = false -> _flag_redd_controversy df = Raise AttributeError.
Proof.
  unfold text_typed, _flag_redd_controversy, str_accessor.
  subst df. cbn [columns project_type_dtype]. intros Htext.
  destruct (has_column cols "project_type") eqn:E; [|discriminate Htext].
  destruct dt; [discriminate Htext|].
  rewrite getitem_ok by (cbn [columns]; assumption).
  reflexivity.
Qed.

Lemma _flag_massive_issuance_rows : _flag_massive_issuance df = after 4.
Proof. unfold _flag_massive_issuance, after. rule_rows. Qed.

Lemma _flag_registration_lag_rows : _flag_registration_lag df = after 5.
Proof. unfold _flag_registration_lag, after. rule_rows. Qed.

Lemma _flag_weak_governance_rows : _flag_weak_governance df = after 6.
Proof. unfold _flag_weak_governance, after. rule_rows. Qed.

Lemma _flag_expired_crediting_rows :
  _flag_expired_crediting now date_offset_months df = after 7.
Proof. unfold _flag_expired_crediting, after. rule_rows. Qed.

Lemma _flag_incomplete_data_rows : _flag_incomplete_data df = after 8.
Proof. unfold _flag_incomplete_data, after. rule_rows. Qed.

End Detector_rows.

Lemma text_typed_flags (cols : list string) (rs rs' : list Row) (dt : dtype) :
  text_typed {| columns := add_column "flags" cols; rows := rs';
                project_type_dtype := dt |} =
  text_typed {| columns := cols; rows := rs; project_type_dtype := dt |}.
Proof.
  unfold text_typed. cbn [columns project_type_dtype].
  now rewrite has_column_add_column, orb_false_r.
Qed.

Lemma detect_rows (now : Timestamp) (date_offset_months : Z -> Timestamp -> Timestamp)
  (df : DataFrame) :
  text_typed df = true ->
  detect now date_offset_months df =
  Ok {| columns :=
          add_column "max_severity"
            (add_column "flag_count" (add_column "flags" (columns df)));
        rows :=
          map (flagged_row (add_column "flags" (columns df))
                           (date_offset_months 12%Z now))
              (rows df);
        project_type_dtype := project_type_dtype df |}.
Proof.
  destruct df as [cols rs dt]. intros Htext. unfold detect.
  cbn [columns rows project_type_dtype].
  rewrite setitem_rows_id.
  pose proof (has_column_add_column_same "flags" cols) as Hf.
  rewrite (_flag_high_vintage_rows now date_offset_months), bind_ok by exact Hf.
  rewrite (_flag_zero_retirements_rows now date_offset_months), bind_ok by exact Hf.
  rewrite (_flag_low_retirement_ratio_rows now date_offset_months), bind_ok by exact Hf.
  rewrite (_flag_redd_controversy_rows now date_offset_months), bind_ok
    by (first [exact Hf | rewrite (text_typed_flags cols rs); exact Htext]).
  rewrite (_flag_massive_issuance_rows now date_offset_months), bind_ok by exact Hf.
  rewrite (_flag_registration_lag_rows now date_offset_months), bind_ok by exact Hf.
  rewrite (_flag_weak_governance_rows now date_offset_months), bind_ok by exact Hf.
  rewrite (_flag_expired_crediting_rows now date_offset_months), bind_ok by exact Hf.
  rewrite (_flag_incomplete_data_rows now date_offset_months), bind_ok by exact Hf.
  rewrite getitem_ok by exact Hf. rewrite bind_ok.
  cbn [rows]. rewrite !map_map, setitem_rows.
  rewrite getitem_ok
    by (cbn [columns]; rewrite has_column_add_column, Hf; reflexivity).
  rewrite bind_ok. cbn [rows]. rewrite !map_map, mapM_map.
  rewrite (mapM_total _ ""%string) by (intros x _; apply _max_severity_total).
  rewrite bind_ok, setitem_rows.
  reflexivity.
Qed.

(** Without text in its project_type column the detector stops at the
    fourth rule. *)
Lemma detect_raises (now : Timestamp)
  (date_offset_months : Z -> Timestamp -> Timestamp) (df : DataFrame) :
  text_typed df = false ->
  detect now date_offset_months df = Raise AttributeError.
Proof.
  destruct df as [cols rs dt]. intros Htext. unfold detect.
  cbn [columns rows project_type_dtype].
  rewrite setitem_rows_id.
  pose proof (has_column_add_column_same "flags" cols) as Hf.
  rewrite (_flag_high_vintage_rows now date_offset_months), bind_ok by exact Hf.
  rewrite (_flag_zero_retirements_rows now date_offset_months), bind_ok by exact Hf.
  rewrite (_flag_low_retirement_ratio_rows now date_offset_months), bind_ok by exact Hf.
  rewrite (_flag_redd_controversy_raises now date_offset_months)
    by (first [exact Hf | rewrite (text_typed_flags cols rs); exact Htext]).
  reflexivity.
Qed.

(** ** The flags of one row *)

Lemma list_mem_In (x : string) (l : list string) : list_mem x l = true <-> In x l.
Proof.
  unfold list_mem. rewrite existsb_exists. split.
  - intros [y [Hy E]]. apply String.eqb_eq in E. now subst.
  - intros H. exists x. split; [assumption | apply String.eqb_refl].
Qed.

Lemma flag_rule_inputs (code : string) (test : Row -> bool) (r : Row) :
  project (flag_rule code test r) = project r /\
  scores (flag_rule code test r) = scores r.
Proof.
  unfold flag_rule. destruct (test r); split; reflexivity.
Qed.

Lemma flag_rule_flags (code : string) (test : Row -> bool) (r : Row) (c : string) :
  In c (flags (flagging (flag_rule code test r))) <->
  In c (flags (flagging r)) \/ (c = code /\ test r = true).
Proof.
  unfold flag_rule. destruct (test r).
  2: { split; [auto | intros [H | [_ H]]; [assumption | discriminate]]. }
  cbn. destruct (list_mem code (flags (flagging r))) eqn:E; cbn.
  - apply list_mem_In in E. intuition (subst; auto).
  - rewrite in_app_iff. cbn. intuition (subst; auto).
Qed.

Lemma flag_rule_NoDup (code : string) (test : Row -> bool) (r : Row) :
  NoDup (flags (flagging r)) -> NoDup (flags (flagging (flag_rule code test r))).
Proof.
  intros H. unfold flag_rule. destruct (test r); [|assumption].
  cbn. destruct (list_mem code (flags (flagging r))) eqn:E; cbn; [assumption|].
  apply NoDup_app; [assumption | repeat constructor; cbn; tauto |].
  intros x Hx [<- | []]. apply list_mem_In in Hx. congruence.
Qed.

Lemma run_rules_cons (rule : string * (Row -> bool))
  (rules : list (string * (Row -> bool))) (r : Row) :
  run_rules (rule :: rules) r = run_rules rules (flag_rule (fst rule) (snd rule) r).
Proof. reflexivity. Qed.

Lemma run_rules_inputs (rules : list (string * (Row -> bool))) (r : Row) :
  project (run_rules rules r) = project r /\ scores (run_rules rules r) = scores r.
Proof.
  revert r. induction rules as [|[code test] t IH]; intros r; [now split|].
  rewrite run_rules_cons. cbn [fst snd].
  destruct (IH (flag_rule code test r)) as [H1 H2].
  destruct (flag_rule_inputs code test r) as [H3 H4].
  split; congruence.
Qed.

Lemma run_rules_flags (rules : list (string * (Row -> bool))) (r : Row) (c : string) :
  Forall (fun rule => reads_inputs (snd rule)) rules ->
  In c (flags (flagging (run_rules rules r))) <->
  In c (flags (flagging r)) \/ exists test, In (c, test) rules /\ test r = true.
Proof.
  intros Hst. revert r. induction Hst as [|[code test] t Hrule Ht IH]; intros r.
  - cbn. split; [tauto | intros [H | [test [[] _]]]; assumption].
  - rewrite run_rules_cons. cbn [fst snd In]. rewrite IH, flag_rule_flags.
    destruct (flag_rule_inputs code test r) as [Hp Hs].
    split.
    + intros [[H | [-> H]] | [test' [Hin H]]].
      * now left.
      * right. exists test. split; [now left | assumption].
      * right. exists test'. split; [now right|].
        rewrite Forall_forall in Ht. rewrite <- H.
        symmetry. apply (Ht (c, test') Hin); assumption.
    + intros [H | [test' [[E | Hin] H]]].
      * left; now left.
      * inversion E; subst. left; right. now split.
      * right. exists test'. split; [assumption|].
        rewrite Forall_forall in Ht. rewrite <- H.
        apply (Ht (c, test') Hin); assumption.
Qed.

Lemma run_rules_NoDup (rules : list (string * (Row -> bool))) (r : Row) :
  NoDup (flags (flagging r)) -> NoDup (flags (flagging (run_rules rules r))).
Proof.
  revert r. induction rules as [|[code test] t IH]; intros r H; [assumption|].
  rewrite run_rules_cons. apply IH. now apply flag_rule_NoDup.
Qed.

Lemma flag_rules_read_inputs (cols : list string) (threshold : Timestamp) :
  Forall (fun rule => reads_inputs (snd rule)) (flag_rules cols threshold).
Proof.
  unfold flag_rules.
  repeat constructor; intros r r' Hp Hs; cbn; now rewrite Hp || now rewrite Hs.
Qed.

Section Flagged_row.

Variables (cols : list string) (threshold : Timestamp) (r : Row).

Lemma flagged_row_inputs :
  project (flagged_row cols threshold r) = project r /\
  scores (flagged_row cols threshold r) = scores r.
Proof.
  unfold flagged_row. cbn.
  apply (run_rules_inputs (flag_rules cols threshold) (set_flags [] r)).
Qed.

Lemma flagged_row_flags :
  flags (flagging (flagged_row cols threshold r)) =
  flags (flagging (run_rules (flag_rules cols threshold) (set_flags [] r))).
Proof. reflexivity. Qed.

Lemma flagged_row_In (c : string) :
  In c (flags (flagging (flagged_row cols threshold r))) <->
  exists test, In (c, test) (flag_rules cols threshold) /\ test r = true.
Proof.
  rewrite flagged_row_flags, run_rules_flags by apply flag_rules_read_inputs.
  cbn [set_flags with_flagging flagging flags In].
  split.
  - intros [[] | [test [Hin H]]]. exists test. split; [assumption|].
    rewrite <- H. pose proof (flag_rules_read_inputs cols threshold) as Hst.
    rewrite Forall_forall in Hst. now apply (Hst (c, test) Hin).
  - intros [test [Hin H]]. right. exists test. split; [assumption|].
    rewrite <- H. pose proof (flag_rules_read_inputs cols threshold) as Hst.
    rewrite Forall_forall in Hst. now apply (Hst (c, test) Hin).
Qed.

Lemma flagged_row_NoDup : NoDup (flags (flagging (flagged_row cols threshold r))).
Proof.
  rewrite flagged_row_flags. apply run_rules_NoDup. constructor.
Qed.

Lemma flagged_row_catalogue (c : string) :
  In c (flags (flagging (flagged_row cols threshold r))) ->
  dict_mem FLAG_CATALOGUE c = true.
Proof.
  rewrite flagged_row_In. intros [test [Hin _]].
  unfold flag_rules in Hin. cbn [In] in Hin.
  repeat (destruct Hin as [Hin | Hin]; [inversion Hin; reflexivity|]).
  contradiction.
Qed.

End Flagged_row.

(** ** Worst severity *)

Lemma max_by_key_In {A : Type} (key : A -> Z) (best : A) (rest : list A) :
  In (max_by_key key best rest) (best :: rest).
Proof.
  revert best. induction rest as [|x t IH]; intros best; cbn [max_by_key].
  - now left.
  - destruct (key x >? key best)%Z.
    + right. apply IH.
    + destruct (IH best) as [H | H]; [now left | right; now right].
Qed.

Lemma max_by_key_ge_best {A : Type} (key : A -> Z) (best : A) (rest : list A) :
  (key best <= key (max_by_key key best rest))%Z.
Proof.
  revert best. induction rest as [|y t IH]; intros best; cbn [max_by_key]; [lia|].
  destruct (key y >? key best)%Z eqn:E.
  - specialize (IH y). lia.
  - apply IH.
Qed.

Lemma max_by_key_upper {A : Type} (key : A -> Z) (best : A) (rest : list A) (x : A) :
  In x (best :: rest) -> (key x <= key (max_by_key key best rest))%Z.
Proof.
  revert best. induction rest as [|y t IH]; intros best Hx.
  - destruct Hx as [-> | []]. cbn. lia.
  - cbn [max_by_key].
    destruct (key y >? key best)%Z eqn:E.
    + destruct Hx as [-> | [-> | Hx]].
      * pose proof (max_by_key_ge_best key y t). lia.
      * apply max_by_key_ge_best.
      * apply IH. now right.
    + destruct Hx as [-> | [-> | Hx]].
      * apply max_by_key_ge_best.
      * pose proof (max_by_key_ge_best key best t). lia.
      * apply IH. now right.
Qed.

Lemma catalogue_severities (c : string) (k : RedFlag) :
  dict_find FLAG_CATALOGUE c = Some k ->
  severity k = "high"%string \/ severity k = "medium"%string \/
  severity k = "low"%string.
Proof.
  unfold FLAG_CATALOGUE. cbn [dict_find].
  repeat (destruct (String.eqb c _);
          [intros H; injection H as <-; cbn; tauto|]).
  discriminate.
Qed.

Lemma filter_all {A : Type} (p : A -> bool) (l : list A) :
  (forall x, In x l -> p x = true) -> filter p l = l.
Proof.
  induction l as [|x t IH]; intros H; cbn; [reflexivity|].
  rewrite (H x (or_introl eq_refl)), IH; [reflexivity|].
  intros y Hy. apply H. now right.
Qed.

Lemma _max_severity_spec (fs : list string) :
  (forall c, In c fs -> dict_mem FLAG_CATALOGUE c = true) ->
  exists m,
    _max_severity fs = Ok m /\
    (m = "none"%string <-> fs = []) /\
    (fs <> [] ->
       (exists f, In f fs /\ flag_severity f = Some m) /\
       (forall f s, In f fs -> flag_severity f = Some s ->
                    (severity_rank s <= severity_rank m)%Z)) /\
    ((exists f, In f fs /\ flag_severity f = Some "high"%string) ->
     m = "high"%string).
Proof.
  intros Hcat.
  destruct fs as [|f0 t].
  { exists "none"%string. repeat split; try reflexivity; try congruence.
    intros [f [[] _]]. }
  set (fs := f0 :: t) in *.
  set (sev := fun f => match dict_find FLAG_CATALOGUE f with
                       | Some k => severity k
                       | None => EmptyString
                       end).
  assert (Hsev : forall f, In f fs -> flag_severity f = Some (sev f)).
  { intros f Hf. specialize (Hcat f Hf). unfold dict_mem, flag_severity, sev in *.
    destruct (dict_find FLAG_CATALOGUE f); [reflexivity | discriminate]. }
  assert (Hval : forall f, In f fs ->
            sev f = "high"%string \/ sev f = "medium"%string \/ sev f = "low"%string).
  { intros f Hf. specialize (Hcat f Hf). unfold dict_mem, sev in *.
    destruct (dict_find FLAG_CATALOGUE f) eqn:E; [|discriminate].
    exact (catalogue_severities f r E). }
  assert (Hrun : _max_severity fs =
                 Ok (max_by_key severity_rank (sev f0) (map sev t))).
  { unfold _max_severity. subst fs. rewrite (filter_all _ _ Hcat).
    rewrite (mapM_ext_ok _ sev).
    - reflexivity.
    - intros x Hx. specialize (Hcat x Hx). unfold dict_mem, dict_item, sev in *.
      destruct (dict_find FLAG_CATALOGUE x); [reflexivity | discriminate]. }
  set (m := max_by_key severity_rank (sev f0) (map sev t)) in *.
  assert (Hin : exists f, In f fs /\ sev f = m).
  { pose proof (max_by_key_In severity_rank (sev f0) (map sev t)) as H.
    fold m in H. change (sev f0 :: map sev t) with (map sev fs) in H.
    apply in_map_iff in H. destruct H as [f [E Hf]]. eauto. }
  assert (Hup : forall f, In f fs -> (severity_rank (sev f) <= severity_rank m)%Z).
  { intros f Hf. apply max_by_key_upper.
    change (sev f0 :: map sev t) with (map sev fs). now apply in_map. }
  exists m. split; [exact Hrun|]. split; [|split].
  - split; [|discriminate].
    destruct Hin as [f [Hf E]]. destruct (Hval f Hf) as [H | [H | H]]; congruence.
  - intros _. split.
    + destruct Hin as [f [Hf E]]. exists f. split; [assumption|].
      rewrite (Hsev f Hf). now f_equal.
    + intros f s Hf Hs. rewrite (Hsev f Hf) in Hs. injection Hs as <-. now apply Hup.
  - intros [f [Hf Hs]]. rewrite (Hsev f Hf) in Hs. injection Hs as Hs.
    pose proof (Hup f Hf) as Hle. rewrite Hs in Hle.
    destruct Hin as [g [Hg E]]. rewrite <- E in *.
    destruct (Hval g Hg) as [H | [H | H]]; rewrite H in *;
      [reflexivity | exfalso; revert Hle; vm_compute; tauto..].
Qed.
(** ** Claims about the detector *)

(** From membership of a code in the flags of a flagged row to the test of
    the rule that adds that code. *)
Ltac rule_test H :=
  apply flagged_row_In in H;
  let Hin := fresh "Hin" in
  destruct H as [? [Hin H]];
  unfold flag_rules in Hin; cbn [In] in Hin;
  repeat (destruct Hin as [Hin | Hin];
          [try discriminate Hin; injection Hin as <- |]);
  try contradiction; cbv beta in H.

(** C5: for every record output by [detect], [max_severity] is "none"
    exactly when the record has no flag; otherwise it is the catalogue
    severity of one of the record's flags and no flag of the record has a
    severity of higher rank (high 3, medium 2, low 1); in particular one
    high-severity flag makes it "high".  [detect] returns on every batch
    whose project_type column, if any, holds text. *)
Theorem C5_max_severity (now : Timestamp)
  (date_offset_months : Z -> Timestamp -> Timestamp) (df : DataFrame) :
  text_typed df = true ->
  exists df',
    detect now date_offset_months df = Ok df' /\
    Forall (fun r' =>
              let fs := flags (flagging r') in
              let m := max_severity (flagging r') in
              (m = "none"%string <-> fs = []) /\
              (fs <> [] ->
                 (exists f, In f fs /\ flag_severity f = Some m) /\
                 (forall f s, In f fs -> flag_severity f = Some s ->
                              (severity_rank s <= severity_rank m)%Z)) /\
              ((exists f, In f fs /\ flag_severity f = Some "high"%string) ->
               m = "high"%string))
           (rows df').
Proof.
  intros Htext. rewrite detect_rows by exact Htext.
  eexists. split; [reflexivity|].
  cbn [rows]. apply Forall_forall. intros r' Hr'.
  apply in_map_iff in Hr'. destruct Hr' as [r [<- _]].
  set (cols := add_column "flags" (columns df)).
  set (thr := date_offset_months 12%Z now).
  destruct (_max_severity_spec (flags (flagging (flagged_row cols thr r))))
    as [m [Hm Hspec]].
  { intros c. apply flagged_row_catalogue. }
  assert (E : max_severity (flagging (flagged_row cols thr r)) = m).
  { change (max_severity (flagging (flagged_row cols thr r)))
      with (value_of ""%string
              (_max_severity (flags (flagging (flagged_row cols thr r))))).
    now rewrite Hm. }
  cbv zeta. rewrite E. exact Hspec.
Qed.

Lemma C5_witness_sample_batch :
  exists df',
    detect date_2024_01_01 thirty_day_months
      (batch_of [forest_project "REDD+"; sparse_project;
                 solar_project 4000000 3000000]) = Ok df' /\
    Forall (fun r' =>
              let fs := flags (flagging r') in
              let m := max_severity (flagging r') in
              (m = "none"%string <-> fs = []) /\
              (fs <> [] ->
                 (exists f, In f fs /\ flag_severity f = Some m) /\
                 (forall f s, In f fs -> flag_severity f = Some s ->
                              (severity_rank s <= severity_rank m)%Z)) /\
              ((exists f, In f fs /\ flag_severity f = Some "high"%string) ->
               m = "high"%string))
           (rows df').
Proof.
  apply (C5_max_severity date_2024_01_01 thirty_day_months
           (batch_of [forest_project "REDD+"; sparse_project;
                      solar_project 4000000 3000000])).
  reflexivity.
Defined.

(** C6: no record output by [detect] carries both ZERO_RETIREMENTS and
    LOW_RETIREMENT_RATIO: the first is added only to a record with
    [total_retired == 0], the second only to one with [total_retired > 0].
    [detect] returns on every batch whose project_type column, if any, holds
    text. *)
Theorem C6_zero_and_low_retirement_exclusive (now : Timestamp)
  (date_offset_months : Z -> Timestamp -> Timestamp) (df : DataFrame) :
  text_typed df = true ->
  exists df',
    detect now date_offset_months df = Ok df' /\
    Forall (fun r' =>
              let fs := flags (flagging r') in
              (In "ZERO_RETIREMENTS"%string fs ->
               (total_retired (project r') ==? fl 0)%fl = true) /\
              (In "LOW_RETIREMENT_RATIO"%string fs ->
               (total_retired (project r') >? fl 0)%fl = true) /\
              ~ (In "ZERO_RETIREMENTS"%string fs /\
                 In "LOW_RETIREMENT_RATIO"%string fs))
           (rows df').
Proof.
  intros Htext. rewrite detect_rows by exact Htext.
  eexists. split; [reflexivity|].
  cbn [rows]. apply Forall_forall. intros r' Hr'.
  apply in_map_iff in Hr'. destruct Hr' as [r [<- _]].
  set (cols := add_column "flags" (columns df)).
  set (thr := date_offset_months 12%Z now).
  destruct (flagged_row_inputs cols thr r) as [Hp _].
  cbv zeta. rewrite Hp.
  assert (Hzero : In "ZERO_RETIREMENTS"%string (flags (flagging (flagged_row cols thr r))) ->
                  (total_retired (project r) ==? fl 0)%fl = true).
  { intros H. rule_test H.
    apply andb_prop in H. destruct H as [_ H].
    apply andb_prop in H. now destruct H. }
  assert (Hlow : In "LOW_RETIREMENT_RATIO"%string (flags (flagging (flagged_row cols thr r))) ->
                 (total_retired (project r) >? fl 0)%fl = true).
  { intros H. rule_test H.
    apply andb_prop in H. destruct H as [_ H].
    apply andb_prop in H. now destruct H. }
  split; [exact Hzero | split; [exact Hlow|]].
  intros [Hz Hl]. specialize (Hzero Hz). specialize (Hlow Hl).
  destruct (total_retired (project r)) as [q|]; unfold_float; [|discriminate].
  bool_to_Q. lra.
Qed.

Lemma C6_witness_sample_batch :
  exists df',
    detect date_2024_01_01 thirty_day_months
      (batch_of [forest_project "REDD+"; sparse_project;
                 solar_project 4000000 100000]) = Ok df' /\
    Forall (fun r' =>
              let fs := flags (flagging r') in
              (In "ZERO_RETIREMENTS"%string fs ->
               (total_retired (project r') ==? fl 0)%fl = true) /\
              (In "LOW_RETIREMENT_RATIO"%string fs ->
               (total_retired (project r') >? fl 0)%fl = true) /\
              ~ (In "ZERO_RETIREMENTS"%string fs /\
                 In "LOW_RETIREMENT_RATIO"%string fs))
           (rows df').
Proof.
  apply (C6_zero_and_low_retirement_exclusive date_2024_01_01 thirty_day_months
           (batch_of [forest_project "REDD+"; sparse_project;
                      solar_project 4000000 100000])).
  reflexivity.
Defined.

(** ** Counting flags *)

Lemma dict_find_In {V : Type} (d : list (string * V)) (k : string) (v : V) :
  dict_find d k = Some v -> In (k, v) d.
Proof.
  induction d as [|[k' v'] t IH]; cbn; [discriminate|].
  destruct (String.eqb_spec k k') as [->|_].
  - intros H. injection H as ->. now left.
  - intros H. right. now apply IH.
Qed.

Lemma dict_find_not_In {V : Type} (d : list (string * V)) (k : string) :
  dict_find d k = None <-> ~ In k (map fst d).
Proof.
  induction d as [|[k' v'] t IH]; cbn; [tauto|].
  destruct (String.eqb_spec k k') as [->|Hne].
  - split; [discriminate | intros H; exfalso; apply H; now left].
  - rewrite IH. split; [intros H [E|Hin]; [congruence | contradiction] | tauto].
Qed.

Lemma In_dict_find {V : Type} (d : list (string * V)) (k : string) (v : V) :
  NoDup (map fst d) -> In (k, v) d -> dict_find d k = Some v.
Proof.
  induction d as [|[k' v'] t IH]; cbn; [contradiction|].
  intros Hnd [E | Hin].
  - injection E as -> ->. now rewrite String.eqb_refl.
  - inversion Hnd as [|? ? Hk Ht]; subst.
    destruct (String.eqb_spec k k') as [->|_].
    + exfalso. apply Hk. change k' with (fst (k', v)). now apply in_map.
    + now apply IH.
Qed.

Lemma counter_incr_find (c : list (string * Z)) (x k : string) :
  dict_find (counter_incr c x) k =
  if String.eqb k x
  then Some (match dict_find c x with Some n => (n + 1)%Z | None => 1%Z end)
  else dict_find c k.
Proof.
  induction c as [|[k' n] t IH]; cbn.
  - destruct (String.eqb k x); reflexivity.
  - destruct (String.eqb x k') eqn:Ex; cbn.
    + apply String.eqb_eq in Ex. subst k'.
      destruct (String.eqb k x); reflexivity.
    + rewrite IH. destruct (String.eqb k k') eqn:Ek; [|reflexivity].
      apply String.eqb_eq in Ek. subst k'.
      rewrite String.eqb_sym in Ex. now rewrite Ex.
Qed.

Lemma counter_incr_keys (c : list (string * Z)) (x : string) :
  map fst (counter_incr c x) =
  if dict_mem c x then map fst c else (map fst c ++ [x])%list.
Proof.
  unfold dict_mem. induction c as [|[k' n] t IH]; cbn; [reflexivity|].
  destruct (String.eqb_spec x k') as [->|Hx]; cbn; [reflexivity|].
  rewrite IH. destruct (dict_find t x); reflexivity.
Qed.

Lemma counter_incr_NoDup (c : list (string * Z)) (x : string) :
  NoDup (map fst c) -> NoDup (map fst (counter_incr c x)).
Proof.
  intros H. rewrite counter_incr_keys. unfold dict_mem.
  destruct (dict_find c x) eqn:E; [assumption|].
  apply dict_find_not_In in E.
  apply NoDup_app; [assumption | repeat constructor; cbn; tauto |].
  intros y Hy [<- | []]. contradiction.
Qed.

Lemma Counter_snoc (l : list string) (x : string) :
  Counter (l ++ [x]) = counter_incr (Counter l) x.
Proof.
  unfold Counter. now rewrite fold_left_app.
Qed.

Lemma Counter_NoDup (l : list string) : NoDup (map fst (Counter l)).
Proof.
  induction l as [|x t IH] using rev_ind.
  - constructor.
  - rewrite Counter_snoc. now apply counter_incr_NoDup.
Qed.

Lemma Counter_find (l : list string) (k : string) :
  dict_find (Counter l) k =
  if (count_occ string_dec l k =? 0)%nat then None
  else Some (Z.of_nat (count_occ string_dec l k)).
Proof.
  induction l as [|x t IH] using rev_ind.
  - reflexivity.
  - rewrite Counter_snoc, counter_incr_find, count_occ_app. cbn [count_occ].
    destruct (String.eqb_spec k x) as [->|Hk].
    + rewrite IH. destruct (string_dec x x) as [_|N]; [|congruence].
      destruct (count_occ string_dec t x) as [|n] eqn:E; cbn [Nat.eqb Nat.add].
      * reflexivity.
      * rewrite Nat.add_1_r. cbn [Nat.eqb]. f_equal. lia.
    + rewrite IH. destruct (string_dec x k) as [E|_]; [congruence|].
      now rewrite Nat.add_0_r.
Qed.

Lemma Counter_In (l : list string) (k : string) (n : Z) :
  In (k, n) (Counter l) <->
  In k l /\ n = Z.of_nat (count_occ string_dec l k).
Proof.
  split.
  - intros H. apply (In_dict_find _ _ _ (Counter_NoDup l)) in H.
    rewrite Counter_find in H.
    destruct (count_occ string_dec l k =? 0)%nat eqn:E; [discriminate|].
    injection H as <-. split; [|reflexivity].
    apply Nat.eqb_neq in E. apply (count_occ_In string_dec). lia.
  - intros [Hin ->]. apply dict_find_In. rewrite Counter_find.
    apply (count_occ_In string_dec) in Hin.
    destruct (count_occ string_dec l k =? 0)%nat eqn:E; [|reflexivity].
    apply Nat.eqb_eq in E. lia.
Qed.

(** ** [most_common] sorts *)

Lemma insert_desc_perm (x : string * Z) (l : list (string * Z)) :
  Permutation (insert_desc x l) (x :: l).
Proof.
  induction l as [|y t IH]; cbn; [reflexivity|].
  destruct (snd y >? snd x)%Z; [|reflexivity].
  rewrite IH. apply perm_swap.
Qed.

Lemma most_common_perm (c : list (string * Z)) : Permutation (most_common c) c.
Proof.
  induction c as [|x t IH]; cbn; [constructor|].
  change (fold_right insert_desc [] t) with (most_common t).
  rewrite insert_desc_perm. now constructor.
Qed.

Lemma insert_desc_HdRel (a x : string * Z) (l : list (string * Z)) :
  count_ge a x -> HdRel count_ge a l -> HdRel count_ge a (insert_desc x l).
Proof.
  intros Hax Hal. destruct l as [|y t]; cbn.
  - now constructor.
  - destruct (snd y >? snd x)%Z; constructor; [|assumption].
    now inversion Hal.
Qed.

Lemma insert_desc_sorted (x : string * Z) (l : list (string * Z)) :
  Sorted count_ge l -> Sorted count_ge (insert_desc x l).
Proof.
  induction l as [|y t IH]; intros H; cbn.
  - repeat constructor.
  - inversion H as [|? ? Ht Hy]; subst.
    destruct (snd y >? snd x)%Z eqn:E.
    + constructor; [now apply IH|].
      apply insert_desc_HdRel; [|assumption]. unfold count_ge. lia.
    + constructor; [assumption|]. constructor. unfold count_ge. lia.
Qed.

Lemma most_common_sorted (c : list (string * Z)) : Sorted count_ge (most_common c).
Proof.
  induction c as [|x t IH]; cbn; [constructor|].
  now apply insert_desc_sorted.
Qed.

Lemma count_ge_trans (a b c : string * Z) : count_ge a b -> count_ge b c -> count_ge a c.
Proof. unfold count_ge. lia. Qed.

Lemma most_common_strongly_sorted (c : list (string * Z)) :
  StronglySorted count_ge (most_common c).
Proof.
  apply Sorted_StronglySorted; [|apply most_common_sorted].
  intros x y z. apply count_ge_trans.
Qed.

Lemma StronglySorted_map {A B : Type} (R : A -> A -> Prop) (S : B -> B -> Prop)
  (f : A -> B) (l : list A) :
  (forall x y, R x y -> S (f x) (f y)) ->
  StronglySorted R l -> StronglySorted S (map f l).
Proof.
  intros Hf H. induction H as [|x t Ht IH Hx]; cbn; constructor; [assumption|].
  rewrite Forall_map. revert Hx. apply Forall_impl. intros y. apply Hf.
Qed.

(** ** [get_flag_summary] entry by entry *)

Lemma count_occ_NoDup (l : list string) (c : string) :
  NoDup l -> count_occ string_dec l c = if list_mem c l then 1%nat else 0%nat.
Proof.
  intros H. destruct (list_mem c l) eqn:E.
  - apply list_mem_In in E.
    rewrite (NoDup_count_occ string_dec) in H. specialize (H c).
    apply (count_occ_In string_dec) in E. lia.
  - apply (count_occ_not_In string_dec). intros Hin.
    apply list_mem_In in Hin. congruence.
Qed.

Lemma count_occ_flags (rs : list Row) (c : string) :
  Forall (fun r => NoDup (flags (flagging r))) rs ->
  Z.of_nat (count_occ string_dec (List.concat (map (fun r => flags (flagging r)) rs)) c) =
  records_with c rs.
Proof.
  unfold records_with. intros H. f_equal.
  induction H as [|r t Hr Ht IH]; cbn; [reflexivity|].
  rewrite count_occ_app, IH, (count_occ_NoDup _ _ Hr).
  destruct (list_mem c (flags (flagging r))); reflexivity.
Qed.

Lemma records_with_le (c : string) (rs : list Row) :
  (records_with c rs <= Z.of_nat (List.length rs))%Z.
Proof.
  unfold records_with. apply inj_le. apply filter_length_le.
Qed.

Lemma get_flag_summary_rows (df : DataFrame) :
  has_column (columns df) "flags" = true ->
  get_flag_summary df =
  Ok (map (summary_row (List.length (rows df)))
          (most_common (Counter (List.concat (map (fun r => flags (flagging r)) (rows df)))))).
Proof.
  intros H. unfold get_flag_summary.
  rewrite getitem_ok by exact H. rewrite bind_ok.
  apply mapM_ext_ok. intros [code count] Hin.
  apply (Permutation_in _ (most_common_perm _)) in Hin.
  apply Counter_In in Hin. destruct Hin as [Hin _].
  apply in_concat in Hin. destruct Hin as [l [Hl _]].
  apply in_map_iff in Hl. destruct Hl as [r [_ Hr]].
  destruct (rows df) as [|r0 t]; [contradiction|].
  unfold py_int_div.
  destruct (Z.eqb_spec (Z.of_nat (List.length (r0 :: t))) 0) as [E|_].
  - cbn [List.length] in E. lia.
  - reflexivity.
Qed.

Lemma summary_row_code (n : nat) (entry : string * Z) :
  Summary.flag_code (summary_row n entry) = fst entry.
Proof. now destruct entry. Qed.

Lemma summary_row_count (n : nat) (entry : string * Z) :
  Summary.project_count (summary_row n entry) = snd entry.
Proof. now destruct entry. Qed.

Lemma flag_summary_spec (df : DataFrame) :
  has_column (columns df) "flags" = true ->
  Forall (fun r => NoDup (flags (flagging r))) (rows df) ->
  exists summary,
    get_flag_summary df = Ok summary /\
    NoDup (map Summary.flag_code summary) /\
    (forall c, In c (map Summary.flag_code summary) <->
               exists r, In r (rows df) /\ In c (flags (flagging r))) /\
    Forall (fun row =>
              Summary.project_count row =
                records_with (Summary.flag_code row) (rows df) /\
              (Summary.project_count row <= Z.of_nat (List.length (rows df)))%Z /\
              Summary.pct_of_portfolio row =
                py_round
                  (b64_mul
                     (fl (b64 (inject_Z (Summary.project_count row) /
                               inject_Z (Z.of_nat (List.length (rows df))))))
                     (fl 100)) 1 /\
              ((Z.of_nat (List.length (rows df)) < 2 ^ 40)%Z ->
               exists tenths : Z,
                 Summary.pct_of_portfolio row = fl (inject_Z tenths / 10) /\
                 Qabs (inject_Z tenths / 10 -
                       inject_Z (Summary.project_count row) /
                       inject_Z (Z.of_nat (List.length (rows df))) * 100)
                 <= 0.05))
           summary /\
    StronglySorted project_count_ge summary.
Proof.
  intros Hcol Hnd.
  rewrite (get_flag_summary_rows df Hcol).
  set (all_flags := List.concat (map (fun r => flags (flagging r)) (rows df))).
  set (n := List.length (rows df)).
  eexists. split; [reflexivity|].
  assert (Hcodes : map Summary.flag_code
                     (map (summary_row n) (most_common (Counter all_flags))) =
                   map fst (most_common (Counter all_flags))).
  { rewrite map_map. apply map_ext. intros e. apply summary_row_code. }
  assert (Hperm : Permutation (map fst (most_common (Counter all_flags)))
                              (map fst (Counter all_flags))).
  { apply Permutation_map, most_common_perm. }
  split; [|split; [|split]].
  - rewrite Hcodes. apply (Permutation_NoDup (Permutation_sym Hperm)).
    apply Counter_NoDup.
  - intros c. rewrite Hcodes. split.
    + intros H. apply (Permutation_in _ Hperm) in H.
      apply in_map_iff in H. destruct H as [[c' k] [E H]]. cbn in E. subst c'.
      apply Counter_In in H. destruct H as [H _].
      apply in_concat in H. destruct H as [l [Hl Hc]].
      apply in_map_iff in Hl. destruct Hl as [r [<- Hr]]. eauto.
    + intros [r [Hr Hc]].
      apply (Permutation_in _ (Permutation_sym Hperm)).
      assert (Hall : In c all_flags).
      { apply in_concat. exists (flags (flagging r)). split; [|assumption].
        apply in_map_iff. eauto. }
      apply in_map_iff.
      exists (c, Z.of_nat (count_occ string_dec all_flags c)). split; [reflexivity|].
      apply Counter_In. now split.
  - apply Forall_forall. intros row Hrow.
    apply in_map_iff in Hrow. destruct Hrow as [[c k] [<- Hin]].
    apply (Permutation_in _ (most_common_perm _)) in Hin.
    apply Counter_In in Hin. destruct Hin as [Hin ->].
    assert (Hpos : (0 < Z.of_nat n)%Z).
    { apply in_concat in Hin. destruct Hin as [l [Hl _]].
      apply in_map_iff in Hl. destruct Hl as [r [_ Hr]].
      unfold n. destruct (rows df); [contradiction | cbn [List.length]; lia]. }
    cbn [summary_row Summary.project_count Summary.flag_code Summary.pct_of_portfolio].
    unfold all_flags. rewrite (count_occ_flags _ _ Hnd).
    pose proof (records_with_le c (rows df)) as Hle.
    split; [reflexivity | split; [exact Hle | split; [reflexivity|]]].
    intros Hsize. eexists. split; [reflexivity|].
    apply pct_of_portfolio_error; [|fold n; lia].
    unfold records_with in *. fold n in Hle. lia.
  - apply (StronglySorted_map count_ge); [|apply most_common_strongly_sorted].
    intros x y H. unfold project_count_ge. now rewrite !summary_row_count.
Qed.

(** C7 fails for 23 flagged records of 80: the exact percentage is 28.75,
    which rounds to 28.8, and the summary reports 28.7, the rounding of the
    double nearest below 28.75 that the binary division and multiplication
    give. *)
Lemma C7_counterexample_23_of_80 :
  exists df summary row,
    detect date_2024_01_01 thirty_day_months redd_23_of_80 = Ok df /\
    get_flag_summary df = Ok summary /\
    In row summary /\
    List.length (rows df) = 80%nat /\
    Summary.project_count row = 23%Z /\
    inject_Z 23 / inject_Z 80 * 100 == 28.75 /\
    f_same (f_round (fl (inject_Z 23 / inject_Z 80) * fl 100)%fl 1) (fl 28.8) /\
    f_same (Summary.pct_of_portfolio row) (fl 28.7) /\
    ~ f_same (Summary.pct_of_portfolio row)
             (f_round (fl (inject_Z 23 / inject_Z 80) * fl 100)%fl 1).
Proof.
  eexists. eexists. eexists.
  split; [vm_compute; reflexivity|].
  split; [vm_compute; reflexivity|].
  split; [left; reflexivity|].
  split; [reflexivity|]. split; [reflexivity|].
  split; [reflexivity|].
  split; [vm_compute; reflexivity|].
  split; [vm_compute; reflexivity|].
  vm_compute. discriminate.
Qed.

(** C7: the summary of a flagged batch has exactly one row per flag code
    carried by at least one record, in which [project_count] is the number of
    records carrying the code (at most the batch size) and
    [pct_of_portfolio] is [round(project_count / batch size * 100, 1)] as
    Python evaluates it on doubles: a number of one decimal that, in a batch
    of fewer than 2^40 records, is within 0.05 of the exact percentage; the
    rows are in descending order of [project_count].  The flagged batch is
    the output of [detect] on a batch whose project_type column, if any,
    holds text. *)
Theorem C7_flag_summary (now : Timestamp)
  (date_offset_months : Z -> Timestamp -> Timestamp) (df0 : DataFrame) :
  text_typed df0 = true ->
  exists df summary,
    detect now date_offset_months df0 = Ok df /\
    get_flag_summary df = Ok summary /\
    NoDup (map Summary.flag_code summary) /\
    (forall c, In c (map Summary.flag_code summary) <->
               exists r, In r (rows df) /\ In c (flags (flagging r))) /\
    Forall (fun row =>
              Summary.project_count row =
                records_with (Summary.flag_code row) (rows df) /\
              (Summary.project_count row <= Z.of_nat (List.length (rows df)))%Z /\
              Summary.pct_of_portfolio row =
                py_round
                  (b64_mul
                     (fl (b64 (inject_Z (Summary.project_count row) /
                               inject_Z (Z.of_nat (List.length (rows df))))))
                     (fl 100)) 1 /\
              ((Z.of_nat (List.length (rows df)) < 2 ^ 40)%Z ->
               exists tenths : Z,
                 Summary.pct_of_portfolio row = fl (inject_Z tenths / 10) /\
                 Qabs (inject_Z tenths / 10 -
                       inject_Z (Summary.project_count row) /
                       inject_Z (Z.of_nat (List.length (rows df))) * 100)
                 <= 0.05))
           summary /\
    StronglySorted project_count_ge summary.
Proof.
  intros Htext. rewrite detect_rows by exact Htext.
  match goal with |- context [Ok ?d = Ok _] => set (df := d) end.
  destruct (flag_summary_spec df) as [summary Hs].
  - subst df. cbn [columns].
    rewrite 2 has_column_add_column, has_column_add_column_same. reflexivity.
  - subst df. cbn [rows]. apply Forall_forall. intros r' Hr'.
    apply in_map_iff in Hr'. destruct Hr' as [r [<- _]].
    apply flagged_row_NoDup.
  - exists df, summary. split; [reflexivity | exact Hs].
Qed.

Lemma C7_witness_sample_batch :
  exists df summary,
    detect date_2024_01_01 thirty_day_months
      (batch_of [forest_project "REDD+"; sparse_project;
                 solar_project 4000000 100000]) = Ok df /\
    get_flag_summary df = Ok summary /\
    NoDup (map Summary.flag_code summary) /\
    (forall c, In c (map Summary.flag_code summary) <->
               exists r, In r (rows df) /\ In c (flags (flagging r))) /\
    Forall (fun row =>
              Summary.project_count row =
                records_with (Summary.flag_code row) (rows df) /\
              (Summary.project_count row <= Z.of_nat (List.length (rows df)))%Z /\
              Summary.pct_of_portfolio row =
                py_round
                  (b64_mul
                     (fl (b64 (inject_Z (Summary.project_count row) /
                               inject_Z (Z.of_nat (List.length (rows df))))))
                     (fl 100)) 1 /\
              ((Z.of_nat (List.length (rows df)) < 2 ^ 40)%Z ->
               exists tenths : Z,
                 Summary.pct_of_portfolio row = fl (inject_Z tenths / 10) /\
                 Qabs (inject_Z tenths / 10 -
                       inject_Z (Summary.project_count row) /
                       inject_Z (Z.of_nat (List.length (rows df))) * 100)
                 <= 0.05))
           summary /\
    StronglySorted project_count_ge summary.
Proof.
  apply (C7_flag_summary date_2024_01_01 thirty_day_months
           (batch_of [forest_project "REDD+"; sparse_project;
                      solar_project 4000000 100000])).
  reflexivity.
Defined.

(** C10: on a batch with a flags column in which no record carries a flag,
    the empty batch included, [get_flag_summary] returns the empty table: no
    division by the batch size takes place. *)
Theorem C10_flag_summary_of_flagless_batch (df : DataFrame) :
  has_column (columns df) "flags" = true ->
  Forall (fun r => flags (flagging r) = []) (rows df) ->
  get_flag_summary df = Ok [].
Proof.
  intros Hcol Hnone. rewrite (get_flag_summary_rows df Hcol).
  replace (List.concat (map (fun r => flags (flagging r)) (rows df)))
    with (@nil string); [reflexivity|].
  induction Hnone as [|r t Hr Ht IH]; cbn; [reflexivity|].
  now rewrite Hr, <- IH.
Qed.

Lemma C10_witness_empty_batch :
  get_flag_summary {| columns := ["project_id"; "flags"]%string; rows := [];
                      project_type_dtype := dtype_object |} = Ok [].
Proof.
  apply C10_flag_summary_of_flagless_batch; [reflexivity | constructor].
Defined.
(** ** Substrings survive stripping *)

Lemma is_space_lower_char (c : ascii) : is_space (lower_char c) = is_space c.
Proof.
  destruct c as [b0 b1 b2 b3 b4 b5 b6 b7].
  destruct b0, b1, b2, b3, b4, b5, b6, b7; reflexivity.
Qed.

Lemma lower_lstrip (s : string) : lower (lstrip s) = lstrip (lower s).
Proof.
  induction s as [|c t IH]; cbn; [reflexivity|].
  rewrite is_space_lower_char. destruct (is_space c); [exact IH | reflexivity].
Qed.

Lemma lower_rstrip (s : string) : lower (rstrip s) = rstrip (lower s).
Proof.
  induction s as [|c t IH]; cbn; [reflexivity|].
  rewrite <- IH, is_space_lower_char.
  destruct (rstrip t); cbn; [destruct (is_space c)|]; reflexivity.
Qed.

Lemma lower_strip (s : string) : lower (strip s) = strip (lower s).
Proof.
  unfold strip. now rewrite lower_rstrip, lower_lstrip.
Qed.

Lemma contains_empty (n : string) :
  contains n EmptyString = true -> n = EmptyString.
Proof.
  destruct n; cbn; [reflexivity | discriminate].
Qed.

Lemma contains_lstrip (n s : string) :
  starts_nonspace n = true -> contains n s = true -> contains n (lstrip s) = true.
Proof.
  intros Hn. destruct n as [|a n']; [discriminate|]. cbn in Hn.
  induction s as [|c t IH]; intros H; [exact H|].
  cbn [lstrip]. destruct (is_space c) eqn:Ec; [|exact H].
  apply IH. cbn [contains prefix] in H.
  destruct (ascii_dec a c) as [->|_]; [rewrite Ec in Hn; discriminate|].
  exact H.
Qed.

Lemma rstrip_cons_nonspace (c : ascii) (t : string) :
  is_space c = false -> rstrip (String c t) = String c (rstrip t).
Proof.
  intros H. cbn. rewrite H. destruct (rstrip t); reflexivity.
Qed.

Lemma rstrip_cons_nonempty (c : ascii) (t : string) :
  rstrip t <> EmptyString -> rstrip (String c t) = String c (rstrip t).
Proof.
  intros H. cbn. destruct (rstrip t); [congruence | reflexivity].
Qed.

Lemma prefix_empty (s : string) : prefix EmptyString s = true.
Proof. now destruct s. Qed.

Lemma prefix_rstrip (n s : string) :
  ends_nonspace n = true -> prefix n s = true -> prefix n (rstrip s) = true.
Proof.
  revert s. induction n as [|a n' IH]; intros s Hn H; [discriminate|].
  destruct s as [|c t]; [discriminate|].
  cbn [prefix] in H. destruct (ascii_dec a c) as [->|_]; [|discriminate].
  destruct n' as [|b n''].
  - cbn in Hn. apply negb_true_iff in Hn.
    rewrite (rstrip_cons_nonspace _ _ Hn). cbn [prefix].
    destruct (ascii_dec c c); [apply prefix_empty | congruence].
  - assert (Hp : prefix (String b n'') (rstrip t) = true) by (apply IH; assumption).
    rewrite rstrip_cons_nonempty.
    + cbn [prefix]. destruct (ascii_dec c c); [exact Hp | congruence].
    + intros E. rewrite E in Hp. discriminate.
Qed.

Lemma prefix_contains (n s : string) : prefix n s = true -> contains n s = true.
Proof.
  intros H. destruct s; cbn [contains]; now rewrite H.
Qed.

Lemma contains_rstrip (n s : string) :
  ends_nonspace n = true -> contains n s = true -> contains n (rstrip s) = true.
Proof.
  intros Hn. induction s as [|c t IH]; intros H; [exact H|].
  cbn [contains] in H. apply orb_prop in H. destruct H as [H | H].
  - apply prefix_contains. now apply prefix_rstrip.
  - specialize (IH H).
    rewrite rstrip_cons_nonempty.
    + cbn [contains]. rewrite IH. apply orb_true_r.
    + intros E. rewrite E in IH. apply contains_empty in IH. subst. discriminate.
Qed.

Lemma contains_strip (n s : string) :
  starts_nonspace n = true -> ends_nonspace n = true ->
  contains n s = true -> contains n (strip s) = true.
Proof.
  intros H1 H2 H. unfold strip. now apply contains_rstrip, contains_lstrip.
Qed.

(** ** Project types naming REDD+ *)

Lemma project_type_score_redd_plus (s : string) :
  contains_nocase "REDD+" s = true -> _project_type_score (Some s) = fl 30.
Proof.
  unfold contains_nocase. intros H.
  unfold _project_type_score. cbv zeta.
  rewrite lower_strip.
  unfold HIGH_RISK_TYPES. cbn [existsb].
  rewrite (contains_strip (lower "REDD+") (lower s) eq_refl eq_refl H). reflexivity.
Qed.

(** ** Claims about the scorer *)

Lemma Forall2_right {A B : Type} (P : A -> B -> Prop) (Q : B -> Prop)
  (l : list A) (l' : list B) :
  (forall x y, P x y -> Q y) -> Forall2 P l l' -> Forall Q l'.
Proof.
  intros HPQ H. induction H; constructor; eauto.
Qed.

Lemma Forall2_weaken {A B : Type} (P Q : A -> B -> Prop) (l : list A) (l' : list B) :
  (forall x y, P x y -> Q x y) -> Forall2 P l l' -> Forall2 Q l l'.
Proof.
  intros HPQ H. induction H; constructor; eauto.
Qed.

(** The tier of every cqi value. *)
Lemma quality_tier_bins (q : Q) :
  cut (fl q) tier_bins tier_labels true =
  if Qlt_bool q 0 then None
  else if Qle_bool q 40 then Some Very_Low
  else if Qle_bool q 55 then Some Low
  else if Qle_bool q 70 then Some Medium
  else if Qle_bool q 85 then Some High
  else if Qle_bool q 100 then Some Very_High
  else None.
Proof.
  unfold cut, fl, tier_bins, tier_labels. cbn [searchsorted_left andb].
  destruct (Qeq_bool q 0) eqn:E0.
  - bool_to_Q. split_tests; bool_to_Q; try lra; reflexivity.
  - bool_to_Q.
    destruct (Qlt_bool 0 q) eqn:L0; destruct (Qlt_bool 40 q) eqn:L1;
    destruct (Qlt_bool 55 q) eqn:L2; destruct (Qlt_bool 70 q) eqn:L3;
    destruct (Qlt_bool 85 q) eqn:L4; destruct (Qlt_bool 100 q) eqn:L5;
    bool_to_Q; try (exfalso; lra);
    split_tests; bool_to_Q; try (exfalso; lra); reflexivity.
Qed.

Lemma scored_row_ranges (cols : list string) (ref : Timestamp) (r r' : Row) :
  scored_row cols ref r r' ->
  f_within 10 100 (vintage_score (scores r')) /\
  f_within 0 120 (retirement_ratio_score (scores r')) /\
  f_within 30 85 (project_type_score (scores r')) /\
  f_within 0 100 (transparency_score (scores r')) /\
  f_within 15 90 (additionality_score (scores r')) /\
  f_within 25 90 (governance_score (scores r')) /\
  f_within 0 100 (cqi (scores r')).
Proof.
  intros (_ & _ & Hv & Hr & Hp & Ht & Ha & Hg & Hc & _).
  destruct (vintage_score_range cols r ref) as [v [Ev Bv]].
  destruct (retirement_ratio_score_range cols r) as [t [Et Bt]].
  destruct (project_type_score_range (project_type (project r))) as [p [Ep Bp]].
  destruct (transparency_score_range cols r) as [u [Eu Bu]].
  destruct (additionality_score_range cols r ref) as [a [Ea Ba]].
  destruct (governance_score_range (country (project r))) as [g [Eg Bg]].
  rewrite Ev in Hv. rewrite Et in Hr. rewrite Ep in Hp. rewrite Eu in Ht.
  rewrite Ea in Ha. rewrite Eg in Hg.
  injection Hv as Hv. injection Hr as Hr. injection Ht as Ht. injection Ha as Ha.
  unfold weighted_total, score_cell in Hc. cbn in Hc.
  rewrite <- Hv, <- Hr, Hp, <- Ht, <- Ha, Hg in Hc.
  rewrite <- Hv, <- Hr, Hp, <- Ht, <- Ha, Hg, Hc.
  unfold f_within, fl. cbn.
  repeat split; try lra.
  all: apply Qround_digits_percent; try (right; reflexivity); lra.
Qed.

(** For every batch with the two columns that [score_all] indexes, every
    output record has its six dimension scores and its cqi within the ranges
    below; all of them lie in [0, 100] except that of the retirement ratio
    score, whose upper bound is 120. *)
Lemma score_all_ranges (today : Timestamp) (df : DataFrame)
  (reference_date : option Timestamp) :
  has_column (columns df) "project_type" = true ->
  has_column (columns df) "country" = true ->
  exists df',
    score_all today df reference_date = Ok df' /\
    Forall (fun r' =>
              f_within 10 100 (vintage_score (scores r')) /\
              f_within 0 120 (retirement_ratio_score (scores r')) /\
              f_within 30 85 (project_type_score (scores r')) /\
              f_within 0 100 (transparency_score (scores r')) /\
              f_within 15 90 (additionality_score (scores r')) /\
              f_within 25 90 (governance_score (scores r')) /\
              f_within 0 100 (cqi (scores r')))
           (rows df').
Proof.
  intros Hpt Hco.
  destruct (score_all_rows today df reference_date Hpt Hco) as [df' [E [_ H]]].
  exists df'. split; [exact E|].
  revert H. apply Forall2_right. intros r r'. apply scored_row_ranges.
Qed.

(** C1, at a record with three quarters of its credits retired: the
    retirement ratio score that [score_all] produces is 110, outside
    [0, 100]. *)
Theorem C1_retirement_ratio_score_above_100 :
  exists df' r',
    score_all 0%Z (batch_of [solar_project 4000000 3000000])
              (Some date_2024_01_01) = Ok df' /\
    rows df' = [r'] /\
    f_same (retirement_ratio_score (scores r')) (fl 110) /\
    ~ f_within 0 100 (retirement_ratio_score (scores r')).
Proof.
  eexists. eexists. split; [vm_compute; reflexivity|].
  split; [reflexivity|]. split.
  - vm_compute. reflexivity.
  - vm_compute. intros [_ H]. apply H. reflexivity.
Qed.

(** C3 fails at the sparse project: its cqi is exactly 40 and its tier is
    "Very Low", not "Low". *)
Lemma C3_counterexample_cqi_40 :
  exists df' r',
    score_all 0%Z (batch_of [sparse_project]) (Some date_2024_01_01) = Ok df' /\
    rows df' = [r'] /\
    f_same (cqi (scores r')) (fl 40) /\
    quality_tier (scores r') = Some Very_Low /\
    quality_tier (scores r') <> Some Low.
Proof.
  eexists. eexists. split; [vm_compute; reflexivity|].
  split; [reflexivity|]. split; [vm_compute; reflexivity|].
  split; [reflexivity | discriminate].
Qed.

(** C3, amended: every record whose computed cqi is exactly 40 is assigned
    the tier "Very Low": the boundary value belongs to the lower of the two
    adjacent tiers. *)
Theorem C3_cqi_40_is_very_low (today : Timestamp) (df : DataFrame)
  (reference_date : option Timestamp) :
  has_column (columns df) "project_type" = true ->
  has_column (columns df) "country" = true ->
  exists df',
    score_all today df reference_date = Ok df' /\
    Forall (fun r' =>
              f_same (cqi (scores r')) (fl 40) ->
              quality_tier (scores r') = Some Very_Low)
           (rows df').
Proof.
  intros Hpt Hco.
  destruct (score_all_rows today df reference_date Hpt Hco) as [df' [E [_ H]]].
  exists df'. split; [exact E|].
  revert H. apply Forall2_right.
  intros r r' (_ & _ & _ & _ & _ & _ & _ & _ & _ & Ht) H40.
  rewrite Ht. destruct (cqi (scores r')) as [q|]; [|contradiction].
  cbn in H40. change (Some q) with (fl q). rewrite quality_tier_bins.
  split_tests; bool_to_Q; try (exfalso; lra); reflexivity.
Qed.

Lemma C3_witness_sparse_project :
  exists df',
    score_all 0%Z (batch_of [sparse_project]) (Some date_2024_01_01) = Ok df' /\
    Forall (fun r' =>
              f_same (cqi (scores r')) (fl 40) ->
              quality_tier (scores r') = Some Very_Low)
           (rows df').
Proof.
  apply (C3_cqi_40_is_very_low 0%Z (batch_of [sparse_project])
           (Some date_2024_01_01)); reflexivity.
Defined.

(** C4, at four million credits issued: raising the retired credits from
    three to four million lowers the retirement ratio score from 110 to
    100. *)
Theorem C4_retirement_ratio_score_drops_at_80_percent :
  exists s1 s2,
    _retirement_ratio_score cleaned_columns
      (raw_row (solar_project 4000000 3000000)) = Ok (fl s1) /\
    _retirement_ratio_score cleaned_columns
      (raw_row (solar_project 4000000 4000000)) = Ok (fl s2) /\
    s1 == 110 /\ s2 == 100 /\ s2 < s1.
Proof.
  eexists. eexists. split; [vm_compute; reflexivity|].
  split; [vm_compute; reflexivity|].
  repeat split; vm_compute; reflexivity.
Qed.

(** Below a ratio of 0.80 the retirement ratio score does not decrease when
    more credits are retired. *)
Lemma retirement_ratio_score_monotone_below_80 (cols : list string) (r1 r2 : Row)
  (issued retired1 retired2 : Q) :
  row_get_or_0 cols "total_issued" (total_issued (project r1)) = fl issued ->
  row_get_or_0 cols "total_issued" (total_issued (project r2)) = fl issued ->
  row_get_or_0 cols "total_retired" (total_retired (project r1)) = fl retired1 ->
  row_get_or_0 cols "total_retired" (total_retired (project r2)) = fl retired2 ->
  0 < issued -> retired1 <= retired2 -> retired2 / issued < 0.80 ->
  exists s1 s2,
    _retirement_ratio_score cols r1 = Ok (fl s1) /\
    _retirement_ratio_score cols r2 = Ok (fl s2) /\
    s1 <= s2.
Proof.
  intros Hi1 Hi2 Hr1 Hr2 Hpos Hle H80.
  unfold _retirement_ratio_score. rewrite Hi1, Hi2, Hr1, Hr2.
  assert (Hratio : retired1 / issued <= retired2 / issued).
  { apply Qmult_le_compat_r; [assumption|]. apply Qlt_le_weak, Qinv_lt_0_compat, Hpos. }
  assert (Hnz : ~ issued == 0) by lra.
  rewrite !py_div_nonzero by exact Hnz.
  unfold_float. cbn [bind].
  revert Hratio H80. generalize (retired1 / issued), (retired2 / issued). intros a b Hab Hb.
  destruct (Qle_bool issued 0) eqn:E; bool_to_Q; [exfalso; lra|].
  split_tests; bool_to_Q; try (exfalso; lra);
    eexists; eexists; (split; [reflexivity | split; [reflexivity | lra]]).
Qed.

(** C9: of two records with a present registration date, the one of greater
    or equal registration age has the lower or equal vintage score. *)
Theorem C9_vintage_score_monotone (cols1 cols2 : list string) (r1 r2 : Row)
  (ref1 ref2 d1 d2 : Timestamp) :
  row_get cols1 "registration_date" (registration_date (project r1)) = Some d1 ->
  row_get cols2 "registration_date" (registration_date (project r2)) = Some d2 ->
  age_years ref1 d1 <= age_years ref2 d2 ->
  exists v1 v2,
    _vintage_score cols1 r1 ref1 = Ok (fl v1) /\
    _vintage_score cols2 r2 ref2 = Ok (fl v2) /\
    v2 <= v1.
Proof.
  intros H1 H2 Hage. unfold _vintage_score. rewrite H1, H2.
  rewrite !py_div_nonzero by apply days_per_year_nonzero.
  cbn [bind f_lift2 fl]. fold (age_years ref1 d1). fold (age_years ref2 d2).
  revert Hage. generalize (age_years ref1 d1), (age_years ref2 d2). intros a b Hab.
  unfold_float.
  split_tests; bool_to_Q; try (exfalso; lra);
    eexists; eexists; (split; [reflexivity | split; [reflexivity | lra]]).
Qed.

Lemma C9_witness_two_solar_projects :
  exists v1 v2,
    _vintage_score cleaned_columns (raw_row (solar_project 4000000 3000000))
      date_2024_01_01 = Ok (fl v1) /\
    _vintage_score cleaned_columns (raw_row (solar_project 4000000 3000000))
      date_2041_01_01 = Ok (fl v2) /\
    v2 <= v1.
Proof.
  apply (C9_vintage_score_monotone cleaned_columns cleaned_columns
           (raw_row (solar_project 4000000 3000000))
           (raw_row (solar_project 4000000 3000000))
           date_2024_01_01 date_2041_01_01 date_2022_01_01 date_2022_01_01).
  - reflexivity.
  - reflexivity.
  - vm_compute. discriminate.
Defined.

Lemma dict_get_unknown {V : Type} (d : list (string * V)) (key : string) (default : V) :
  dict_find d key = None -> dict_get d key default = default.
Proof.
  induction d as [|[k v] t IH]; cbn; [reflexivity|].
  destruct (String.eqb key k); [discriminate | exact IH].
Qed.

Lemma governance_score_unknown (c : string) :
  dict_find COUNTRY_GOVERNANCE_SCORE (strip c) = None ->
  f_same (_governance_score (Some c)) (fl 50).
Proof.
  intros H. unfold _governance_score. cbv zeta.
  rewrite (dict_get_unknown _ _ _ H). vm_compute. reflexivity.
Qed.

(** [score_all] indexes the columns project_type and country directly: a
    batch without one of them is rejected as a whole. *)
Lemma score_all_without_project_type (today : Timestamp) (df : DataFrame)
  (reference_date : option Timestamp) :
  has_column (columns df) "project_type" = false ->
  score_all today df reference_date = Raise (KeyError "project_type").
Proof.
  intros Hpt. unfold score_all.
  destruct df as [cols rs dt]. cbn [rows columns] in *.
  step_total. step_total.
  unfold getitem at 1. cbn [columns].
  rewrite !has_column_add_column, Hpt. reflexivity.
Qed.

Lemma score_all_without_country (today : Timestamp) (df : DataFrame)
  (reference_date : option Timestamp) :
  has_column (columns df) "project_type" = true ->
  has_column (columns df) "country" = false ->
  score_all today df reference_date = Raise (KeyError "country").
Proof.
  intros Hpt Hco. unfold score_all.
  destruct df as [cols rs dt]. cbn [rows columns] in *.
  step_total. step_total.
  rewrite getitem_ok by (cbn [columns]; column_eq; now rewrite Hpt).
  rewrite bind_ok. cbn [rows columns]. rewrite !map_map, setitem_rows.
  step_total. step_total.
  unfold getitem at 1. cbn [columns].
  rewrite !has_column_add_column, Hco. reflexivity.
Qed.

(** The neutral defaults of the dimension scoring methods, on any row
    under any column index. *)
Lemma scoring_methods_default (cols : list string) (row : Row) (ref : Timestamp) :
  (row_get cols "registration_date" (registration_date (project row)) = None ->
   _vintage_score cols row ref = Ok (fl 50)) /\
  (forall i, row_get_or_0 cols "total_issued" (total_issued (project row)) = fl i ->
             i <= 0 -> _retirement_ratio_score cols row = Ok (fl 50)) /\
  (row_get cols "registration_date" (registration_date (project row)) = None \/
   row_get cols "crediting_period_start" (crediting_period_start (project row)) = None ->
   _additionality_score cols row ref = Ok (fl 50)).
Proof.
  repeat split.
  - intros H. unfold _vintage_score. now rewrite H.
  - intros i Hi Hle. unfold _retirement_ratio_score. rewrite Hi.
    unfold f_le, f_cmp, fl. apply Qle_bool_iff in Hle. now rewrite Hle.
  - intros H. unfold _additionality_score.
    destruct H as [H | H]; rewrite H; [reflexivity|].
    now destruct (row_get cols "registration_date" _).
Qed.

(** The dimension scoring methods raise on no row. *)
Lemma scoring_methods_total (cols : list string) (row : Row) (ref : Timestamp) :
  (exists v, _vintage_score cols row ref = Ok v) /\
  (exists v, _retirement_ratio_score cols row = Ok v) /\
  (exists v, _transparency_score cols row = Ok v) /\
  (exists v, _additionality_score cols row ref = Ok v).
Proof.
  destruct (vintage_score_range cols row ref) as [v [Ev _]].
  destruct (retirement_ratio_score_range cols row) as [t [Et _]].
  destruct (transparency_score_range cols row) as [u [Eu _]].
  destruct (additionality_score_range cols row ref) as [a [Ea _]].
  repeat split; eauto.
Qed.

(** C8: [score_all] rejects a batch that lacks the column project_type or
    the column country with a KeyError, where the claim promises the neutral
    50 for an absent project type or country and where the same batch
    without its registration_date column is scored, with the neutral 50 as
    vintage and additionality score; and a record whose issuance is missing
    gets the retirement ratio score 0, not the neutral 50. *)
Theorem C8_score_all_key_error_on_absent_column :
  let batch := batch_of [forest_project "REDD+"; solar_project 4000000 3000000] in
  score_all 0%Z (drop_column "project_type" batch) (Some date_2024_01_01) =
    Raise (KeyError "project_type") /\
  score_all 0%Z (drop_column "country" batch) (Some date_2024_01_01) =
    Raise (KeyError "country") /\
  (exists df',
     score_all 0%Z (drop_column "registration_date" batch) (Some date_2024_01_01) =
       Ok df' /\
     Forall (fun r' => vintage_score (scores r') = fl 50 /\
                       additionality_score (scores r') = fl 50)
            (rows df')) /\
  _retirement_ratio_score cleaned_columns (raw_row unknown_issuance_project) =
    Ok (fl 0).
Proof.
  cbv zeta. split; [|split; [|split]].
  - apply score_all_without_project_type. reflexivity.
  - apply score_all_without_country; reflexivity.
  - eexists. split; [vm_compute; reflexivity|].
    repeat constructor.
  - reflexivity.
Qed.

Lemma has_column_scored (cols : list string) (c : string) :
  has_column cols c = true -> has_column (scored_columns cols) c = true.
Proof.
  intros H. unfold scored_columns. cbn [fold_left].
  rewrite !has_column_add_column, H. reflexivity.
Qed.

Lemma Forall2_map_right {A B C : Type} (P : A -> C -> Prop) (f : B -> C)
  (l : list A) (l' : list B) :
  Forall2 (fun a b => P a (f b)) l l' -> Forall2 P l (map f l').
Proof.
  intros H. induction H; cbn; constructor; assumption.
Qed.

(** C2: a project of type "REDD" is flagged REDD_CONTROVERSY, which the
    catalogue labels "REDD+ Controversy Risk", and the cleaner's table maps
    its type to "REDD+"; yet its project type score is 85, not 30: the
    high-risk table of the scorer holds the name "REDD+" only. *)
Theorem C2_redd_type_flagged_but_scored_85 :
  exists df1 df2 r1 r2,
    score_all 0%Z (batch_of [forest_project "REDD"]) (Some date_2024_01_01) = Ok df1 /\
    detect date_2024_01_01 thirty_day_months df1 = Ok df2 /\
    rows df1 = [r1] /\ rows df2 = [r2] /\
    contains_nocase "REDD" "REDD" = true /\
    In "REDD_CONTROVERSY"%string (flags (flagging r2)) /\
    option_map label (dict_find FLAG_CATALOGUE "REDD_CONTROVERSY") =
      Some "REDD+ Controversy Risk"%string /\
    _canonicalize_type (Some "REDD"%string) = "REDD+"%string /\
    f_same (project_type_score (scores r1)) (fl 85) /\
    project_type_score (scores r1) <> fl 30.
Proof.
  eexists. eexists. eexists. eexists.
  split; [vm_compute; reflexivity|].
  split; [vm_compute; reflexivity|].
  split; [reflexivity|]. split; [reflexivity|].
  split; [reflexivity|]. split; [now left|].
  split; [reflexivity|]. split; [reflexivity|].
  split; [vm_compute; reflexivity | discriminate].
Qed.
(* ================================================================== *)
(** * Further properties                                                *)
(* ================================================================== *)

(** ** The scorer *)

Lemma Forall2_length_eq {A B : Type} (P : A -> B -> Prop) (l : list A) (l' : list B) :
  Forall2 P l l' -> List.length l = List.length l'.
Proof.
  intros H. induction H; cbn; congruence.
Qed.

Lemma scored_row_cqi_range (cols : list string) (ref : Timestamp) (r r' : Row) :
  scored_row cols ref r r' -> f_within 12.75 98.5 (cqi (scores r')).
Proof.
  intros (_ & _ & Hv & Hr & Hp & Ht & Ha & Hg & Hc & _).
  destruct (vintage_score_range cols r ref) as [v [Ev Bv]].
  destruct (retirement_ratio_score_range cols r) as [t [Et Bt]].
  destruct (project_type_score_range (project_type (project r))) as [p [Ep Bp]].
  destruct (transparency_score_range cols r) as [u [Eu Bu]].
  destruct (additionality_score_range cols r ref) as [a [Ea Ba]].
  destruct (governance_score_range (country (project r))) as [g [Eg Bg]].
  rewrite Ev in Hv. rewrite Et in Hr. rewrite Ep in Hp. rewrite Eu in Ht.
  rewrite Ea in Ha. rewrite Eg in Hg.
  injection Hv as Hv. injection Hr as Hr. injection Ht as Ht. injection Ha as Ha.
  unfold weighted_total, score_cell in Hc. cbn in Hc.
  rewrite <- Hv, <- Hr, Hp, <- Ht, <- Ha, Hg in Hc.
  rewrite Hc. unfold f_within, fl. cbn.
  match goal with |- _ <= Qround_digits ?x 2 <= _ =>
    pose proof (Qround_digits_bounds x 2 100 1275 9850 eq_refl) as H
  end.
  change (inject_Z 1275) with 1275 in H. change (inject_Z 9850) with 9850 in H.
  lra.
Qed.

(** X1: for every batch that has the columns project_type and country,
    [score_all] returns, and in every output record the vintage score lies
    in [10, 100], the retirement ratio score in [0, 120], the project type
    score in [30, 85], the transparency score in [0, 100], the additionality
    score in [15, 90], the governance score in [25, 90] and the cqi in
    [12.75, 98.5]. *)
Theorem X1_score_ranges (today : Timestamp) (df : DataFrame)
  (reference_date : option Timestamp) :
  has_column (columns df) "project_type" = true ->
  has_column (columns df) "country" = true ->
  exists df',
    score_all today df reference_date = Ok df' /\
    Forall (fun r' =>
              let s := scores r' in
              f_within 10 100 (vintage_score s) /\
              f_within 0 120 (retirement_ratio_score s) /\
              f_within 30 85 (project_type_score s) /\
              f_within 0 100 (transparency_score s) /\
              f_within 15 90 (additionality_score s) /\
              f_within 25 90 (governance_score s) /\
              f_within 12.75 98.5 (cqi s))
           (rows df').
Proof.
  intros Hpt Hco.
  destruct (score_all_rows today df reference_date Hpt Hco) as [df' [E [_ H]]].
  exists df'. split; [exact E|].
  revert H. apply Forall2_right. intros r r' Hrow.
  pose proof (scored_row_ranges _ _ _ _ Hrow) as (Hv & Hr & Hp & Ht & Ha & Hg & _).
  pose proof (scored_row_cqi_range _ _ _ _ Hrow) as Hc.
  cbv zeta. repeat split; try apply Hv; try apply Hr; try apply Hp; try apply Ht;
    try apply Ha; try apply Hg; try apply Hc.
Qed.

Lemma X1_witness_sample_batch :
  exists df',
    score_all 0%Z (batch_of [sparse_project; solar_project 4000000 3000000])
              (Some date_2024_01_01) = Ok df' /\
    Forall (fun r' =>
              let s := scores r' in
              f_within 10 100 (vintage_score s) /\
              f_within 0 120 (retirement_ratio_score s) /\
              f_within 30 85 (project_type_score s) /\
              f_within 0 100 (transparency_score s) /\
              f_within 15 90 (additionality_score s) /\
              f_within 25 90 (governance_score s) /\
              f_within 12.75 98.5 (cqi s))
           (rows df').
Proof.
  apply (X1_score_ranges 0%Z
           (batch_of [sparse_project; solar_project 4000000 3000000])
           (Some date_2024_01_01)); reflexivity.
Defined.

(** X2: every record that [score_all] outputs is assigned a quality tier,
    and the tier is read off the cqi by the inclusive upper edges 40, 55, 70
    and 85. *)
Theorem X2_quality_tier_assigned (today : Timestamp) (df : DataFrame)
  (reference_date : option Timestamp) :
  has_column (columns df) "project_type" = true ->
  has_column (columns df) "country" = true ->
  exists df',
    score_all today df reference_date = Ok df' /\
    Forall (fun r' =>
              exists q,
                cqi (scores r') = fl q /\
                quality_tier (scores r') =
                  Some (if Qle_bool q 40 then Very_Low
                        else if Qle_bool q 55 then Low
                        else if Qle_bool q 70 then Medium
                        else if Qle_bool q 85 then High
                        else Very_High))
           (rows df').
Proof.
  intros Hpt Hco.
  destruct (score_all_rows today df reference_date Hpt Hco) as [df' [E [_ H]]].
  exists df'. split; [exact E|].
  revert H. apply Forall2_right. intros r r' Hrow.
  pose proof (scored_row_cqi_range _ _ _ _ Hrow) as Hc.
  destruct Hrow as (_ & _ & _ & _ & _ & _ & _ & _ & _ & Ht).
  destruct (cqi (scores r')) as [q|] eqn:Eq; [|contradiction].
  exists q. split; [reflexivity|].
  rewrite Ht. change (Some q) with (fl q). rewrite quality_tier_bins.
  cbn in Hc.
  split_tests; bool_to_Q; try (exfalso; lra); reflexivity.
Qed.

Lemma X2_witness_sample_batch :
  exists df',
    score_all 0%Z (batch_of [sparse_project; solar_project 4000000 3000000])
              (Some date_2024_01_01) = Ok df' /\
    Forall (fun r' =>
              exists q,
                cqi (scores r') = fl q /\
                quality_tier (scores r') =
                  Some (if Qle_bool q 40 then Very_Low
                        else if Qle_bool q 55 then Low
                        else if Qle_bool q 70 then Medium
                        else if Qle_bool q 85 then High
                        else Very_High))
           (rows df').
Proof.
  apply (X2_quality_tier_assigned 0%Z
           (batch_of [sparse_project; solar_project 4000000 3000000])
           (Some date_2024_01_01)); reflexivity.
Defined.

(** X3: [score_all] returns exactly on the batches that have both the
    column project_type and the column country; otherwise it raises KeyError
    for project_type when that column is absent, and for country when only
    that one is. *)
Theorem X3_score_all_key_errors (today : Timestamp) (df : DataFrame)
  (reference_date : option Timestamp) :
  match score_all today df reference_date with
  | Ok _ =>
      has_column (columns df) "project_type" = true /\
      has_column (columns df) "country" = true
  | Raise e =>
      (has_column (columns df) "project_type" = false /\
       e = KeyError "project_type") \/
      (has_column (columns df) "project_type" = true /\
       has_column (columns df) "country" = false /\
       e = KeyError "country")
  end.
Proof.
  destruct (has_column (columns df) "project_type") eqn:Hpt.
  - destruct (has_column (columns df) "country") eqn:Hco.
    + destruct (score_all_rows today df reference_date Hpt Hco) as [df' [E _]].
      rewrite E. now split.
    + rewrite (score_all_without_country today df reference_date Hpt Hco).
      right. repeat split.
  - rewrite (score_all_without_project_type today df reference_date Hpt).
    left. now split.
Qed.

Lemma add_column_present (c : string) (cols : list string) :
  has_column cols c = true -> add_column c cols = cols.
Proof.
  intros H. unfold add_column. now rewrite H.
Qed.

Lemma has_column_scored_columns (cols : list string) (c : string) :
  has_column (scored_columns cols) c =
  has_column cols c ||
  list_mem c [ "vintage_score"; "retirement_ratio_score"; "project_type_score";
               "transparency_score"; "additionality_score"; "governance_score";
               "cqi"; "quality_tier" ]%string.
Proof.
  unfold scored_columns. cbn [fold_left]. rewrite !has_column_add_column.
  unfold list_mem. cbn [existsb].
  rewrite orb_false_r, !orb_assoc. reflexivity.
Qed.

Lemma scored_columns_idempotent (cols : list string) :
  scored_columns (scored_columns cols) = scored_columns cols.
Proof.
  set (cs := scored_columns cols).
  assert (H : forall c,
             list_mem c [ "vintage_score"; "retirement_ratio_score";
                          "project_type_score"; "transparency_score";
                          "additionality_score"; "governance_score";
                          "cqi"; "quality_tier" ]%string = true ->
             has_column cs c = true).
  { intros c Hc. unfold cs. rewrite has_column_scored_columns, Hc. apply orb_true_r. }
  unfold scored_columns at 1. cbn [fold_left].
  rewrite (add_column_present "vintage_score" cs) by (apply H; reflexivity).
  rewrite (add_column_present "retirement_ratio_score" cs) by (apply H; reflexivity).
  rewrite (add_column_present "project_type_score" cs) by (apply H; reflexivity).
  rewrite (add_column_present "transparency_score" cs) by (apply H; reflexivity).
  rewrite (add_column_present "additionality_score" cs) by (apply H; reflexivity).
  rewrite (add_column_present "governance_score" cs) by (apply H; reflexivity).
  rewrite (add_column_present "cqi" cs) by (apply H; reflexivity).
  rewrite (add_column_present "quality_tier" cs) by (apply H; reflexivity).
  reflexivity.
Qed.

(** The cells that [score_all] writes are determined by the project cells
    and by the presence of the input columns. *)
Lemma scored_row_rescored (cols cols' : list string) (ref : Timestamp)
  (r r1 r2 : Row) :
  (forall c, In c [ "registration_date"; "total_issued"; "total_retired";
                    "proponent"; "region"; "crediting_period_start";
                    "crediting_period_end"; "estimated_annual_reductions";
                    "total_buffer_pool" ]%string ->
             has_column cols' c = has_column cols c) ->
  scored_row cols ref r r1 -> scored_row cols' ref r1 r2 -> r2 = r1.
Proof.
  intros Hcols (Hp1 & Hf1 & Hv1 & Hr1 & Ht1 & Hu1 & Ha1 & Hg1 & Hc1 & Hq1)
               (Hp2 & Hf2 & Hv2 & Hr2 & Ht2 & Hu2 & Ha2 & Hg2 & Hc2 & Hq2).
  rewrite (_vintage_score_ext cols cols' r r1 Hp1) in Hv2
    by (apply Hcols; cbn; tauto).
  rewrite (_retirement_ratio_score_ext cols cols' r r1 Hp1) in Hr2
    by (apply Hcols; cbn; tauto).
  rewrite (_transparency_score_ext cols cols' r r1 Hp1) in Hu2
    by (intros c Hc; apply Hcols; cbn in *; tauto).
  rewrite (_additionality_score_ext cols cols' r r1 Hp1) in Ha2
    by (apply Hcols; cbn; tauto).
  rewrite Hp1 in Ht2, Hg2.
  rewrite Hv1 in Hv2. rewrite Hr1 in Hr2. rewrite Hu1 in Hu2. rewrite Ha1 in Ha2.
  injection Hv2 as Hv2. injection Hr2 as Hr2. injection Hu2 as Hu2.
  injection Ha2 as Ha2.
  rewrite <- Ht1 in Ht2. rewrite <- Hg1 in Hg2.
  assert (Hw : weighted_total r2 = weighted_total r1).
  { unfold weighted_total, score_cell. cbn.
    now rewrite <- Hv2, <- Hr2, Ht2, <- Hu2, <- Ha2, Hg2. }
  rewrite Hw, <- Hc1 in Hc2. rewrite Hc2, <- Hq1 in Hq2.
  destruct r1 as [p1 s1 g1], r2 as [p2 s2 g2]. cbn in *. subst p2 g2.
  f_equal.
  destruct s1, s2. cbn in *. congruence.
Qed.

Lemma Forall2_chain_eq {A B : Type} (P : A -> B -> Prop) (Q : B -> B -> Prop)
  (l : list A) (l1 l2 : list B) :
  (forall a b c, P a b -> Q b c -> c = b) ->
  Forall2 P l l1 -> Forall2 Q l1 l2 -> l2 = l1.
Proof.
  intros H H1. revert l2. induction H1 as [|a b l l1 Hab _ IH]; intros l2 H2.
  - now inversion H2.
  - inversion H2 as [|? c ? l2' Hbc H2']; subst.
    f_equal; [eapply H; eassumption | now apply IH].
Qed.

(** X4: [score_all] keeps the records, their order, their project cells and
    their flag cells, and extends the column index by the eight score
    columns only; scoring its own output again changes nothing. *)
Theorem X4_score_all_idempotent (today : Timestamp) (df : DataFrame)
  (reference_date : option Timestamp) :
  has_column (columns df) "project_type" = true ->
  has_column (columns df) "country" = true ->
  exists df',
    score_all today df reference_date = Ok df' /\
    columns df' = scored_columns (columns df) /\
    Forall2 (fun r r' => project r' = project r /\ flagging r' = flagging r)
            (rows df) (rows df') /\
    score_all today df' reference_date = Ok df'.
Proof.
  intros Hpt Hco.
  destruct (score_all_rows today df reference_date Hpt Hco) as [df1 [E1 [C1 H1]]].
  exists df1. split; [exact E1|]. split; [exact C1|]. split.
  { revert H1. apply Forall2_weaken. intros r r' (Hp & Hf & _). now split. }
  destruct (score_all_frame today df1 reference_date) as [df2 [E2 [C2 [D2 H2]]]].
  { rewrite C1. now apply has_column_scored. }
  { rewrite C1. now apply has_column_scored. }
  rewrite E2. f_equal.
  destruct df1 as [cols1 rows1 dt1], df2 as [cols2 rows2 dt2].
  cbn [columns rows project_type_dtype] in *.
  f_equal; [| |exact D2].
  - rewrite C2, C1. apply scored_columns_idempotent.
  - assert (Hraw : forall c,
               In c [ "registration_date"; "total_issued"; "total_retired";
                      "proponent"; "region"; "crediting_period_start";
                      "crediting_period_end"; "estimated_annual_reductions";
                      "total_buffer_pool" ]%string ->
               has_column cols1 c = has_column (columns df) c).
    { intros c Hc. rewrite C1, has_column_scored_columns.
      cbn [In] in Hc.
      repeat (destruct Hc as [<- | Hc]; [apply orb_false_r|]). contradiction. }
    refine (Forall2_chain_eq _ _ _ _ _ _ H1 H2).
    intros a b c Hab Hbc.
    exact (scored_row_rescored (columns df) cols1 _ a b c Hraw Hab Hbc).
Qed.

Lemma X4_witness_sample_batch :
  exists df',
    score_all 0%Z (batch_of [sparse_project; forest_project "REDD+"]) None = Ok df' /\
    columns df' = scored_columns (columns (batch_of [sparse_project; forest_project "REDD+"])) /\
    Forall2 (fun r r' => project r' = project r /\ flagging r' = flagging r)
            (rows (batch_of [sparse_project; forest_project "REDD+"])) (rows df') /\
    score_all 0%Z df' None = Ok df'.
Proof.
  apply (X4_score_all_idempotent 0%Z
           (batch_of [sparse_project; forest_project "REDD+"]) None); reflexivity.
Defined.

(** X5: with the issuance fixed and positive, retiring more credits does
    not lower the retirement ratio score, except when the ratio moves from
    above 0.70 and below 0.80 to 0.80 or more. *)
Theorem X5_retirement_ratio_score_monotone_off_threshold (cols : list string)
  (r1 r2 : Row) (issued retired1 retired2 : Q) :
  row_get_or_0 cols "total_issued" (total_issued (project r1)) = fl issued ->
  row_get_or_0 cols "total_issued" (total_issued (project r2)) = fl issued ->
  row_get_or_0 cols "total_retired" (total_retired (project r1)) = fl retired1 ->
  row_get_or_0 cols "total_retired" (total_retired (project r2)) = fl retired2 ->
  0 < issued -> retired1 <= retired2 ->
  retired1 / issued <= 0.70 \/ retired2 / issued < 0.80 \/ 0.80 <= retired1 / issued ->
  exists s1 s2,
    _retirement_ratio_score cols r1 = Ok (fl s1) /\
    _retirement_ratio_score cols r2 = Ok (fl s2) /\
    s1 <= s2.
Proof.
  intros Hi1 Hi2 Hr1 Hr2 Hpos Hle Hoff.
  unfold _retirement_ratio_score. rewrite Hi1, Hi2, Hr1, Hr2.
  assert (Hratio : retired1 / issued <= retired2 / issued).
  { apply Qmult_le_compat_r; [assumption|]. apply Qlt_le_weak, Qinv_lt_0_compat, Hpos. }
  assert (Hnz : ~ issued == 0) by lra.
  rewrite !py_div_nonzero by exact Hnz.
  unfold_float. cbn [bind].
  revert Hratio Hoff. generalize (retired1 / issued), (retired2 / issued).
  intros a b Hab Hoff.
  destruct (Qle_bool issued 0) eqn:E; bool_to_Q; [exfalso; lra|].
  split_tests; bool_to_Q; try (exfalso; lra);
    eexists; eexists; (split; [reflexivity | split; [reflexivity | lra]]).
Qed.

Lemma X5_witness_half_to_full :
  exists s1 s2,
    _retirement_ratio_score cleaned_columns
      (raw_row (solar_project 4000000 2000000)) = Ok (fl s1) /\
    _retirement_ratio_score cleaned_columns
      (raw_row (solar_project 4000000 4000000)) = Ok (fl s2) /\
    s1 <= s2.
Proof.
  apply (X5_retirement_ratio_score_monotone_off_threshold cleaned_columns
           (raw_row (solar_project 4000000 2000000))
           (raw_row (solar_project 4000000 4000000))
           4000000 2000000 4000000).
  - reflexivity.
  - reflexivity.
  - reflexivity.
  - reflexivity.
  - reflexivity.
  - vm_compute. discriminate.
  - left. vm_compute. discriminate.
Defined.

(** X6: of two records with both dates present, the one with the greater
    or equal lag between crediting period start and registration has the
    lower or equal additionality score. *)
Theorem X6_additionality_score_monotone (cols1 cols2 : list string) (r1 r2 : Row)
  (ref1 ref2 reg1 reg2 cp1 cp2 : Timestamp) :
  row_get cols1 "registration_date" (registration_date (project r1)) = Some reg1 ->
  row_get cols1 "crediting_period_start"
          (crediting_period_start (project r1)) = Some cp1 ->
  row_get cols2 "registration_date" (registration_date (project r2)) = Some reg2 ->
  row_get cols2 "crediting_period_start"
          (crediting_period_start (project r2)) = Some cp2 ->
  lag_years reg1 cp1 <= lag_years reg2 cp2 ->
  exists a1 a2,
    _additionality_score cols1 r1 ref1 = Ok (fl a1) /\
    _additionality_score cols2 r2 ref2 = Ok (fl a2) /\
    a2 <= a1.
Proof.
  intros Hr1 Hc1 Hr2 Hc2 Hlag. unfold _additionality_score.
  rewrite Hr1, Hc1, Hr2, Hc2.
  rewrite !py_div_nonzero by apply days_per_year_nonzero.
  cbn [bind f_lift2 fl]. fold (lag_years reg1 cp1). fold (lag_years reg2 cp2).
  revert Hlag. generalize (lag_years reg1 cp1), (lag_years reg2 cp2). intros a b Hab.
  unfold_float.
  split_tests; bool_to_Q; try (exfalso; lra);
    eexists; eexists; (split; [reflexivity | split; [reflexivity | lra]]).
Qed.

Lemma X6_witness_two_lags :
  exists a1 a2,
    _additionality_score cleaned_columns
      (raw_row (solar_project 4000000 2000000)) 0%Z = Ok (fl a1) /\
    _additionality_score cleaned_columns
      (raw_row late_registered_project) 0%Z = Ok (fl a2) /\
    a2 <= a1.
Proof.
  apply (X6_additionality_score_monotone cleaned_columns cleaned_columns
           (raw_row (solar_project 4000000 2000000))
           (raw_row late_registered_project)
           0%Z 0%Z date_2022_01_01 date_2022_01_01 (day 18628) (day 15000)).
  - reflexivity.
  - reflexivity.
  - reflexivity.
  - reflexivity.
  - vm_compute. discriminate.
Defined.
(** ** The detector *)

Lemma subsequence_tail (a : string) (l1 l2 : list string) :
  subsequence (a :: l1) l2 = true -> subsequence l1 l2 = true.
Proof.
  revert a l1. induction l2 as [|y t IH]; intros a l1 H; [discriminate|].
  cbn [subsequence] in H.
  destruct l1 as [|b l1']; [reflexivity|].
  cbn [subsequence].
  destruct (String.eqb a y).
  - destruct (String.eqb b y); [now apply IH in H | exact H].
  - apply IH in H. destruct (String.eqb b y); [now apply IH in H | exact H].
Qed.

Lemma subsequence_filter {V : Type} (p : string * V -> bool) (l : list (string * V)) :
  subsequence (map fst (filter p l)) (map fst l) = true.
Proof.
  induction l as [|x t IH]; [reflexivity|].
  cbn [filter]. destruct (p x); cbn [map subsequence].
  - now rewrite String.eqb_refl.
  - destruct (map fst (filter p t)) as [|a l1] eqn:E; [reflexivity|].
    destruct (String.eqb a (fst x)); [now apply subsequence_tail in IH | exact IH].
Qed.

Lemma subsequence_length (l1 l2 : list string) :
  subsequence l1 l2 = true -> (List.length l1 <= List.length l2)%nat.
Proof.
  revert l1. induction l2 as [|y t IH]; intros l1 H.
  - destruct l1; [cbn; lia | discriminate].
  - destruct l1 as [|x l1']; [cbn; lia|].
    cbn [subsequence] in H. cbn [List.length].
    destruct (String.eqb x y).
    + apply IH in H. lia.
    + apply IH in H. cbn [List.length] in H. lia.
Qed.

(** The flags that a run of rules with distinct codes adds, in order. *)
Lemma run_rules_flags_exact (rules : list (string * (Row -> bool))) (r : Row) :
  NoDup (map fst rules) ->
  Forall (fun rule => reads_inputs (snd rule)) rules ->
  (forall c, In c (map fst rules) -> ~ In c (flags (flagging r))) ->
  flags (flagging (run_rules rules r)) =
  (flags (flagging r) ++ map fst (filter (fun rule => snd rule r) rules))%list.
Proof.
  revert r. induction rules as [|[code test] t IH]; intros r Hnd Hst Hnew.
  - cbn. now rewrite app_nil_r.
  - rewrite run_rules_cons. cbn [fst snd].
    inversion Hnd as [|? ? Hcode Hnd']; subst.
    inversion Hst as [|? ? Htest Hst']; subst.
    destruct (flag_rule_inputs code test r) as [Hp Hs].
    rewrite IH; [|assumption|assumption|].
    + assert (Hfilter : filter (fun rule => snd rule (flag_rule code test r)) t =
                        filter (fun rule => snd rule r) t).
      { apply filter_ext_in. intros rule Hin.
        rewrite Forall_forall in Hst'. now apply (Hst' rule Hin). }
      rewrite Hfilter. cbn [filter snd].
      unfold flag_rule. destruct (test r) eqn:Et; [|reflexivity].
      cbn [set_flags with_flagging flagging flags].
      destruct (list_mem code (flags (flagging r))) eqn:Em.
      * apply list_mem_In in Em. exfalso. apply (Hnew code); [now left | exact Em].
      * cbn [negb map fst]. now rewrite <- app_assoc.
    + intros c Hc Hin. apply flag_rule_flags in Hin.
      destruct Hin as [Hin | [-> _]].
      * apply (Hnew c); [now right | exact Hin].
      * contradiction.
Qed.

Lemma flag_rules_codes (cols : list string) (threshold : Timestamp) :
  map fst (flag_rules cols threshold) = map fst FLAG_CATALOGUE.
Proof. reflexivity. Qed.

Lemma catalogue_codes_NoDup : NoDup (map fst FLAG_CATALOGUE).
Proof.
  cbn. repeat constructor; cbn; intuition discriminate.
Qed.

Lemma flagged_row_flags_exact (cols : list string) (threshold : Timestamp) (r : Row) :
  flags (flagging (flagged_row cols threshold r)) =
  map fst (filter (fun rule => snd rule r) (flag_rules cols threshold)).
Proof.
  rewrite flagged_row_flags, run_rules_flags_exact.
  - reflexivity.
  - rewrite flag_rules_codes. apply catalogue_codes_NoDup.
  - apply flag_rules_read_inputs.
  - intros c _ [].
Qed.

Lemma flagged_row_eta (cols : list string) (threshold : Timestamp) (r : Row) :
  flagged_row cols threshold r =
  let fs := flags (flagging (flagged_row cols threshold r)) in
  {| project := project r;
     scores := scores r;
     flagging := {| flags := fs;
                    flag_count := Z.of_nat (List.length fs);
                    max_severity := value_of ""%string (_max_severity fs) |} |}.
Proof.
  destruct (flagged_row_inputs cols threshold r) as [Hp Hs].
  cbv zeta. rewrite <- Hp, <- Hs. reflexivity.
Qed.

(** X7: [detect] raises exactly on a batch whose project_type column does
    not hold text, and then the AttributeError of the [.str] accessor.  On
    every other batch it returns: it keeps the records, their order, their
    project cells and their score cells, and appends the columns flags,
    flag_count and max_severity.  The flags of a record are catalogue codes
    in catalogue order, each at most once, and flag_count is their number,
    at most nine. *)
Theorem X7_detect_shape (now : Timestamp)
  (date_offset_months : Z -> Timestamp -> Timestamp) (df : DataFrame) :
  match detect now date_offset_months df with
  | Raise e => text_typed df = false /\ e = AttributeError
  | Ok df' =>
      text_typed df = true /\
      columns df' =
        add_column "max_severity"
          (add_column "flag_count" (add_column "flags" (columns df))) /\
      Forall2 (fun r r' =>
                 project r' = project r /\
                 scores r' = scores r /\
                 subsequence (flags (flagging r')) (map fst FLAG_CATALOGUE) = true /\
                 flag_count (flagging r') =
                   Z.of_nat (List.length (flags (flagging r'))) /\
                 (0 <= flag_count (flagging r') <= 9)%Z)
              (rows df) (rows df')
  end.
Proof.
  destruct (text_typed df) eqn:Htext.
  2: { rewrite detect_raises by exact Htext. now split. }
  rewrite detect_rows by exact Htext.
  split; [reflexivity|]. split; [reflexivity|].
  cbn [rows]. apply Forall2_map_r. intros r _.
  set (cols := add_column "flags" (columns df)).
  set (thr := date_offset_months 12%Z now).
  destruct (flagged_row_inputs cols thr r) as [Hp Hs].
  assert (Hsub : subsequence (flags (flagging (flagged_row cols thr r)))
                             (map fst FLAG_CATALOGUE) = true).
  { rewrite flagged_row_flags_exact, <- (flag_rules_codes cols thr).
    apply subsequence_filter. }
  assert (Hcount : flag_count (flagging (flagged_row cols thr r)) =
                   Z.of_nat (List.length (flags (flagging (flagged_row cols thr r)))))
    by reflexivity.
  repeat split; try assumption.
  - rewrite Hcount. lia.
  - rewrite Hcount. apply subsequence_length in Hsub.
    change (List.length (map fst FLAG_CATALOGUE)) with 9%nat in Hsub. lia.
Qed.

(** What [detect] writes into a row depends on the project and score cells
    and on the presence of the columns that the rules read. *)
Lemma flagged_row_determined (cols1 cols2 : list string) (threshold : Timestamp)
  (r1 r2 : Row) :
  project r1 = project r2 -> scores r1 = scores r2 ->
  (forall c, In c (map snd rule_columns) -> has_column cols1 c = has_column cols2 c) ->
  flagged_row cols1 threshold r1 = flagged_row cols2 threshold r2.
Proof.
  intros Hp Hs Hcols.
  assert (Hfs : flags (flagging (flagged_row cols1 threshold r1)) =
                flags (flagging (flagged_row cols2 threshold r2))).
  { rewrite !flagged_row_flags_exact. unfold flag_rules. cbn [filter snd].
    rewrite Hp, Hs.
    rewrite !(Hcols "vintage_score"%string), !(Hcols "total_retired"%string),
            !(Hcols "total_issued"%string), !(Hcols "project_type"%string),
            !(Hcols "additionality_score"%string), !(Hcols "governance_score"%string),
            !(Hcols "crediting_period_end"%string),
            !(Hcols "transparency_score"%string)
      by (cbn; tauto).
    reflexivity. }
  rewrite (flagged_row_eta cols1), (flagged_row_eta cols2). cbv zeta.
  now rewrite Hfs, Hp, Hs.
Qed.

(** X8: running [detect] on its own output returns that output again: the
    flags of an earlier run are discarded and recomputed.  The batch is one
    on which [detect] returns: its project_type column, if any, holds
    text. *)
Theorem X8_detect_idempotent (now : Timestamp)
  (date_offset_months : Z -> Timestamp -> Timestamp) (df : DataFrame) :
  text_typed df = true ->
  exists df',
    detect now date_offset_months df = Ok df' /\
    detect now date_offset_months df' = Ok df'.
Proof.
  intros Htext. rewrite detect_rows by exact Htext.
  eexists. split; [reflexivity|].
  rewrite detect_rows
    by (unfold text_typed in *; cbn [columns project_type_dtype];
        rewrite !has_column_add_column; cbn; rewrite !orb_false_r; exact Htext).
  cbn [columns rows project_type_dtype]. f_equal.
  set (cols := columns df).
  set (cols3 := add_column "max_severity"
                  (add_column "flag_count" (add_column "flags" cols))).
  assert (Hfl : has_column cols3 "flags" = true).
  { unfold cols3. rewrite !has_column_add_column, String.eqb_refl.
    cbn. now rewrite !orb_true_r. }
  assert (Hfc : has_column cols3 "flag_count" = true).
  { unfold cols3. rewrite !has_column_add_column, String.eqb_refl.
    cbn. now rewrite !orb_true_r. }
  assert (Hms : has_column cols3 "max_severity" = true).
  { unfold cols3. apply has_column_add_column_same. }
  rewrite (add_column_present "flags" cols3 Hfl).
  rewrite (add_column_present "flag_count" cols3 Hfc).
  rewrite (add_column_present "max_severity" cols3 Hms).
  f_equal. rewrite map_map. apply map_ext. intros r.
  destruct (flagged_row_inputs (add_column "flags" cols)
              (date_offset_months 12%Z now) r) as [Hp Hs].
  apply flagged_row_determined; try assumption.
  intros c Hc. unfold cols3. rewrite !has_column_add_column.
  cbn [map snd rule_columns In] in Hc.
  repeat (destruct Hc as [<- | Hc]; [cbn; now rewrite !orb_false_r|]).
  contradiction.
Qed.

Lemma X8_witness_sample_batch :
  exists df',
    detect date_2024_01_01 thirty_day_months
      (batch_of [forest_project "REDD+"; sparse_project]) = Ok df' /\
    detect date_2024_01_01 thirty_day_months df' = Ok df'.
Proof.
  apply (X8_detect_idempotent date_2024_01_01 thirty_day_months
           (batch_of [forest_project "REDD+"; sparse_project])).
  reflexivity.
Defined.
(** ** The scorer followed by the detector

    The two steps return on the batches that have the columns project_type
    and country, which [score_all] indexes, and whose project_type column
    holds text, on which [detect] uses [.str]. *)

Lemma dict_find_filter_fst {V : Type} (p : V -> bool) (d : list (string * V))
  (k : string) (v : V) :
  NoDup (map fst d) -> dict_find d k = Some v ->
  In k (map fst (filter (fun e => p (snd e)) d)) <-> p v = true.
Proof.
  intros Hnd Hfind. induction d as [|[k' v'] t IH]; [discriminate|].
  inversion Hnd as [|? ? Hk Hnd']; subst.
  cbn [dict_find] in Hfind. cbn [filter snd].
  destruct (String.eqb_spec k k') as [->|Hne].
  - injection Hfind as ->.
    destruct (p v) eqn:Ep; cbn [map fst In].
    + split; [reflexivity | now left].
    + split; [|discriminate]. intros Hin. exfalso. apply Hk.
      apply in_map_iff in Hin. destruct Hin as [e [<- He]].
      apply filter_In in He. apply in_map. now destruct He.
  - destruct (p v'); cbn [map fst In]; rewrite <- (IH Hnd' Hfind).
    + split; [intros [E | H]; [congruence | exact H] | now right].
    + reflexivity.
Qed.

(** A code is among the flags of a flagged row exactly when the test of its
    rule holds of the row. *)
Lemma flagged_row_rule (cols : list string) (threshold : Timestamp) (r : Row)
  (code : string) (test : Row -> bool) :
  dict_find (flag_rules cols threshold) code = Some test ->
  In code (flags (flagging (flagged_row cols threshold r))) <-> test r = true.
Proof.
  intros H. rewrite flagged_row_flags_exact.
  apply (dict_find_filter_fst (fun t => t r) _ _ _); [|exact H].
  rewrite flag_rules_codes. apply catalogue_codes_NoDup.
Qed.

(** The records of a batch after [score_all] and [detect]. *)
Lemma pipeline_rows (today now : Timestamp)
  (date_offset_months : Z -> Timestamp -> Timestamp) (df : DataFrame)
  (reference_date : option Timestamp) :
  has_column (columns df) "project_type" = true ->
  has_column (columns df) "country" = true ->
  text_typed df = true ->
  exists df1 df2,
    score_all today df reference_date = Ok df1 /\
    detect now date_offset_months df1 = Ok df2 /\
    Forall2 (fun r r2 =>
               exists r1,
                 scored_row (columns df)
                   match reference_date with Some d => d | None => today end r r1 /\
                 r2 = flagged_row (add_column "flags" (scored_columns (columns df)))
                        (date_offset_months 12%Z now) r1)
            (rows df) (rows df2).
Proof.
  intros Hpt Hco Htext.
  destruct (score_all_frame today df reference_date Hpt Hco)
    as [df1 [E [Hcols [Hdt H]]]].
  exists df1. eexists. split; [exact E|].
  rewrite detect_rows by (now rewrite (text_typed_scored df df1 Hcols Hdt)).
  split; [reflexivity|].
  cbn [rows]. apply Forall2_map_right. revert H. apply Forall2_weaken.
  intros r r1 Hrow. exists r1. split; [exact Hrow | now rewrite Hcols].
Qed.

Lemma has_score_column (cols : list string) (c : string) :
  list_mem c [ "vintage_score"; "retirement_ratio_score"; "project_type_score";
               "transparency_score"; "additionality_score"; "governance_score";
               "cqi"; "quality_tier" ]%string = true ->
  has_column (add_column "flags" (scored_columns cols)) c = true.
Proof.
  intros H. rewrite has_column_add_column, has_column_scored_columns, H.
  now rewrite orb_true_r.
Qed.

Lemma vintage_below_30 (cols : list string) (r : Row) (ref : Timestamp) (v : float) :
  _vintage_score cols r ref = Ok v ->
  (v <? fl 30)%fl = true <->
  exists d, row_get cols "registration_date" (registration_date (project r)) = Some d /\
            12 < age_years ref d.
Proof.
  unfold _vintage_score.
  destruct (row_get cols "registration_date" _) as [d|].
  2: { intros H. injection H as <-. split; [discriminate | intros [d [E _]]; discriminate]. }
  rewrite py_div_nonzero by apply days_per_year_nonzero.
  cbn [bind f_lift2 fl]. fold (age_years ref d).
  remember (age_years ref d) as a eqn:Ea. unfold_float.
  split_tests; intros H; injection H as <-; bool_to_Q; cbn [f_cmp];
    rewrite Qlt_bool_iff;
    (split; [intros Hlt;
             first [exfalso; lra | exists d; split; [reflexivity | rewrite <- Ea; lra]]
            | intros [d' [Ed Hage]]; injection Ed as <-; rewrite <- Ea in Hage;
              lra]).
Qed.

(** X9: after [score_all] and [detect], a record carries HIGH_VINTAGE
    exactly when its registration date is present and its registration age
    exceeds 12 years; the batch is one on which both steps return. *)
Theorem X9_high_vintage_iff_older_than_12_years (today now : Timestamp)
  (date_offset_months : Z -> Timestamp -> Timestamp) (df : DataFrame)
  (reference_date : option Timestamp) :
  has_column (columns df) "project_type" = true ->
  has_column (columns df) "country" = true ->
  text_typed df = true ->
  exists df1 df2,
    score_all today df reference_date = Ok df1 /\
    detect now date_offset_months df1 = Ok df2 /\
    Forall2 (fun r r2 =>
               In "HIGH_VINTAGE"%string (flags (flagging r2)) <->
               exists d,
                 row_get (columns df) "registration_date"
                         (registration_date (project r)) = Some d /\
                 12 < age_years
                        match reference_date with Some t => t | None => today end d)
            (rows df) (rows df2).
Proof.
  intros Hpt Hco Htext.
  destruct (pipeline_rows today now date_offset_months df reference_date Hpt Hco Htext)
    as [df1 [df2 [E1 [E2 H]]]].
  exists df1, df2. split; [exact E1|]. split; [exact E2|].
  revert H. apply Forall2_weaken.
  intros r r2 [r1 [(_ & _ & Hv & _) ->]].
  rewrite (flagged_row_rule _ _ _ "HIGH_VINTAGE" _ eq_refl).
  rewrite has_score_column by reflexivity. cbn [andb].
  now apply vintage_below_30.
Qed.

Lemma X9_witness_sample_batch :
  exists df1 df2,
    score_all 0%Z mixed_batch (Some date_2041_01_01) = Ok df1 /\
    detect date_2041_01_01 thirty_day_months df1 = Ok df2 /\
    Forall2 (fun r r2 =>
               In "HIGH_VINTAGE"%string (flags (flagging r2)) <->
               exists d,
                 row_get (columns mixed_batch) "registration_date"
                         (registration_date (project r)) = Some d /\
                 12 < age_years date_2041_01_01 d)
            (rows mixed_batch) (rows df2).
Proof.
  apply (X9_high_vintage_iff_older_than_12_years 0%Z date_2041_01_01
           thirty_day_months mixed_batch (Some date_2041_01_01));
    reflexivity.
Defined.

Lemma additionality_below_40 (cols : list string) (r : Row) (ref : Timestamp)
  (v : float) :
  _additionality_score cols r ref = Ok v ->
  (v <? fl 40)%fl = true <->
  exists reg cp,
    row_get cols "registration_date" (registration_date (project r)) = Some reg /\
    row_get cols "crediting_period_start"
            (crediting_period_start (project r)) = Some cp /\
    6 < lag_years reg cp.
Proof.
  unfold _additionality_score.
  destruct (row_get cols "registration_date" _) as [reg|].
  2: { intros H. injection H as <-.
       split; [discriminate | intros (? & ? & E & _); discriminate]. }
  destruct (row_get cols "crediting_period_start" _) as [cp|].
  2: { intros H. injection H as <-.
       split; [discriminate | intros (? & ? & _ & E & _); discriminate]. }
  rewrite py_div_nonzero by apply days_per_year_nonzero.
  cbn [bind f_lift2 fl]. fold (lag_years reg cp).
  remember (lag_years reg cp) as a eqn:Ea. unfold_float.
  split_tests; intros H; injection H as <-; bool_to_Q; cbn [f_cmp];
    rewrite Qlt_bool_iff;
    (split; [intros Hlt;
             first [exfalso; lra
                   | exists reg, cp; repeat split; rewrite <- Ea; lra]
            | intros (reg' & cp' & Er & Ec & Hlag);
              injection Er as <-; injection Ec as <-; rewrite <- Ea in Hlag; lra]).
Qed.

(** X10: after [score_all] and [detect], a record carries REGISTRATION_LAG
    exactly when its registration date and its crediting period start are
    both present and the registration follows the start by more than 6
    years; the batch is one on which both steps return. *)
Theorem X10_registration_lag_iff_more_than_6_years (today now : Timestamp)
  (date_offset_months : Z -> Timestamp -> Timestamp) (df : DataFrame)
  (reference_date : option Timestamp) :
  has_column (columns df) "project_type" = true ->
  has_column (columns df) "country" = true ->
  text_typed df = true ->
  exists df1 df2,
    score_all today df reference_date = Ok df1 /\
    detect now date_offset_months df1 = Ok df2 /\
    Forall2 (fun r r2 =>
               In "REGISTRATION_LAG"%string (flags (flagging r2)) <->
               exists reg cp,
                 row_get (columns df) "registration_date"
                         (registration_date (project r)) = Some reg /\
                 row_get (columns df) "crediting_period_start"
                         (crediting_period_start (project r)) = Some cp /\
                 6 < lag_years reg cp)
            (rows df) (rows df2).
Proof.
  intros Hpt Hco Htext.
  destruct (pipeline_rows today now date_offset_months df reference_date Hpt Hco Htext)
    as [df1 [df2 [E1 [E2 H]]]].
  exists df1, df2. split; [exact E1|]. split; [exact E2|].
  revert H. apply Forall2_weaken.
  intros r r2 [r1 [(_ & _ & _ & _ & _ & _ & Ha & _) ->]].
  rewrite (flagged_row_rule _ _ _ "REGISTRATION_LAG" _ eq_refl).
  rewrite has_score_column by reflexivity. cbn [andb].
  now apply additionality_below_40 in Ha.
Qed.

Lemma X10_witness_sample_batch :
  exists df1 df2,
    score_all 0%Z (batch_of [forest_project "REDD+"]) None = Ok df1 /\
    detect 0%Z thirty_day_months df1 = Ok df2 /\
    Forall2 (fun r r2 =>
               In "REGISTRATION_LAG"%string (flags (flagging r2)) <->
               exists reg cp,
                 row_get (columns (batch_of [forest_project "REDD+"]))
                         "registration_date"
                         (registration_date (project r)) = Some reg /\
                 row_get (columns (batch_of [forest_project "REDD+"]))
                         "crediting_period_start"
                         (crediting_period_start (project r)) = Some cp /\
                 6 < lag_years reg cp)
            (rows (batch_of [forest_project "REDD+"])) (rows df2).
Proof.
  apply (X10_registration_lag_iff_more_than_6_years 0%Z 0%Z thirty_day_months
           (batch_of [forest_project "REDD+"]) None); reflexivity.
Defined.

Lemma transparency_below_40 (cols : list string) (r : Row) (v : float) :
  _transparency_score cols r = Ok v ->
  (v <? fl 40)%fl = true <-> (populated_fields cols r < 3)%Z.
Proof.
  unfold _transparency_score, populated_fields. cbv zeta.
  generalize (populated_cell cols "proponent" (proponent (project r))).
  generalize (populated_cell cols "region" (region (project r))).
  generalize (populated_cell cols "crediting_period_start"
                (crediting_period_start (project r))).
  generalize (populated_cell cols "crediting_period_end"
                (crediting_period_end (project r))).
  generalize (populated_number cols "estimated_annual_reductions"
                (estimated_annual_reductions (project r))).
  generalize (populated_number cols "total_buffer_pool" (total_buffer_pool (project r))).
  intros b1 b2 b3 b4 b5 b6.
  destruct b1, b2, b3, b4, b5, b6; intros H; injection H as <-;
    vm_compute; split; intros; congruence.
Qed.

(** X11: after [score_all] and [detect], a record carries INCOMPLETE_DATA
    exactly when fewer than three of its six documentation fields are
    populated; the batch is one on which both steps return. *)
Theorem X11_incomplete_data_iff_fewer_than_3_fields (today now : Timestamp)
  (date_offset_months : Z -> Timestamp -> Timestamp) (df : DataFrame)
  (reference_date : option Timestamp) :
  has_column (columns df) "project_type" = true ->
  has_column (columns df) "country" = true ->
  text_typed df = true ->
  exists df1 df2,
    score_all today df reference_date = Ok df1 /\
    detect now date_offset_months df1 = Ok df2 /\
    Forall2 (fun r r2 =>
               In "INCOMPLETE_DATA"%string (flags (flagging r2)) <->
               (populated_fields (columns df) r < 3)%Z)
            (rows df) (rows df2).
Proof.
  intros Hpt Hco Htext.
  destruct (pipeline_rows today now date_offset_months df reference_date Hpt Hco Htext)
    as [df1 [df2 [E1 [E2 H]]]].
  exists df1, df2. split; [exact E1|]. split; [exact E2|].
  revert H. apply Forall2_weaken.
  intros r r2 [r1 [(_ & _ & _ & _ & _ & Ht & _) ->]].
  rewrite (flagged_row_rule _ _ _ "INCOMPLETE_DATA" _ eq_refl).
  rewrite has_score_column by reflexivity. cbn [andb].
  now apply transparency_below_40 in Ht.
Qed.

Lemma X11_witness_sample_batch :
  exists df1 df2,
    score_all 0%Z mixed_batch None = Ok df1 /\
    detect 0%Z thirty_day_months df1 = Ok df2 /\
    Forall2 (fun r r2 =>
               In "INCOMPLETE_DATA"%string (flags (flagging r2)) <->
               (populated_fields (columns mixed_batch) r < 3)%Z)
            (rows mixed_batch) (rows df2).
Proof.
  apply (X11_incomplete_data_iff_fewer_than_3_fields 0%Z 0%Z thirty_day_months
           mixed_batch None); reflexivity.
Defined.

Lemma governance_below_45 (c : option string) :
  (_governance_score c <? fl GOVERNANCE_THRESHOLD)%fl = true <->
  exists s, c = Some s /\
            In (strip s) [ "Cambodia"; "Madagascar";
                           "Democratic Republic of the Congo"; "Uganda" ]%string.
Proof.
  destruct c as [s|].
  2: { split; [vm_compute; discriminate | intros [s [E _]]; discriminate]. }
  unfold _governance_score. cbv zeta.
  remember (strip s) as k eqn:Ek.
  unfold COUNTRY_GOVERNANCE_SCORE. cbn [dict_get].
  repeat match goal with
  | |- context [String.eqb k ?n] =>
      let E := fresh "E" in destruct (String.eqb k n) eqn:E;
      [apply String.eqb_eq in E | apply String.eqb_neq in E]
  end.
  all: split;
    [ intros H;
      first [ exfalso; revert H; vm_compute; discriminate
            | exists s; split; [reflexivity|]; rewrite <- Ek;
              match goal with E : _ = String _ _ |- _ => rewrite E end;
              cbn [In]; auto 6 ]
    | intros [s' [Es Hin]]; injection Es as <-; rewrite <- Ek in Hin;
      cbn [In] in Hin;
      first [ vm_compute; reflexivity
            | exfalso; try match goal with E : _ = String _ _ |- _ => rewrite E in Hin end;
              intuition (try discriminate; try congruence) ] ].
Qed.

(** X12: after [score_all] and [detect], a record carries WEAK_GOVERNANCE
    exactly when its country, stripped of surrounding white space, is
    Cambodia, Madagascar, Democratic Republic of the Congo or Uganda; a
    record with a missing or unlisted country never carries it; the batch is
    one on which both steps return. *)
Theorem X12_weak_governance_countries (today now : Timestamp)
  (date_offset_months : Z -> Timestamp -> Timestamp) (df : DataFrame)
  (reference_date : option Timestamp) :
  has_column (columns df) "project_type" = true ->
  has_column (columns df) "country" = true ->
  text_typed df = true ->
  exists df1 df2,
    score_all today df reference_date = Ok df1 /\
    detect now date_offset_months df1 = Ok df2 /\
    Forall2 (fun r r2 =>
               In "WEAK_GOVERNANCE"%string (flags (flagging r2)) <->
               exists c, country (project r) = Some c /\
                         In (strip c) [ "Cambodia"; "Madagascar";
                                        "Democratic Republic of the Congo";
                                        "Uganda" ]%string)
            (rows df) (rows df2).
Proof.
  intros Hpt Hco Htext.
  destruct (pipeline_rows today now date_offset_months df reference_date Hpt Hco Htext)
    as [df1 [df2 [E1 [E2 H]]]].
  exists df1, df2. split; [exact E1|]. split; [exact E2|].
  revert H. apply Forall2_weaken.
  intros r r2 [r1 [(_ & _ & _ & _ & _ & _ & _ & Hg & _) ->]].
  rewrite (flagged_row_rule _ _ _ "WEAK_GOVERNANCE" _ eq_refl).
  rewrite has_score_column by reflexivity. cbn [andb].
  rewrite Hg. apply governance_below_45.
Qed.

Lemma X12_witness_sample_batch :
  exists df1 df2,
    score_all 0%Z mixed_batch None = Ok df1 /\
    detect 0%Z thirty_day_months df1 = Ok df2 /\
    Forall2 (fun r r2 =>
               In "WEAK_GOVERNANCE"%string (flags (flagging r2)) <->
               exists c, country (project r) = Some c /\
                         In (strip c) [ "Cambodia"; "Madagascar";
                                        "Democratic Republic of the Congo";
                                        "Uganda" ]%string)
            (rows mixed_batch) (rows df2).
Proof.
  apply (X12_weak_governance_countries 0%Z 0%Z thirty_day_months
           mixed_batch None); reflexivity.
Defined.

Lemma has_input_column (cols : list string) (c : string) :
  list_mem c [ "vintage_score"; "retirement_ratio_score"; "project_type_score";
               "transparency_score"; "additionality_score"; "governance_score";
               "cqi"; "quality_tier" ]%string = false ->
  String.eqb c "flags" = false ->
  has_column (add_column "flags" (scored_columns cols)) c = has_column cols c.
Proof.
  intros H1 H2. rewrite has_column_add_column, has_column_scored_columns, H1, H2.
  now rewrite !orb_false_r.
Qed.

Lemma retirement_score_when_flagged (cols : list string) (r : Row) (v : float) :
  has_column cols "total_retired" = true ->
  has_column cols "total_issued" = true ->
  _retirement_ratio_score cols r = Ok v ->
  let issued := total_issued (project r) in
  let retired := total_retired (project r) in
  ((issued >? fl 0)%fl && (retired ==? fl 0)%fl = true -> v = fl 0) /\
  (((np_div retired (replace_0_nan issued) <? fl 0.10)%fl && (issued >? fl 0)%fl) &&
   (retired >? fl 0)%fl = true ->
   exists q, v = fl q /\ 0 < q < 16.65).
Proof.
  intros Ht Hi. unfold _retirement_ratio_score, row_get_or_0. rewrite Ht, Hi.
  cbv zeta.
  destruct (total_issued (project r)) as [i|], (total_retired (project r)) as [t|].
  2, 3, 4: intros _; split; intros H; unfold_float; cbn in H;
           rewrite ?andb_false_r in H; discriminate.
  intros H. split.
  - intros Hz. apply andb_prop in Hz. destruct Hz as [Hpos Hzero].
    unfold_float. bool_to_Q.
    assert (Hratio : t / i == 0) by (rewrite Hzero; field; lra).
    revert H. unfold py_div.
    destruct (Qle_bool i 0) eqn:E1; bool_to_Q; [exfalso; lra|].
    destruct (Qeq_bool i 0) eqn:E2; bool_to_Q; [exfalso; lra|].
    cbn [bind f_lift2]. revert Hratio. generalize (t / i). intros ratio Hratio.
    split_tests; bool_to_Q; try (exfalso; lra); intros H; now injection H as <-.
  - intros Hl. apply andb_prop in Hl. destruct Hl as [Hl Htpos].
    apply andb_prop in Hl. destruct Hl as [Hlow Hpos].
    unfold_float. apply Qlt_bool_iff in Hpos. apply Qlt_bool_iff in Htpos.
    assert (E2 : Qeq_bool i 0 = false) by (apply Qeq_bool_false_iff; lra).
    unfold replace_0_nan, np_div in Hlow. unfold_float.
    rewrite E2 in Hlow. cbv beta iota in Hlow. rewrite E2 in Hlow.
    apply Qlt_bool_iff in Hlow.
    assert (Hratio : 0 < t / i) by (apply Qlt_shift_div_l; lra).
    revert H. unfold py_div.
    destruct (Qle_bool i 0) eqn:E1; bool_to_Q; [exfalso; lra|].
    apply Qeq_bool_false_iff in E2. rewrite E2. cbn [bind f_lift2].
    revert Hratio Hlow. generalize (t / i). intros ratio Hratio Hlow.
    split_tests; bool_to_Q; try (exfalso; lra); intros H; injection H as <-;
      eexists; (split; [reflexivity | lra]).
Qed.

(** X13: after [score_all] and [detect], a record that carries
    ZERO_RETIREMENTS has the retirement ratio score 0, and a record that
    carries LOW_RETIREMENT_RATIO has a retirement ratio score above 0 and
    below 16.65; the batch is one on which both steps return. *)
Theorem X13_retirement_flags_and_score (today now : Timestamp)
  (date_offset_months : Z -> Timestamp -> Timestamp) (df : DataFrame)
  (reference_date : option Timestamp) :
  has_column (columns df) "project_type" = true ->
  has_column (columns df) "country" = true ->
  text_typed df = true ->
  exists df1 df2,
    score_all today df reference_date = Ok df1 /\
    detect now date_offset_months df1 = Ok df2 /\
    Forall2 (fun r r2 =>
               (In "ZERO_RETIREMENTS"%string (flags (flagging r2)) ->
                retirement_ratio_score (scores r2) = fl 0) /\
               (In "LOW_RETIREMENT_RATIO"%string (flags (flagging r2)) ->
                exists q, retirement_ratio_score (scores r2) = fl q /\
                          0 < q < 16.65))
            (rows df) (rows df2).
Proof.
  intros Hpt Hco Htext.
  destruct (pipeline_rows today now date_offset_months df reference_date Hpt Hco Htext)
    as [df1 [df2 [E1 [E2 H]]]].
  exists df1, df2. split; [exact E1|]. split; [exact E2|].
  revert H. apply Forall2_weaken.
  intros r r2 [r1 [(Hp & _ & _ & Hr & _) ->]].
  set (cols := add_column "flags" (scored_columns (columns df))).
  set (thr := date_offset_months 12%Z now).
  destruct (flagged_row_inputs cols thr r1) as [_ Hs]. rewrite Hs.
  rewrite (flagged_row_rule cols thr r1 "ZERO_RETIREMENTS" _ eq_refl).
  rewrite (flagged_row_rule cols thr r1 "LOW_RETIREMENT_RATIO" _ eq_refl).
  unfold cols. rewrite !has_input_column by reflexivity. rewrite Hp.
  destruct (has_column (columns df) "total_retired") eqn:Ht;
    [|split; intros H; discriminate].
  destruct (has_column (columns df) "total_issued") eqn:Hi;
    [|split; intros H; discriminate].
  cbn [andb].
  exact (retirement_score_when_flagged (columns df) r _ Ht Hi Hr).
Qed.

Lemma X13_witness_sample_batch :
  exists df1 df2,
    score_all 0%Z mixed_batch None = Ok df1 /\
    detect 0%Z thirty_day_months df1 = Ok df2 /\
    Forall2 (fun r r2 =>
               (In "ZERO_RETIREMENTS"%string (flags (flagging r2)) ->
                retirement_ratio_score (scores r2) = fl 0) /\
               (In "LOW_RETIREMENT_RATIO"%string (flags (flagging r2)) ->
                exists q, retirement_ratio_score (scores r2) = fl q /\
                          0 < q < 16.65))
            (rows mixed_batch) (rows df2).
Proof.
  apply (X13_retirement_flags_and_score 0%Z 0%Z thirty_day_months
           mixed_batch None); reflexivity.
Defined.
(** ** [_max_severity] and [get_flag_summary] on any input *)

(** X14: on any list of flag codes [_max_severity] returns: "none" on the
    empty list, "unknown" on a non-empty list none of whose codes is in the
    catalogue, and otherwise the catalogue severity of one of the codes, of
    a rank that no catalogue code of the list exceeds; codes outside the
    catalogue are ignored. *)
Theorem X14_max_severity_on_any_list (fs : list string) :
  exists m,
    _max_severity fs = Ok m /\
    (fs = [] -> m = "none"%string) /\
    (fs <> [] -> (forall f, In f fs -> flag_severity f = None) ->
     m = "unknown"%string) /\
    ((exists f, In f fs /\ flag_severity f <> None) ->
     (exists f, In f fs /\ flag_severity f = Some m) /\
     (forall f s, In f fs -> flag_severity f = Some s ->
                  (severity_rank s <= severity_rank m)%Z)).
Proof.
  destruct fs as [|f0 t].
  { exists "none"%string. split; [reflexivity|]. split; [reflexivity|].
    split; [congruence|].
    intros [f [[] _]]. }
  set (fs := f0 :: t).
  set (known := filter (dict_mem FLAG_CATALOGUE) fs).
  set (sev := fun f => match dict_find FLAG_CATALOGUE f with
                       | Some k => severity k
                       | None => EmptyString
                       end).
  assert (Hknown : forall f, In f known <-> In f fs /\ flag_severity f = Some (sev f)).
  { intros f. unfold known. rewrite filter_In. unfold dict_mem, flag_severity, sev.
    destruct (dict_find FLAG_CATALOGUE f); cbn; intuition congruence. }
  assert (Hsome : forall f s, flag_severity f = Some s -> s = sev f).
  { intros f s. unfold flag_severity, sev.
    destruct (dict_find FLAG_CATALOGUE f); cbn; congruence. }
  assert (Hrun : _max_severity fs =
                 match map sev known with
                 | [] => Ok "unknown"%string
                 | s :: rest => Ok (max_by_key severity_rank s rest)
                 end).
  { unfold _max_severity. subst fs. fold known.
    rewrite (mapM_ext_ok _ sev); [reflexivity|].
    intros x Hx. apply Hknown in Hx. destruct Hx as [_ Hx].
    unfold flag_severity, dict_item, sev in *.
    destruct (dict_find FLAG_CATALOGUE x); [reflexivity | discriminate]. }
  rewrite Hrun.
  destruct (map sev known) as [|s0 rest] eqn:Esev.
  - exists "unknown"%string. split; [reflexivity|]. split; [discriminate|].
    split; [reflexivity|].
    intros [f [Hf Hsev]]. exfalso.
    destruct (flag_severity f) as [s|] eqn:Es; [|congruence].
    assert (Hin : In f known).
    { apply Hknown. split; [assumption|]. now rewrite (Hsome f s Es) in Es. }
    apply (in_map sev) in Hin. rewrite Esev in Hin. contradiction.
  - set (m := max_by_key severity_rank s0 rest).
    exists m. split; [reflexivity|]. split; [discriminate|].
    assert (Hin : exists f, In f fs /\ flag_severity f = Some m).
    { pose proof (max_by_key_In severity_rank s0 rest) as H.
      fold m in H. rewrite <- Esev in H.
      apply in_map_iff in H. destruct H as [f [E Hf]].
      apply Hknown in Hf. destruct Hf as [Hf Hs].
      exists f. split; [assumption|]. now rewrite Hs, E. }
    split.
    + intros _ Hnone. destruct Hin as [f [Hf Hs]]. rewrite (Hnone f Hf) in Hs.
      discriminate.
    + intros _. split; [exact Hin|].
      intros f s Hf Hs. rewrite (Hsome f s Hs).
      apply max_by_key_upper. rewrite <- Esev. apply in_map.
      apply Hknown. split; [assumption|]. now rewrite (Hsome f s Hs) in Hs.
Qed.

Lemma Zsum_counter_incr (c : list (string * Z)) (x : string) :
  Zsum (map snd (counter_incr c x)) = (Zsum (map snd c) + 1)%Z.
Proof.
  unfold Zsum. induction c as [|[k n] t IH]; cbn; [reflexivity|].
  destruct (String.eqb x k); cbn; [lia|]. rewrite IH. lia.
Qed.

Lemma Zsum_Counter (l : list string) :
  Zsum (map snd (Counter l)) = Z.of_nat (List.length l).
Proof.
  induction l as [|x t IH] using rev_ind; [reflexivity|].
  rewrite Counter_snoc, Zsum_counter_incr, IH, length_app. cbn. lia.
Qed.

Lemma Zsum_perm (l l' : list Z) : Permutation l l' -> Zsum l = Zsum l'.
Proof.
  unfold Zsum. intros H. induction H; cbn; lia.
Qed.

(** X15: on any batch [get_flag_summary] either raises [KeyError "flags"],
    exactly when the batch has no flags column, or returns a table with one
    row per distinct code of the flag lists, the code's number of
    occurrences as [project_count], and the code itself as label and
    "unknown" as severity where the code is not in the catalogue; the counts
    add up to the number of flags in the batch. *)
Theorem X15_flag_summary_on_any_batch (df : DataFrame) :
  let all_flags := List.concat (map (fun r => flags (flagging r)) (rows df)) in
  match get_flag_summary df with
  | Raise e => has_column (columns df) "flags" = false /\ e = KeyError "flags"
  | Ok summary =>
      has_column (columns df) "flags" = true /\
      NoDup (map Summary.flag_code summary) /\
      (forall c, In c (map Summary.flag_code summary) <-> In c all_flags) /\
      Forall (fun row =>
                Summary.project_count row =
                  Z.of_nat (count_occ string_dec all_flags (Summary.flag_code row)) /\
                (flag_severity (Summary.flag_code row) = None ->
                 Summary.label row = Summary.flag_code row /\
                 Summary.severity row = "unknown"%string))
             summary /\
      Zsum (map Summary.project_count summary) = Z.of_nat (List.length all_flags)
  end.
Proof.
  intros all_flags.
  destruct (has_column (columns df) "flags") eqn:Hcol.
  2:{ unfold get_flag_summary, getitem. rewrite Hcol. cbn. split; reflexivity. }
  rewrite (get_flag_summary_rows df Hcol). fold all_flags.
  set (n := List.length (rows df)).
  assert (Hcodes : map Summary.flag_code
                     (map (summary_row n) (most_common (Counter all_flags))) =
                   map fst (most_common (Counter all_flags))).
  { rewrite map_map. apply map_ext. intros e. apply summary_row_code. }
  assert (Hcounts : map Summary.project_count
                      (map (summary_row n) (most_common (Counter all_flags))) =
                    map snd (most_common (Counter all_flags))).
  { rewrite map_map. apply map_ext. intros e. apply summary_row_count. }
  assert (Hperm : Permutation (map fst (most_common (Counter all_flags)))
                              (map fst (Counter all_flags))).
  { apply Permutation_map, most_common_perm. }
  split; [reflexivity|]. split; [|split; [|split]].
  - rewrite Hcodes. apply (Permutation_NoDup (Permutation_sym Hperm)).
    apply Counter_NoDup.
  - intros c. rewrite Hcodes. split.
    + intros H. apply (Permutation_in _ Hperm) in H.
      apply in_map_iff in H. destruct H as [[c' k] [E H]]. cbn in E. subst c'.
      now apply Counter_In in H.
    + intros H. apply (Permutation_in _ (Permutation_sym Hperm)).
      apply in_map_iff.
      exists (c, Z.of_nat (count_occ string_dec all_flags c)). split; [reflexivity|].
      apply Counter_In. now split.
  - apply Forall_forall. intros row Hrow.
    apply in_map_iff in Hrow. destruct Hrow as [[c k] [<- Hin]].
    apply (Permutation_in _ (most_common_perm _)) in Hin.
    apply Counter_In in Hin. destruct Hin as [_ ->].
    cbn [summary_row Summary.project_count Summary.flag_code Summary.label
         Summary.severity].
    split; [reflexivity|].
    unfold flag_severity. destruct (dict_find FLAG_CATALOGUE c); cbn; [discriminate|].
    intros _. split; reflexivity.
  - rewrite Hcounts.
    rewrite (Zsum_perm _ _ (Permutation_map snd (most_common_perm _))).
    apply Zsum_Counter.
Qed.

(** ** The cleaner's project types *)

Lemma first_key_in_value (d : list (string * string)) (s c : string) :
  first_key_in d s = Some c -> In c (map snd d).
Proof.
  induction d as [|[k v] t IH]; cbn; [discriminate|].
  destruct (contains k s).
  - intros H. injection H as ->. now left.
  - intros H. right. now apply IH.
Qed.

Lemma canonicalize_type_vocabulary (raw : option string) :
  In (_canonicalize_type raw) canonical_types.
Proof.
  destruct raw as [s|]; cbn [_canonicalize_type]; [|cbn; tauto].
  cbv zeta.
  destruct (first_key_in TYPE_CANONICALIZATION (strip (lower s))) as [c|] eqn:E.
  - apply first_key_in_value in E. cbn in E. cbn. tauto.
  - cbn. tauto.
Qed.

(** X16: [_canonicalize_type] returns one of the ten canonical names on any
    input, and canonicalising its result again gives the same name, except
    that "IFM" becomes "Unknown": no key of the table occurs in "ifm". *)
Theorem X16_canonicalize_type_twice (raw : option string) :
  let c := _canonicalize_type raw in
  In c canonical_types /\
  _canonicalize_type (Some c) = if String.eqb c "IFM" then "Unknown"%string else c.
Proof.
  cbv zeta. split; [apply canonicalize_type_vocabulary|].
  pose proof (canonicalize_type_vocabulary raw) as H.
  cbn [canonical_types In] in H.
  repeat (destruct H as [<- | H]; [vm_compute; reflexivity|]).
  contradiction.
Qed.

(** X17: a raw project type in which "redd" occurs, in any case and with
    anything around it, is canonicalised to "REDD+": "redd" is the first key
    of the table, so no other key is tried. *)
Theorem X17_canonicalize_type_redd (s : string) :
  contains_nocase "redd" s = true -> _canonicalize_type (Some s) = "REDD+"%string.
Proof.
  unfold contains_nocase. intros H.
  unfold _canonicalize_type. cbv zeta.
  unfold TYPE_CANONICALIZATION. cbn [first_key_in].
  change (lower "redd") with "redd"%string in H.
  now rewrite (contains_strip "redd" (lower s) eq_refl eq_refl H).
Qed.

Lemma X17_witness_avoided_deforestation :
  _canonicalize_type (Some "  Avoided deforestation (REDD) "%string) = "REDD+"%string.
Proof.
  apply X17_canonicalize_type_redd. vm_compute. reflexivity.
Defined.

(** X18: on a canonicalised project type the scorer and the detector agree:
    [_project_type_score] is 30.0 and the REDD test of the detector holds
    exactly for "REDD+"; every other canonical type, "IFM", "ARR" and
    "Unknown" included, scores 85.0, so that neither 60.0 nor the neutral
    50.0 is ever given to a canonicalised type. *)
Theorem X18_canonical_type_score (raw : option string) :
  let c := _canonicalize_type raw in
  _project_type_score (Some c) = (if String.eqb c "REDD+" then fl 30 else fl 85) /\
  str_contains_nocase "REDD" (Some c) = String.eqb c "REDD+".
Proof.
  cbv zeta.
  pose proof (canonicalize_type_vocabulary raw) as H.
  cbn [canonical_types In] in H.
  repeat (destruct H as [<- | H]; [split; vm_compute; reflexivity|]).
  contradiction.
Qed.

(** ** The detector before the scorer *)

(** X19: on a batch that has not been scored, that is without the columns
    vintage_score, additionality_score, governance_score and
    transparency_score, and whose project_type column, if any, holds text,
    [detect] returns, and gives no record any of HIGH_VINTAGE,
    REGISTRATION_LAG, WEAK_GOVERNANCE and INCOMPLETE_DATA: only the five
    rules on the raw columns can add a flag. *)
Theorem X19_detect_before_scoring (now : Timestamp)
  (date_offset_months : Z -> Timestamp -> Timestamp) (df : DataFrame) :
  has_column (columns df) "vintage_score" = false ->
  has_column (columns df) "additionality_score" = false ->
  has_column (columns df) "governance_score" = false ->
  has_column (columns df) "transparency_score" = false ->
  text_typed df = true ->
  exists df',
    detect now date_offset_months df = Ok df' /\
    Forall (fun r' =>
              forall c, In c (flags (flagging r')) ->
                        In c [ "ZERO_RETIREMENTS"; "LOW_RETIREMENT_RATIO";
                               "REDD_CONTROVERSY"; "MASSIVE_ISSUANCE";
                               "EXPIRED_CREDITING" ]%string)
           (rows df').
Proof.
  intros Hv Ha Hg Ht Htext. rewrite detect_rows by exact Htext.
  eexists. split; [reflexivity|].
  cbn [rows]. apply Forall_forall. intros r' Hr'.
  apply in_map_iff in Hr'. destruct Hr' as [r [<- _]].
  intros c. rewrite flagged_row_flags_exact.
  unfold flag_rules. cbn [filter snd].
  rewrite !has_column_add_column, Hv, Ha, Hg, Ht. cbn [orb andb String.eqb Ascii.eqb Bool.eqb].
  repeat match goal with
         | |- context [if ?b then _ else _] => destruct b
         end; cbn [map fst In]; tauto.
Qed.

Lemma X19_witness_sample_batch :
  exists df',
    detect date_2024_01_01 thirty_day_months
      (batch_of [sparse_project; forest_project "REDD+"]) = Ok df' /\
    Forall (fun r' =>
              forall c, In c (flags (flagging r')) ->
                        In c [ "ZERO_RETIREMENTS"; "LOW_RETIREMENT_RATIO";
                               "REDD_CONTROVERSY"; "MASSIVE_ISSUANCE";
                               "EXPIRED_CREDITING" ]%string)
           (rows df').
Proof.
  apply X19_detect_before_scoring; reflexivity.
Defined.

(** X20: a rule of the detector one of whose required columns is absent
    from the batch is skipped: on a batch on which [detect] returns, one
    whose project_type column, if any, holds text, no record gets the flag
    of that rule. *)
Theorem X20_detect_skips_rules_of_absent_columns (now : Timestamp)
  (date_offset_months : Z -> Timestamp -> Timestamp) (df : DataFrame)
  (code col : string) :
  text_typed df = true ->
  In (code, col) rule_columns ->
  has_column (columns df) col = false ->
  exists df',
    detect now date_offset_months df = Ok df' /\
    Forall (fun r' => ~ In code (flags (flagging r'))) (rows df').
Proof.
  intros Htext Hrule Hcol. rewrite detect_rows by exact Htext.
  eexists. split; [reflexivity|].
  cbn [rows]. apply Forall_forall. intros r' Hr'.
  apply in_map_iff in Hr'. destruct Hr' as [r [<- _]].
  assert (Habs : has_column (add_column "flags" (columns df)) col = false).
  { rewrite has_column_add_column, Hcol.
    unfold rule_columns in Hrule. cbn [In] in Hrule.
    repeat (destruct Hrule as [Hrule | Hrule];
            [injection Hrule as <- <-; reflexivity|]).
    contradiction. }
  intros Hin.
  unfold rule_columns in Hrule. cbn [In] in Hrule.
  repeat (destruct Hrule as [Hrule | Hrule];
          [injection Hrule as <- <-; rule_test Hin;
           rewrite Habs in Hin; try rewrite andb_false_r in Hin;
           discriminate Hin|]).
  contradiction.
Qed.

Lemma X20_witness_without_retirements :
  exists df',
    detect date_2024_01_01 thirty_day_months
      (drop_column "total_retired" (batch_of [sparse_project; forest_project "REDD+"]))
      = Ok df' /\
    Forall (fun r' => ~ In "ZERO_RETIREMENTS"%string (flags (flagging r')))
           (rows df').
Proof.
  apply (X20_detect_skips_rules_of_absent_columns date_2024_01_01 thirty_day_months
           (drop_column "total_retired"
              (batch_of [sparse_project; forest_project "REDD+"]))
           "ZERO_RETIREMENTS" "total_retired").
  - reflexivity.
  - vm_compute. right. left. reflexivity.
  - reflexivity.
Defined.

(** ** Project types naming REDD, and missing cells *)

(** X21: after [score_all] and [detect], every record whose project type
    contains "REDD" when case is ignored carries REDD_CONTROVERSY, and every
    record whose project type contains "REDD+" when case is ignored has the
    project type score 30; the batch is one on which both steps return. *)
Theorem X21_redd_flagged_and_redd_plus_scored_30 (today now : Timestamp)
  (date_offset_months : Z -> Timestamp -> Timestamp) (df : DataFrame)
  (reference_date : option Timestamp) :
  has_column (columns df) "project_type" = true ->
  has_column (columns df) "country" = true ->
  text_typed df = true ->
  exists df1 df2,
    score_all today df reference_date = Ok df1 /\
    detect now date_offset_months df1 = Ok df2 /\
    Forall2 (fun r r1 =>
               forall s, project_type (project r) = Some s ->
                         contains_nocase "REDD+" s = true ->
                         project_type_score (scores r1) = fl 30)
            (rows df) (rows df1) /\
    Forall2 (fun r r2 =>
               forall s, project_type (project r) = Some s ->
                         contains_nocase "REDD" s = true ->
                         In "REDD_CONTROVERSY"%string (flags (flagging r2)))
            (rows df) (rows df2).
Proof.
  intros Hpt Hco Htext.
  destruct (score_all_frame today df reference_date Hpt Hco)
    as [df1 [E [Hcols [Hdt H]]]].
  exists df1. eexists. split; [exact E|].
  rewrite detect_rows by (now rewrite (text_typed_scored df df1 Hcols Hdt)).
  split; [reflexivity|]. split.
  - revert H. apply Forall2_weaken.
    intros r r1 (_ & _ & _ & _ & Hp & _) s Hs Hredd.
    rewrite Hp, Hs. now apply project_type_score_redd_plus.
  - cbn [rows]. apply Forall2_map_right. revert H. apply Forall2_weaken.
    intros r r1 (Hproj & _) s Hs Hredd.
    apply flagged_row_In.
    eexists. split.
    + unfold flag_rules. cbn [In]. do 3 right. left. reflexivity.
    + cbv beta. rewrite has_column_add_column, Hcols, (has_column_scored _ _ Hpt).
      rewrite Hproj, Hs. exact Hredd.
Qed.

Lemma X21_witness_redd_plus_project :
  exists df1 df2,
    score_all 0%Z (batch_of [forest_project "Redd+ (AUD)"]) None = Ok df1 /\
    detect date_2024_01_01 thirty_day_months df1 = Ok df2 /\
    Forall2 (fun r r1 =>
               forall s, project_type (project r) = Some s ->
                         contains_nocase "REDD+" s = true ->
                         project_type_score (scores r1) = fl 30)
            (rows (batch_of [forest_project "Redd+ (AUD)"])) (rows df1) /\
    Forall2 (fun r r2 =>
               forall s, project_type (project r) = Some s ->
                         contains_nocase "REDD" s = true ->
                         In "REDD_CONTROVERSY"%string (flags (flagging r2)))
            (rows (batch_of [forest_project "Redd+ (AUD)"])) (rows df2).
Proof.
  apply (X21_redd_flagged_and_redd_plus_scored_30 0%Z date_2024_01_01
           thirty_day_months (batch_of [forest_project "Redd+ (AUD)"]) None);
    reflexivity.
Defined.

(** X22: on a batch that has the columns project_type and country,
    [score_all] returns and stores the neutral 50 for every missing input of
    a record: as vintage score when the registration date is missing, as
    retirement ratio score when the issuance is at most 0, as project type
    score when the project type is missing, as additionality score when the
    registration date or the crediting period start is missing, and as
    governance score when the country is missing or not in the table. *)
Theorem X22_missing_inputs_score_50 (today : Timestamp) (df : DataFrame)
  (reference_date : option Timestamp) :
  has_column (columns df) "project_type" = true ->
  has_column (columns df) "country" = true ->
  exists df',
    score_all today df reference_date = Ok df' /\
    Forall2 (fun r r' =>
               let cols := columns df in
               let p := project r in
               let s := scores r' in
               (row_get cols "registration_date" (registration_date p) = None ->
                vintage_score s = fl 50) /\
               (forall i, row_get_or_0 cols "total_issued" (total_issued p) = fl i ->
                          i <= 0 -> retirement_ratio_score s = fl 50) /\
               (project_type p = None -> project_type_score s = fl 50) /\
               (row_get cols "registration_date" (registration_date p) = None \/
                row_get cols "crediting_period_start"
                        (crediting_period_start p) = None ->
                additionality_score s = fl 50) /\
               (country p = None \/
                (exists c, country p = Some c /\
                           dict_find COUNTRY_GOVERNANCE_SCORE (strip c) = None) ->
                f_same (governance_score s) (fl 50)))
            (rows df) (rows df').
Proof.
  intros Hpt Hco.
  destruct (score_all_rows today df reference_date Hpt Hco) as [df' [E [_ H]]].
  exists df'. split; [exact E|].
  revert H. apply Forall2_weaken.
  intros r r' (_ & _ & Hv & Hr & Hp & _ & Ha & Hg & _).
  set (ref := match reference_date with Some d => d | None => today end) in *.
  destruct (scoring_methods_default (columns df) r ref) as (Dv & Dr & Da).
  cbv zeta. repeat split.
  - intros Hmiss. rewrite (Dv Hmiss) in Hv. now injection Hv as <-.
  - intros i Hi Hle. rewrite (Dr i Hi Hle) in Hr. now injection Hr as <-.
  - intros Hmiss. now rewrite Hp, Hmiss.
  - intros Hmiss. rewrite (Da Hmiss) in Ha. now injection Ha as <-.
  - intros [Hmiss | [c [Hc Hmiss]]]; rewrite Hg.
    + rewrite Hmiss. vm_compute. reflexivity.
    + rewrite Hc. now apply governance_score_unknown.
Qed.

Lemma X22_witness_blank_record :
  exists df',
    score_all 0%Z (batch_of [blank_project; forest_project "REDD+"]) None = Ok df' /\
    Forall2 (fun r r' =>
               let cols := columns (batch_of [blank_project; forest_project "REDD+"]) in
               let p := project r in
               let s := scores r' in
               (row_get cols "registration_date" (registration_date p) = None ->
                vintage_score s = fl 50) /\
               (forall i, row_get_or_0 cols "total_issued" (total_issued p) = fl i ->
                          i <= 0 -> retirement_ratio_score s = fl 50) /\
               (project_type p = None -> project_type_score s = fl 50) /\
               (row_get cols "registration_date" (registration_date p) = None \/
                row_get cols "crediting_period_start"
                        (crediting_period_start p) = None ->
                additionality_score s = fl 50) /\
               (country p = None \/
                (exists c, country p = Some c /\
                           dict_find COUNTRY_GOVERNANCE_SCORE (strip c) = None) ->
                f_same (governance_score s) (fl 50)))
            (rows (batch_of [blank_project; forest_project "REDD+"])) (rows df').
Proof.
  apply (X22_missing_inputs_score_50 0%Z
           (batch_of [blank_project; forest_project "REDD+"]) None); reflexivity.
Defined.
